(** * Lifecycle trackers of zksync.js: [ETHOperation] and [Transaction]

    A shallow embedding of the two tracker classes at the end of
    [js/zksync.js/src/wallet.ts].  Both classes are small state machines
    driven by [async] methods that await collaborators (the outer-chain
    transaction handle and the zkSync provider) and mutate the fields of
    [this].  An [async] method is embedded as a function from the object and
    the history of network calls to a completion (returned value, thrown
    value, or a promise that never settles) together with the object and
    history it leaves behind. *)

From Stdlib Require Import ZArith List String Bool Lia.
From Stdlib Require DecimalString.
Import ListNotations.

Local Open Scope Z_scope.

(** ** Values exchanged with the collaborators *)

(** The second argument of [notifyPriorityOp] and [notifyTransaction]. *)
Inductive Depth : Type := COMMIT | VERIFY.

(** Modelled from the spec: [types.ts] is not part of the sources, so the
    receipt of a priority operation is the flag the tracker reads
    ([executed]) plus the receipt data that is opaque to it. *)
Record PriorityOperationReceipt : Type := mkPriorityOperationReceipt {
  executed : bool;
  priority_payload : string
}.

(** Modelled from the spec: [types.ts] is not part of the sources, so the
    receipt of an L2 transaction is the success flag, the reason string the
    network states on failure, and the opaque receipt data. *)
Record TransactionReceipt : Type := mkTransactionReceipt {
  success : bool;
  failReason : string;
  transaction_payload : string
}.

(** [value: PriorityOperationReceipt | TransactionReceipt]. *)
Inductive ReceiptValue : Type :=
| OfPriorityOperation (r : PriorityOperationReceipt)
| OfTransaction (r : TransactionReceipt).

(** [class ZKSyncTxError extends Error], lines 29-36. *)
Record ZKSyncTxError : Type := mkZKSyncTxError {
  message : string;
  value : ReceiptValue
}.

(** What a [throw] (or a rejected promise) can carry here. *)
Inductive JsThrown : Type :=
| Thrown_ZKSyncTxError (e : ZKSyncTxError)
| Thrown_Error (msg : string)
| Thrown_TypeError
| Thrown_undefined
| Thrown_foreign (reason : string).

(** [throw this.error] where [error?: ZKSyncTxError]. *)
Definition throw_value (error : option ZKSyncTxError) : JsThrown :=
  match error with
  | Some e => Thrown_ZKSyncTxError e
  | None => Thrown_undefined
  end.

(** ** Network activity *)

(** One round trip started by a tracker. *)
Inductive Event : Type :=
| Ev_wait
| Ev_notifyPriorityOp (serialId : Z) (action : Depth)
| Ev_notifyTransaction (hash : string) (action : Depth).

Definition Trace : Type := list Event.

(** How the promise of a collaborator ends. *)
Inductive Settled (A : Type) : Type :=
| Fulfilled (a : A)
| Rejected (reason : string)
| Forever.
Arguments Fulfilled {A} a.
Arguments Rejected {A} reason.
Arguments Forever {A}.

(** The two methods of [Provider] the trackers call.  The answer may depend
    on everything that was asked before. *)
Record Provider : Type := mkProvider {
  notifyPriorityOp : Trace -> Z -> Depth -> Settled PriorityOperationReceipt;
  notifyTransaction : Trace -> string -> Depth -> Settled TransactionReceipt
}.

(** [utils.BigNumber.toNumber()] of ethers: a JS number holds 53 bits, the
    call throws beyond that. *)
Definition toNumber (n : Z) : JsThrown + Z :=
  if Z.abs n <? 2 ^ 53 then inr n else inl (Thrown_foreign "overflow").

(** ** Async methods as state transformers *)

Inductive Completion (A : Type) : Type :=
| Returned (a : A)
| Threw (e : JsThrown)
| Unsettled.
Arguments Returned {A} a.
Arguments Threw {A} e.
Arguments Unsettled {A}.

(** An async method of an object of class [S] with result [A]. *)
Definition Async (S A : Type) : Type := S * Trace -> Completion A * (S * Trace).

Definition ret {S A} (a : A) : Async S A := fun st => (Returned a, st).

Definition bind {S A B} (m : Async S A) (k : A -> Async S B) : Async S B :=
  fun st =>
    match m st with
    | (Returned a, st') => k a st'
    | (Threw e, st') => (Threw e, st')
    | (Unsettled, st') => (Unsettled, st')
    end.

Definition throw {S A} (e : JsThrown) : Async S A := fun st => (Threw e, st).

Definition get_this {S} : Async S S := fun st => (Returned (fst st), st).

Definition update {S} (f : S -> S) : Async S unit :=
  fun st => (Returned tt, (f (fst st), snd st)).

(** [await p] where [p] is the promise of a collaborator: one round trip is
    recorded and the method goes on, throws, or stays suspended. *)
Definition await {S A} (ev : Event) (p : Trace -> Settled A) : Async S A :=
  fun st =>
    let st' := (fst st, (snd st ++ [ev])%list) in
    match p (snd st) with
    | Fulfilled a => (Returned a, st')
    | Rejected reason => (Threw (Thrown_foreign reason), st')
    | Forever => (Unsettled, st')
    end.

(** [for (const x of xs) body]. *)
Fixpoint for_of {S X} (xs : list X) (body : X -> Async S unit) : Async S unit :=
  match xs with
  | [] => ret tt
  | x :: rest => bind (body x) (fun _ => for_of rest body)
  end.

Declare Scope async_scope.
Delimit Scope async_scope with async.
Notation "x <- m ;; k" := (bind m (fun x => k))
  (at level 61, m at next level, right associativity) : async_scope.
Notation "m ;; k" := (bind m (fun _ => k))
  (at level 61, right associativity) : async_scope.

Definition completion {S A} (r : Completion A * (S * Trace)) : Completion A := fst r.
Definition object {S A} (r : Completion A * (S * Trace)) : S := fst (snd r).
Definition history {S A} (r : Completion A * (S * Trace)) : Trace := snd (snd r).

(** ** [class ETHOperation], lines 722-795 *)

Module ETHOp.

Inductive State : Type := Sent | Mined | Committed | Verified | Failed.

Definition State_eqb (a b : State) : bool :=
  match a, b with
  | Sent, Sent | Mined, Mined | Committed, Committed
  | Verified, Verified | Failed, Failed => true
  | _, _ => false
  end.

(** [priorityQueueLog.values] as far as the tracker reads it. *)
Record LogDescription : Type := mkLogDescription {
  serialId : option Z
}.

Section WithInterface.

(** A raw log entry of an inclusion receipt, and
    [SYNC_MAIN_CONTRACT_INTERFACE.parseLog], which [utils.ts] (not part of
    the sources) builds from the contract ABI: [None] is [null]. *)
Variable Log : Type.
Variable parseLog : Log -> option LogDescription.

Record ContractReceipt : Type := mkContractReceipt {
  logs : list Log
}.

(** [ContractTransaction]: the tracker only calls [wait()]. *)
Record ContractTransaction : Type := mkContractTransaction {
  wait : Trace -> Settled ContractReceipt
}.

Record ETHOperation : Type := mkETHOperation {
  state : State;
  error : option ZKSyncTxError;
  priorityOpId : option Z;
  ethTx : ContractTransaction;
  zkSyncProvider : Provider
}.

Definition set_state (s : State) (this : ETHOperation) : ETHOperation :=
  mkETHOperation s (error this) (priorityOpId this) (ethTx this) (zkSyncProvider this).

Definition set_error (e : ZKSyncTxError) (this : ETHOperation) : ETHOperation :=
  mkETHOperation (state this) (Some e) (priorityOpId this) (ethTx this) (zkSyncProvider this).

Definition set_priorityOpId (n : Z) (this : ETHOperation) : ETHOperation :=
  mkETHOperation (state this) (error this) (Some n) (ethTx this) (zkSyncProvider this).

(** The constructor: [this.state = "Sent"], the optional fields unset. *)
Definition new (ethTx : ContractTransaction) (zkSyncProvider : Provider) : ETHOperation :=
  mkETHOperation Sent None None ethTx zkSyncProvider.

Local Open Scope async_scope.

(** Lines 787-790. *)
Definition setErrorState (e : ZKSyncTxError) : Async ETHOperation unit :=
  update (set_state Failed) ;;
  update (set_error e).

(** Lines 792-794. *)
Definition throwErrorIfFailedState : Async ETHOperation unit :=
  this <- get_this ;;
  if State_eqb (state this) Failed then throw (throw_value (error this)) else ret tt.

(** The body of the loop of lines 738-743. *)
Definition scan_log (log : Log) : Async ETHOperation unit :=
  match parseLog log with
  | Some priorityQueueLog =>
      match serialId priorityQueueLog with
      | Some id => update (set_priorityOpId id)
      | None => ret tt
      end
  | None => ret tt
  end.

(** Lines 734-750. *)
Definition awaitEthereumTxCommit : Async ETHOperation (option ContractReceipt) :=
  this <- get_this ;;
  if negb (State_eqb (state this) Sent) then ret None else
  txReceipt <- await Ev_wait (wait (ethTx this)) ;;
  for_of (logs txReceipt) scan_log ;;
  this <- get_this ;;
  match priorityOpId this with
  | None => throw (Thrown_Error "Failed to parse tx logs")
  | Some _ =>
      update (set_state Mined) ;;
      ret (Some txReceipt)
  end.

(** [this.priorityOpId.toNumber()]: a [TypeError] when the field is unset. *)
Definition priorityOpId_toNumber : Async ETHOperation Z :=
  this <- get_this ;;
  match priorityOpId this with
  | None => throw Thrown_TypeError
  | Some id =>
      match toNumber id with
      | inl e => throw e
      | inr n => ret n
      end
  end.

(** Lines 752-771. *)
Definition awaitReceipt : Async ETHOperation (option PriorityOperationReceipt) :=
  throwErrorIfFailedState ;;
  awaitEthereumTxCommit ;;
  this <- get_this ;;
  if negb (State_eqb (state this) Mined) then ret None else
  n <- priorityOpId_toNumber ;;
  receipt <- await (Ev_notifyPriorityOp n COMMIT)
               (fun tr => notifyPriorityOp (zkSyncProvider this) tr n COMMIT) ;;
  (if negb (executed receipt) then
     setErrorState
       (mkZKSyncTxError "Priority operation failed" (OfPriorityOperation receipt)) ;;
     throwErrorIfFailedState
   else ret tt) ;;
  update (set_state Committed) ;;
  ret (Some receipt).

(** Lines 773-785. *)
Definition awaitVerifyReceipt : Async ETHOperation (option PriorityOperationReceipt) :=
  awaitReceipt ;;
  this <- get_this ;;
  if negb (State_eqb (state this) Committed) then ret None else
  n <- priorityOpId_toNumber ;;
  receipt <- await (Ev_notifyPriorityOp n VERIFY)
               (fun tr => notifyPriorityOp (zkSyncProvider this) tr n VERIFY) ;;
  update (set_state Verified) ;;
  ret (Some receipt).

(** A caller's await on the tracker, the result dropped. *)
Inductive Method : Type := AwaitEthereumTxCommit | AwaitReceipt | AwaitVerifyReceipt.

Definition call (m : Method) (st : ETHOperation * Trace) : ETHOperation * Trace :=
  match m with
  | AwaitEthereumTxCommit => snd (awaitEthereumTxCommit st)
  | AwaitReceipt => snd (awaitReceipt st)
  | AwaitVerifyReceipt => snd (awaitVerifyReceipt st)
  end.

(** A sequence of awaits, one after the other. *)
Definition calls (ms : list Method) (st : ETHOperation * Trace) : ETHOperation * Trace :=
  fold_left (fun st m => call m st) ms st.

(** The serial ids of the logs that parse to one, in receipt order. *)
Fixpoint serialIds (ls : list Log) : list Z :=
  match ls with
  | [] => []
  | log :: rest =>
      match parseLog log with
      | Some (mkLogDescription (Some id)) => id :: serialIds rest
      | _ => serialIds rest
      end
  end.

(** The await for a confirmation depth. *)
Definition await_depth (d : Depth) : Async ETHOperation (option PriorityOperationReceipt) :=
  match d with
  | COMMIT => awaitReceipt
  | VERIFY => awaitVerifyReceipt
  end.

(** The object the loop of lines 738-743 leaves behind: [priorityOpId]
    holds the last serial id found, or what it held before when none is. *)
Definition scanned (ls : list Log) (this : ETHOperation) : ETHOperation :=
  mkETHOperation (state this) (error this)
    (last (map Some (serialIds ls)) (priorityOpId this))
    (ethTx this) (zkSyncProvider this).

End WithInterface.

Arguments logs {Log} _.
Arguments wait {Log} _ _.
Arguments state {Log} _.
Arguments error {Log} _.
Arguments priorityOpId {Log} _.
Arguments ethTx {Log} _.
Arguments zkSyncProvider {Log} _.
Arguments set_state {Log} _ _.
Arguments set_error {Log} _ _.
Arguments set_priorityOpId {Log} _ _.
Arguments new {Log} _ _.

(** The ordering Sent < Mined < Committed < Verified. *)
Definition rank (s : State) : nat :=
  match s with Sent => 0 | Mined => 1 | Committed => 2 | Verified => 3 | Failed => 4 end.

(** A permitted move: forward (or staying), or into [Failed]; nothing
    leaves [Failed]. *)
Definition permitted (s s' : State) : bool :=
  match s, s' with
  | Failed, Failed => true
  | Failed, _ => false
  | _, Failed => true
  | _, _ => Nat.leb (rank s) (rank s')
  end.

(** Whether a tracker in state [s] has reached depth [d], or has failed. *)
Definition reached (d : Depth) (s : State) : bool :=
  match d, s with
  | _, Failed => true
  | COMMIT, (Committed | Verified) => true
  | VERIFY, Verified => true
  | _, _ => false
  end.

(** The fields that go together: no identifier and no error in [Sent], an
    identifier and no error in [Mined], [Committed] and [Verified], an
    identifier and an error in [Failed]. *)
Definition consistent {Log} (this : ETHOperation Log) : bool :=
  match state this, priorityOpId this, error this with
  | Sent, None, None => true
  | (Mined | Committed | Verified), Some _, None => true
  | Failed, Some _, Some _ => true
  | _, _, _ => false
  end.

(** What an await completes with when nothing is left to do: the stored
    error is thrown in [Failed], [undefined] is returned otherwise. *)
Definition replay {Log} (this : ETHOperation Log)
  : Completion (option PriorityOperationReceipt) :=
  if State_eqb (state this) Failed then Threw (throw_value (error this))
  else Returned None.

End ETHOp.

(** ** [class Transaction], lines 797-852 *)

Module Tx.

Inductive State : Type := Sent | Committed | Verified | Failed.

Definition State_eqb (a b : State) : bool :=
  match a, b with
  | Sent, Sent | Committed, Committed | Verified, Verified | Failed, Failed => true
  | _, _ => false
  end.

Record Transaction : Type := mkTransaction {
  state : State;
  error : option ZKSyncTxError;
  txData : string;
  txHash : string;
  sidechainProvider : Provider
}.

Definition set_state (s : State) (this : Transaction) : Transaction :=
  mkTransaction s (error this) (txData this) (txHash this) (sidechainProvider this).

Definition set_error (e : ZKSyncTxError) (this : Transaction) : Transaction :=
  mkTransaction (state this) (Some e) (txData this) (txHash this) (sidechainProvider this).

(** The constructor: [this.state = "Sent"], [error] unset. *)
Definition new (txData txHash : string) (sidechainProvider : Provider) : Transaction :=
  mkTransaction Sent None txData txHash sidechainProvider.

Local Open Scope async_scope.

(** Lines 844-847. *)
Definition setErrorState (e : ZKSyncTxError) : Async Transaction unit :=
  update (set_state Failed) ;;
  update (set_error e).

(** Lines 849-851. *)
Definition throwErrorIfFailedState : Async Transaction unit :=
  this <- get_this ;;
  if State_eqb (state this) Failed then throw (throw_value (error this)) else ret tt.

(** Lines 809-831. *)
Definition awaitReceipt : Async Transaction (option TransactionReceipt) :=
  throwErrorIfFailedState ;;
  this <- get_this ;;
  if negb (State_eqb (state this) Sent) then ret None else
  receipt <- await (Ev_notifyTransaction (txHash this) COMMIT)
               (fun tr => notifyTransaction (sidechainProvider this) tr (txHash this) COMMIT) ;;
  (if negb (success receipt) then
     setErrorState
       (mkZKSyncTxError
          (String.append "zkSync transaction failed: " (failReason receipt))
          (OfTransaction receipt)) ;;
     throwErrorIfFailedState
   else ret tt) ;;
  update (set_state Committed) ;;
  ret (Some receipt).

(** Lines 833-842. *)
Definition awaitVerifyReceipt : Async Transaction TransactionReceipt :=
  awaitReceipt ;;
  this <- get_this ;;
  receipt <- await (Ev_notifyTransaction (txHash this) VERIFY)
               (fun tr => notifyTransaction (sidechainProvider this) tr (txHash this) VERIFY) ;;
  update (set_state Verified) ;;
  ret receipt.

(** A caller's await on the tracker, the result dropped. *)
Inductive Method : Type := AwaitReceipt | AwaitVerifyReceipt.

Definition call (m : Method) (st : Transaction * Trace) : Transaction * Trace :=
  match m with
  | AwaitReceipt => snd (awaitReceipt st)
  | AwaitVerifyReceipt => snd (awaitVerifyReceipt st)
  end.

(** A sequence of awaits, one after the other. *)
Definition calls (ms : list Method) (st : Transaction * Trace) : Transaction * Trace :=
  fold_left (fun st m => call m st) ms st.

(** The ordering Sent < Committed < Verified. *)
Definition rank (s : State) : nat :=
  match s with Sent => 0 | Committed => 1 | Verified => 2 | Failed => 3 end.

(** A permitted move: forward (or staying), or into [Failed]; nothing
    leaves [Failed]. *)
Definition permitted (s s' : State) : bool :=
  match s, s' with
  | Failed, Failed => true
  | Failed, _ => false
  | _, Failed => true
  | _, _ => Nat.leb (rank s) (rank s')
  end.

(** Whether a tracker in state [s] has reached COMMIT depth, or has
    failed. *)
Definition reached_commit (s : State) : bool :=
  match s with
  | Sent => false
  | _ => true
  end.

(** The fields that go together: an error in [Failed] and only there. *)
Definition consistent (this : Transaction) : bool :=
  match state this, error this with
  | Failed, Some _ => true
  | Failed, None => false
  | _, None => true
  | _, Some _ => false
  end.

(** What [awaitReceipt] completes with when nothing is left to do. *)
Definition replay (this : Transaction) : Completion (option TransactionReceipt) :=
  if State_eqb (state this) Failed then Threw (throw_value (error this))
  else Returned None.

End Tx.

(** ** Concrete collaborators

    A small contract interface and scripted collaborators, used to run the
    trackers on explicit inputs. *)

Module Sample.

(** A raw log: the event it was emitted by and one data word. *)
Record Log : Type := mkLog {
  topic : string;
  data : Z
}.

(** [NewPriorityRequest] carries a serial id; [BlockCommit] is an event of
    the same contract without one; anything else does not parse. *)
Definition parseLog (log : Log) : option ETHOp.LogDescription :=
  if String.eqb (topic log) "NewPriorityRequest"
  then Some (ETHOp.mkLogDescription (Some (data log)))
  else if String.eqb (topic log) "BlockCommit"
  then Some (ETHOp.mkLogDescription None)
  else None.

(** An outer-chain transaction that is included with the logs [ls]. *)
Definition included (ls : list Log) : ETHOp.ContractTransaction Log :=
  ETHOp.mkContractTransaction Log (fun _ => Fulfilled (ETHOp.mkContractReceipt Log ls)).

(** A provider that answers every COMMIT poll with flag [commit_ok] and
    every VERIFY poll with flag [verify_ok]. *)
Definition provider (commit_ok verify_ok : bool) : Provider :=
  mkProvider
    (fun _ _ d =>
       Fulfilled (mkPriorityOperationReceipt
                    (match d with COMMIT => commit_ok | VERIFY => verify_ok end)
                    "block 7"))
    (fun _ _ d =>
       Fulfilled (mkTransactionReceipt
                    (match d with COMMIT => commit_ok | VERIFY => verify_ok end)
                    "insufficient balance"
                    "block 7")).

Definition deposit_log : Log := mkLog "NewPriorityRequest" 42.
Definition second_deposit_log : Log := mkLog "NewPriorityRequest" 43.
Definition commit_log : Log := mkLog "BlockCommit" 5.
Definition foreign_log : Log := mkLog "Transfer" 9.

(** Shorthands for the methods at this interface. *)
Definition awaitEthereumTxCommit := ETHOp.awaitEthereumTxCommit Log parseLog.
Definition awaitReceipt := ETHOp.awaitReceipt Log parseLog.
Definition awaitVerifyReceipt := ETHOp.awaitVerifyReceipt Log parseLog.

Definition await_depth := ETHOp.await_depth Log parseLog.
Definition calls := ETHOp.calls Log parseLog.

(** A deposit whose inclusion receipt carries one priority-operation event
    (serial id 42) between two other logs. *)
Definition deposit (commit_ok verify_ok : bool) : ETHOp.ETHOperation Log :=
  ETHOp.new (included [foreign_log; deposit_log; commit_log])
            (provider commit_ok verify_ok).

(** A deposit whose inclusion receipt carries no priority-operation event. *)
Definition deposit_without_event : ETHOp.ETHOperation Log :=
  ETHOp.new (included [foreign_log; commit_log]) (provider true true).

(** A deposit whose inclusion receipt carries two such events. *)
Definition deposit_with_two_events : ETHOp.ETHOperation Log :=
  ETHOp.new (included [deposit_log; commit_log; second_deposit_log])
            (provider true true).

(** An L2 transfer. *)
Definition transfer (commit_ok verify_ok : bool) : Tx.Transaction :=
  Tx.new "transfer" "sync-tx:ab12" (provider commit_ok verify_ok).

(** The receipts the scripted provider answers with. *)
Definition priority_receipt (ok : bool) : PriorityOperationReceipt :=
  mkPriorityOperationReceipt ok "block 7".

Definition transaction_receipt (ok : bool) : TransactionReceipt :=
  mkTransactionReceipt ok "insufficient balance" "block 7".

(** The inclusion receipts of the three deposits. *)
Definition deposit_receipt : ETHOp.ContractReceipt Log :=
  ETHOp.mkContractReceipt Log [foreign_log; deposit_log; commit_log].

Definition receipt_without_event : ETHOp.ContractReceipt Log :=
  ETHOp.mkContractReceipt Log [foreign_log; commit_log].

Definition receipt_with_two_events : ETHOp.ContractReceipt Log :=
  ETHOp.mkContractReceipt Log [deposit_log; commit_log; second_deposit_log].

(** A deposit after [awaitReceipt] took it to [Committed]; its provider
    will answer the VERIFY poll with [executed] false. *)
Definition committed_deposit : ETHOp.ETHOperation Log * Trace :=
  snd (awaitReceipt (deposit true false, [])).

(** A deposit after [awaitVerifyReceipt] ended in [Failed]. *)
Definition failed_deposit : ETHOp.ETHOperation Log * Trace :=
  snd (awaitVerifyReceipt (deposit false true, [])).

(** A transfer after [awaitReceipt] took it to [Committed]; its provider
    will answer the VERIFY poll with [success] false. *)
Definition committed_transfer : Tx.Transaction * Trace :=
  snd (Tx.awaitReceipt (transfer true false, [])).

(** A transfer after [awaitVerifyReceipt] took it to [Verified]. *)
Definition verified_transfer : Tx.Transaction * Trace :=
  snd (Tx.awaitVerifyReceipt (transfer true true, [])).

(** A transfer after [awaitReceipt] ended in [Failed]. *)
Definition failed_transfer : Tx.Transaction * Trace :=
  snd (Tx.awaitReceipt (transfer false true, [])).

End Sample.

(** ** [class Wallet], lines 38-720

    The wallet talks to an Ethereum signer (with the contracts reached
    through it) and to the zkSync provider; the requests it sends are
    logged next to the wallet, [S * RLog] being the state of its methods. *)

Module Wallet.

Local Open Scope string_scope.

Definition Address : Type := string.
Definition PubKeyHash : Type := string.
Definition TokenLike : Type := string.

(** [Nonce = number | "committed"]. *)
Inductive Nonce : Type := Nonce_committed | Nonce_number (n : Z).

(** [utils.BigNumberish]: a string, a JS number or a [BigNumber]. *)
Inductive BigNumberish : Type :=
| BN_string (s : string)
| BN_number (n : Z)
| BN_big (n : Z).

(** JS falsiness of such a value: the empty string and the number 0. *)
Definition falsy (v : BigNumberish) : bool :=
  match v with
  | BN_string EmptyString => true
  | BN_number 0 => true
  | _ => false
  end.

(** [types.ts] is not part of the sources; the records below hold the
    fields [wallet.ts] reads or writes. *)
Record EthSignerType : Type := mkEthSignerType {
  verificationMethod : string;
  isSignedMsgPrefixed : bool
}.

Record TxEthSignature : Type := mkTxEthSignature {
  type : string;
  signature : string
}.

(** [balances] is a JS object read as a map from token symbols. *)
Record AccountSide : Type := mkAccountSide {
  balances : string -> option BigNumberish;
  nonce : Z;
  pubKeyHash : PubKeyHash
}.

Record AccountState : Type := mkAccountState {
  id : option Z;
  committed : AccountSide;
  verified : AccountSide
}.

Record Fee : Type := mkFee {
  totalFee : Z
}.

(** A key of a JS object literal: absent, present with [undefined] or
    [null], or present with a value. *)
Inductive Field (A : Type) : Type :=
| Absent
| Undefined
| Value (a : A).
Arguments Absent {A}.
Arguments Undefined {A}.
Arguments Value {A} a.

(** [x.key == null]. *)
Definition is_null {A} (f : Field A) : bool :=
  match f with
  | Value _ => false
  | _ => true
  end.

(** A variable that may hold [undefined], written as a key of a literal. *)
Definition of_optional {A} (o : option A) : Field A :=
  match o with
  | Some a => Value a
  | None => Undefined
  end.

(** [ethers.providers.TransactionRequest]: the keys the wallet writes, and
    the other keys a caller may pass, kept as they are. *)
Record TransactionRequest : Type := mkTransactionRequest {
  req_nonce : Field Z;
  req_gasLimit : Field BigNumberish;
  req_gasPrice : Field BigNumberish;
  req_value : Field BigNumberish;
  req_rest : list (string * string)
}.

(** One key of [{ ...literal, ...options }]: a key of [options] wins
    whenever it is present. *)
Definition overridden {A} (literal options : Field A) : Field A :=
  match options with
  | Absent => literal
  | _ => options
  end.

(** [{ key: v, ..., ...options }] where the literal has none of the other
    keys and [options] may be [undefined]. *)
Definition spread (literal : TransactionRequest) (options : option TransactionRequest)
  : TransactionRequest :=
  match options with
  | None => literal
  | Some o =>
      mkTransactionRequest
        (overridden (req_nonce literal) (req_nonce o))
        (overridden (req_gasLimit literal) (req_gasLimit o))
        (overridden (req_gasPrice literal) (req_gasPrice o))
        (overridden (req_value literal) (req_value o))
        (req_rest o)
  end.

(** [options.key] of options that may be [undefined] ([Absent] then). *)
Definition key_of {A} (key : TransactionRequest -> Field A)
  (options : option TransactionRequest) : Field A :=
  match options with
  | Some o => key o
  | None => Absent
  end.

(** The object handed to [signSyncTransfer] and [signSyncTransferFrom]. *)
Record TransferData : Type := mkTransferData {
  td_accountId : option Z;
  td_from : Address;
  td_to : Address;
  td_tokenId : Z;
  td_amount : BigNumberish;
  td_fee : BigNumberish;
  td_nonce : Z
}.

(** The object handed to [signSyncWithdraw]. *)
Record WithdrawData : Type := mkWithdrawData {
  wd_accountId : option Z;
  wd_from : Address;
  wd_ethAddress : string;
  wd_tokenId : Z;
  wd_amount : BigNumberish;
  wd_fee : BigNumberish;
  wd_nonce : Z
}.

(** The literal of lines 270-281. *)
Record TransferFromTx : Type := mkTransferFromTx {
  tf_toAccountId : option Z;
  tf_from : Address;
  tf_to : Address;
  tf_token : Z;
  tf_amount : string;
  tf_fee : string;
  tf_toNonce : Z;
  tf_fromSignature : string;
  tf_toSignature : string
}.

(** The literal of lines 412-419; [ethSignature] may be [null]. *)
Record ChangePubKey : Type := mkChangePubKey {
  cpk_accountId : option Z;
  cpk_account : Address;
  cpk_newPkHash : PubKeyHash;
  cpk_nonce : Z;
  cpk_ethSignature : option string
}.

(** What [submitTx] is given: a transaction signed by the zkSync signer
    (opaque here), or one of the two literals. *)
Inductive TxObject : Type :=
| Tx_signed (signed : string)
| Tx_TransferFrom (tx : TransferFromTx)
| Tx_ChangePubKey (tx : ChangePubKey).

(** One request sent by the wallet. *)
Inductive Request : Type :=
| Req_getAddress
| Req_fromETHSignature
| Req_signMessage (signedBytes : string)
| Req_getGasPrice
| Req_getBalance (address : Address)
| Req_getState (address : Address)
| Req_getTransactionFee (txType : string) (address : Address) (token : TokenLike)
| Req_submitTx (tx : TxObject) (ethSignature : option TxEthSignature)
| Req_authFacts (contract : Address) (account : Address) (nonce : Z)
| Req_setAuthPubkeyHash (contract : Address) (pubKeyHash : string) (nonce : Z)
                        (options : TransactionRequest)
| Req_depositETH (contract : Address) (depositTo : Address) (options : TransactionRequest)
| Req_estimate_depositERC20 (contract : Address) (token : Address) (amount : BigNumberish)
                            (depositTo : Address) (options : TransactionRequest)
| Req_depositERC20 (contract : Address) (token : Address) (amount : BigNumberish)
                   (depositTo : Address) (options : TransactionRequest)
| Req_fullExit (contract : Address) (accountId : Z) (token : Address)
               (options : TransactionRequest)
| Req_allowance (token : Address) (owner spender : Address)
| Req_approve (token : Address) (spender : Address) (amount : BigNumberish)
| Req_balanceOf (token : Address) (owner : Address).

Definition RLog : Type := list Request.

(** [signer.ts] is not part of the sources: the zkSync signer is its public
    key hash and its signing methods, which may throw. *)
Record Signer : Type := mkSigner {
  signer_pubKeyHash : PubKeyHash;
  signSyncTransfer : TransferData -> JsThrown + string;
  signSyncTransferFrom : TransferData -> JsThrown + string;
  signSyncWithdraw : WithdrawData -> JsThrown + string
}.

(** [provider.ts] is not part of the sources: the provider as the wallet
    uses it, with the part the trackers use as [notifier].  The methods of
    [tokenSet] are synchronous and may throw. *)
Record SyncProvider : Type := mkSyncProvider {
  notifier : Provider;
  getState : RLog -> Address -> Settled AccountState;
  submitTx : RLog -> TxObject -> option TxEthSignature -> Settled string;
  getTransactionFee : RLog -> string -> Address -> TokenLike -> Settled Fee;
  resolveTokenId : TokenLike -> JsThrown + Z;
  resolveTokenSymbol : TokenLike -> JsThrown + string;
  resolveTokenAddress : TokenLike -> JsThrown + Address;
  formatToken : TokenLike -> BigNumberish -> JsThrown + string;
  mainContract : Address
}.

(** [${n}] for a JS number that is an integer. *)
Definition number_toString (n : Z) : string :=
  DecimalString.NilZero.string_of_int (Z.to_int n).

(** [${this.accountId}]. *)
Definition optional_number_toString (n : option Z) : string :=
  match n with
  | Some n => number_toString n
  | None => "undefined"
  end.

(** The line feed of the template literals. *)
Definition LF : string := String (Ascii.ascii_of_nat 10) EmptyString.

(** [s.replace(pattern, replacement)] for a string pattern: the first
    occurrence is replaced. *)
Definition replace (pattern replacement s : string) : string :=
  match String.index 0 pattern s with
  | Some i =>
      String.append (String.substring 0 i s)
        (String.append replacement
           (String.substring (i + String.length pattern)
              (String.length s - (i + String.length pattern)) s))
  | None => s
  end.

(** A request to a collaborator, awaited: it is logged, and the method goes
    on, throws, or stays suspended. *)
Definition request {S A} (ev : Request) (p : RLog -> Settled A) : Async (S * RLog) A :=
  fun st =>
    let st' := ((fst (fst st), (snd (fst st) ++ [ev])%list), snd st) in
    match p (snd (fst st)) with
    | Fulfilled a => (Returned a, st')
    | Rejected reason => (Threw (Thrown_foreign reason), st')
    | Forever => (Unsettled, st')
    end.

(** A synchronous call that may throw. *)
Definition sync {S A} (r : JsThrown + A) : Async S A :=
  match r with
  | inl e => throw e
  | inr a => ret a
  end.

Section WithUtils.

(** The raw log type of the contract interface, as for [ETHOp]. *)
Variable Log : Type.

(** [utils.ts] is not part of the sources: its functions and constants are
    taken as they are used.  [parseBigNumber] is [utils.bigNumberify] of
    ethers on strings and numbers; [toLowerCase] is the JS string method;
    [txData_of] names the object kept in the inert [txData] field of a
    [Transaction]. *)
Variable isTokenETH : TokenLike -> bool.
Variable getSignedBytesFromMessage : string -> bool -> JsThrown + string.
Variable getChangePubkeyMessage : PubKeyHash -> Z -> option Z -> JsThrown + string.
Variable ERC20_APPROVE_TRESHOLD : Z.
Variable ERC20_DEPOSIT_GAS_LIMIT : Z.
Variable MAX_ERC20_APPROVE_AMOUNT : BigNumberish.
Variable parseBigNumber : BigNumberish -> JsThrown + Z.
Variable toLowerCase : string -> string.
Variable txData_of : TxObject -> string.

(** [utils.bigNumberify]: a [BigNumber] is returned as it is. *)
Definition bigNumberify (v : BigNumberish) : JsThrown + Z :=
  match v with
  | BN_big n => inr n
  | _ => parseBigNumber v
  end.

(** An ethers [ContractTransaction]: the handle the tracker waits on, and
    its [nonce]. *)
Record SentTransaction : Type := mkSentTransaction {
  handle : ETHOp.ContractTransaction Log;
  sent_nonce : Z
}.

(** The Ethereum signer with its provider, and the contracts called through
    it ([new Contract(address, interface, this.ethSigner)]); the first
    argument of a contract method is the address of the contract.
    [fromETHSignature] is [Signer.fromETHSignature(ethWallet)] and
    [signMessagePersonalAPI] the function of [utils.ts] on this signer. *)
Record EthSigner : Type := mkEthSigner {
  getAddress : RLog -> Settled Address;
  fromETHSignature : RLog -> Settled (Signer * EthSignerType);
  signMessagePersonalAPI : RLog -> string -> Settled string;
  provider_getGasPrice : RLog -> Settled Z;
  provider_getBalance : RLog -> Address -> Settled Z;
  authFacts : RLog -> Address -> Address -> Z -> Settled string;
  setAuthPubkeyHash : RLog -> Address -> string -> Z -> TransactionRequest
                      -> Settled SentTransaction;
  depositETH : RLog -> Address -> Address -> TransactionRequest -> Settled SentTransaction;
  estimate_depositERC20 : RLog -> Address -> Address -> BigNumberish -> Address
                          -> TransactionRequest -> Settled Z;
  depositERC20 : RLog -> Address -> Address -> BigNumberish -> Address
                 -> TransactionRequest -> Settled SentTransaction;
  fullExit : RLog -> Address -> Z -> Address -> TransactionRequest -> Settled SentTransaction;
  allowance : RLog -> Address -> Address -> Address -> Settled Z;
  approve : RLog -> Address -> Address -> BigNumberish -> Settled SentTransaction;
  balanceOf : RLog -> Address -> Address -> Settled Z
}.

Record Wallet : Type := mkWallet {
  ethSigner : EthSigner;
  cachedAddress : Address;
  signer : option Signer;
  accountId : option Z;
  ethSignerType : option EthSignerType;
  provider : SyncProvider
}.

Definition set_accountId (n : Z) (this : Wallet) : Wallet :=
  mkWallet (ethSigner this) (cachedAddress this) (signer this) (Some n)
           (ethSignerType this) (provider this).

Definition set_provider (p : SyncProvider) (this : Wallet) : Wallet :=
  mkWallet (ethSigner this) (cachedAddress this) (signer this) (accountId this)
           (ethSignerType this) p.

(** A method of the wallet; a static method has no [this]. *)
Definition Method (A : Type) : Type := Async (Wallet * RLog) A.
Definition Static (A : Type) : Type := Async (unit * RLog) A.

Definition this_ : Method Wallet := fun st => (Returned (fst (fst st)), st).

Definition assign (f : Wallet -> Wallet) : Method unit :=
  update (fun s => (f (fst s), snd s)).

Local Open Scope async_scope.

(** Lines 49-52. *)
Definition connect (p : SyncProvider) : Method unit :=
  assign (set_provider p).

(** Lines 54-81; the private constructor leaves [provider] to [connect]. *)
Definition fromEthSigner (ethWallet : EthSigner) (p : SyncProvider)
  (signer : option Signer) (accountId : option Z) (ethSignerType : option EthSignerType)
  : Static Wallet :=
  keys <- match signer with
          | None =>
              signerResult <- request Req_fromETHSignature (fromETHSignature ethWallet) ;;
              ret (fst signerResult,
                   match ethSignerType with
                   | Some t => t
                   | None => snd signerResult
                   end)
          | Some s =>
              match ethSignerType with
              | None => throw (Thrown_Error
                                 "If you passed signer, you must also pass ethSignerType.")
              | Some t => ret (s, t)
              end
          end ;;
  address <- request Req_getAddress (getAddress ethWallet) ;;
  ret (mkWallet ethWallet address (Some (fst keys)) accountId (Some (snd keys)) p).

(** Lines 83-98. *)
Definition fromEthSignerNoKeys (ethWallet : EthSigner) (p : SyncProvider)
  (accountId : option Z) (ethSignerType : option EthSignerType) : Static Wallet :=
  address <- request Req_getAddress (getAddress ethWallet) ;;
  ret (mkWallet ethWallet address None accountId ethSignerType p).

(** Lines 500-502. *)
Definition address : Method Address :=
  this <- this_ ;;
  ret (cachedAddress this).

(** Lines 504-506. *)
Definition getAccountState : Method AccountState :=
  this <- this_ ;;
  a <- address ;;
  request (Req_getState a) (fun log => getState (provider this) log a).

(** Lines 482-485. *)
Definition getCurrentPubKeyHash : Method PubKeyHash :=
  state <- getAccountState ;;
  ret (pubKeyHash (committed state)).

(** Lines 487-494; an omitted argument is ["committed"]. *)
Definition getNonce (nonce : option Nonce) : Method Z :=
  match nonce with
  | None | Some Nonce_committed =>
      state <- getAccountState ;;
      ret (Wallet.nonce (committed state))
  | Some (Nonce_number n) => ret n
  end.

(** Lines 496-498. *)
Definition getAccountId : Method (option Z) :=
  state <- getAccountState ;;
  ret (id state).

(** Lines 708-719. *)
Definition setRequiredAccountIdFromServer (actionName : string) : Method unit :=
  this <- this_ ;;
  match accountId this with
  | Some _ => ret tt
  | None =>
      accountIdFromServer <- getAccountId ;;
      match accountIdFromServer with
      | None =>
          throw (Thrown_Error
                   (String.append "Failed to "
                      (String.append actionName
                         ": Account does not exist in the zkSync network")))
      | Some n => assign (set_accountId n)
      end
  end.

(** Lines 100-122. *)
Definition getEthMessageSignature (message : string) : Method TxEthSignature :=
  this <- this_ ;;
  match ethSignerType this with
  | None => throw (Thrown_Error "ethSignerType is unknown")
  | Some t =>
      signedBytes <- sync (getSignedBytesFromMessage message (negb (isSignedMsgPrefixed t))) ;;
      signature <- request (Req_signMessage signedBytes)
                     (fun log => signMessagePersonalAPI (ethSigner this) log signedBytes) ;;
      ret (mkTxEthSignature
             (if String.eqb (verificationMethod t) "ECDSA"
              then "EthereumSignature" else "EIP1271Signature")
             signature)
  end.

(** Lines 508-521; [onVerified] is [type !== "committed"]. *)
Definition getBalance (token : TokenLike) (onVerified : bool) : Method Z :=
  this <- this_ ;;
  accountState <- getAccountState ;;
  tokenSymbol <- sync (resolveTokenSymbol (provider this) token) ;;
  let side := if onVerified then verified accountState else committed accountState in
  let balance :=
    match balances side tokenSymbol with
    | Some v => if falsy v then BN_string "0" else v
    | None => BN_string "0"
    end in
  sync (bigNumberify balance).

(** Lines 523-538. *)
Definition getEthereumBalance (token : TokenLike) : Method Z :=
  this <- this_ ;;
  if isTokenETH token then
    request (Req_getBalance (cachedAddress this))
      (fun log => provider_getBalance (ethSigner this) log (cachedAddress this))
  else
    tokenAddress <- sync (resolveTokenAddress (provider this) token) ;;
    request (Req_balanceOf tokenAddress (cachedAddress this))
      (fun log => balanceOf (ethSigner this) log tokenAddress (cachedAddress this)).

(** Lines 540-555. *)
Definition isERC20DepositsApproved (token : TokenLike) : Method bool :=
  this <- this_ ;;
  if isTokenETH token then throw (Thrown_Error "ETH token does not need approval.") else
  tokenAddress <- sync (resolveTokenAddress (provider this) token) ;;
  owner <- address ;;
  currentAllowance <- request (Req_allowance tokenAddress owner (mainContract (provider this)))
                        (fun log => allowance (ethSigner this) log tokenAddress owner
                                      (mainContract (provider this))) ;;
  a <- sync (bigNumberify (BN_big currentAllowance)) ;;
  ret (ERC20_APPROVE_TRESHOLD <=? a)%Z.

(** Lines 557-574. *)
Definition approveERC20TokenDeposits (token : TokenLike) : Method SentTransaction :=
  this <- this_ ;;
  if isTokenETH token then throw (Thrown_Error "ETH token does not need approval.") else
  tokenAddress <- sync (resolveTokenAddress (provider this) token) ;;
  request (Req_approve tokenAddress (mainContract (provider this)) MAX_ERC20_APPROVE_AMOUNT)
    (fun log => approve (ethSigner this) log tokenAddress (mainContract (provider this))
                  MAX_ERC20_APPROVE_AMOUNT).

(** Lines 370-379. *)
Definition isSigningKeySet : Method bool :=
  this <- this_ ;;
  match signer this with
  | None => throw (Thrown_Error "ZKSync signer is required for current pubkey calculation.")
  | Some s =>
      currentPubKeyHash <- getCurrentPubKeyHash ;;
      ret (String.eqb currentPubKeyHash (signer_pubKeyHash s))
  end.

(** Lines 381-423; omitted arguments are ["committed"] and [false]. *)
Definition setSigningKey (nonce : option Nonce) (onchainAuth : bool) : Method Tx.Transaction :=
  this <- this_ ;;
  match signer this with
  | None => throw (Thrown_Error "ZKSync signer is required for current pubkey calculation.")
  | Some s =>
      currentPubKeyHash <- getCurrentPubKeyHash ;;
      let newPubKeyHash := signer_pubKeyHash s in
      if String.eqb currentPubKeyHash newPubKeyHash
      then throw (Thrown_Error "Current signing key is already set") else
      setRequiredAccountIdFromServer "Set Signing Key" ;;
      numNonce <- getNonce nonce ;;
      this' <- this_ ;;
      changePubKeyMessage <- sync (getChangePubkeyMessage newPubKeyHash numNonce
                                     (accountId this')) ;;
      ethSignature <- (if onchainAuth then ret None else
                         sig <- getEthMessageSignature changePubKeyMessage ;;
                         ret (Some (signature sig))) ;;
      account <- address ;;
      let txData :=
        Tx_ChangePubKey (mkChangePubKey (accountId this') account (signer_pubKeyHash s)
                           numNonce ethSignature) in
      transactionHash <- request (Req_submitTx txData None)
                           (fun log => submitTx (provider this) log txData None) ;;
      ret (Tx.new (txData_of txData) transactionHash (notifier (provider this)))
  end.

(** Lines 425-443. *)
Definition isOnchainAuthSigningKeySet (nonce : option Nonce) : Method bool :=
  this <- this_ ;;
  numNonce <- getNonce nonce ;;
  account <- address ;;
  onchainAuthFact <- request (Req_authFacts (mainContract (provider this)) account numNonce)
                       (fun log => authFacts (ethSigner this) log
                                     (mainContract (provider this)) account numNonce) ;;
  ret (negb (String.eqb onchainAuthFact
               "0x0000000000000000000000000000000000000000000000000000000000000000")).

(** Lines 445-480. *)
Definition onchainAuthSigningKey (nonce : option Nonce)
  (ethTxOptions : option TransactionRequest) : Method SentTransaction :=
  this <- this_ ;;
  match signer this with
  | None => throw (Thrown_Error "ZKSync signer is required for current pubkey calculation.")
  | Some s =>
      currentPubKeyHash <- getCurrentPubKeyHash ;;
      let newPubKeyHash := signer_pubKeyHash s in
      if String.eqb currentPubKeyHash newPubKeyHash
      then throw (Thrown_Error "Current PubKeyHash is the same as new") else
      numNonce <- getNonce nonce ;;
      gasLimit <- sync (bigNumberify (BN_string "200000")) ;;
      let options :=
        spread (mkTransactionRequest Absent (Value (BN_big gasLimit)) Absent Absent [])
               ethTxOptions in
      request (Req_setAuthPubkeyHash (mainContract (provider this))
                 (replace "sync:" "0x" newPubKeyHash) numNonce options)
        (fun log => setAuthPubkeyHash (ethSigner this) log (mainContract (provider this))
                      (replace "sync:" "0x" newPubKeyHash) numNonce options)
  end.

(** [promise.then(x => x, handler)]: a rejection is handed to [handler]. *)
Definition recover {S A} (m : Async S A) (handler : JsThrown -> Async S A) : Async S A :=
  fun st =>
    match m st with
    | (Threw e, st') => handler e st'
    | r => r
    end.

Definition set_gasLimit (v : BigNumberish) (r : TransactionRequest) : TransactionRequest :=
  mkTransactionRequest (req_nonce r) (Value v) (req_gasPrice r) (req_value r) (req_rest r).

(** The argument of [depositToSyncFromEthereum]; an omitted
    [approveDepositAmountForERC20] is falsy. *)
Record DepositArgs : Type := mkDepositArgs {
  depositTo : Address;
  deposit_token : TokenLike;
  deposit_amount : BigNumberish;
  deposit_ethTxOptions : option TransactionRequest;
  approveDepositAmountForERC20 : bool
}.

(** Lines 576-658.  The [ETHProxy] built at lines 585-588 is not used. *)
Definition depositToSyncFromEthereum (deposit : DepositArgs)
  : Method (ETHOp.ETHOperation Log) :=
  this <- this_ ;;
  gasPrice <- request Req_getGasPrice (provider_getGasPrice (ethSigner this)) ;;
  let main := mainContract (provider this) in
  ethTransaction <-
    (if isTokenETH (deposit_token deposit) then
       value <- sync (bigNumberify (deposit_amount deposit)) ;;
       gasLimit <- sync (bigNumberify (BN_string "200000")) ;;
       let options :=
         spread (mkTransactionRequest Absent (Value (BN_big gasLimit))
                   (Value (BN_big gasPrice)) (Value (BN_big value)) [])
                (deposit_ethTxOptions deposit) in
       request (Req_depositETH main (depositTo deposit) options)
         (fun log => depositETH (ethSigner this) log main (depositTo deposit) options)
     else
       tokenAddress <- sync (resolveTokenAddress (provider this) (deposit_token deposit)) ;;
       nonce <- (if approveDepositAmountForERC20 deposit then
                   approveTx <- request (Req_approve tokenAddress main (deposit_amount deposit))
                                  (fun log => approve (ethSigner this) log tokenAddress main
                                                (deposit_amount deposit)) ;;
                   ret (Some (sent_nonce approveTx + 1))
                 else ret None) ;;
       let txRequest :=
         spread (mkTransactionRequest (of_optional nonce) Absent
                   (Value (BN_big gasPrice)) Absent [])
                (deposit_ethTxOptions deposit) in
       txRequest <-
         (if is_null (req_gasLimit txRequest) then
            gasEstimate <-
              recover
                (request (Req_estimate_depositERC20 main tokenAddress (deposit_amount deposit)
                            (depositTo deposit) txRequest)
                   (fun log => estimate_depositERC20 (ethSigner this) log main tokenAddress
                                 (deposit_amount deposit) (depositTo deposit) txRequest))
                (fun _ => sync (bigNumberify (BN_string "0"))) ;;
            ret (set_gasLimit
                   (BN_big (if (ERC20_DEPOSIT_GAS_LIMIT <=? gasEstimate)%Z
                            then gasEstimate else ERC20_DEPOSIT_GAS_LIMIT))
                   txRequest)
          else ret txRequest) ;;
       request (Req_depositERC20 main tokenAddress (deposit_amount deposit)
                  (depositTo deposit) txRequest)
         (fun log => depositERC20 (ethSigner this) log main tokenAddress
                       (deposit_amount deposit) (depositTo deposit) txRequest)) ;;
  ret (ETHOp.new (handle ethTransaction) (notifier (provider this))).

(** The argument of [emergencyWithdraw]. *)
Record EmergencyArgs : Type := mkEmergencyArgs {
  emergency_token : TokenLike;
  emergency_accountId : option Z;
  emergency_ethTxOptions : option TransactionRequest
}.

(** Lines 660-706.  The [ETHProxy] of lines 666-669 keeps the
    [contractAddress] of the provider it is given, which is where
    [mainContract] is read from at line 687. *)
Definition emergencyWithdraw (withdraw : EmergencyArgs) : Method (ETHOp.ETHOperation Log) :=
  this <- this_ ;;
  gasPrice <- request Req_getGasPrice (provider_getGasPrice (ethSigner this)) ;;
  accountId <-
    match emergency_accountId withdraw with
    | Some n => ret n
    | None =>
        match accountId this with
        | Some n => ret n
        | None =>
            accountState <- getAccountState ;;
            match id accountState with
            | None | Some 0 =>
                throw (Thrown_Error "Can't resolve account id from the zkSync node")
            | Some n => ret n
            end
        end
    end ;;
  let main := mainContract (provider this) in
  tokenAddress <- sync (resolveTokenAddress (provider this) (emergency_token withdraw)) ;;
  gasLimit <- sync (bigNumberify (BN_string "500000")) ;;
  let options :=
    spread (mkTransactionRequest Absent (Value (BN_big gasLimit))
              (Value (BN_big gasPrice)) Absent [])
           (emergency_ethTxOptions withdraw) in
  ethTransaction <- request (Req_fullExit main accountId tokenAddress options)
                      (fun log => fullExit (ethSigner this) log main accountId
                                    tokenAddress options) ;;
  ret (ETHOp.new (handle ethTransaction) (notifier (provider this))).

(** The argument of [syncTransfer]. *)
Record TransferArgs : Type := mkTransferArgs {
  transfer_to : Address;
  transfer_token : TokenLike;
  transfer_amount : BigNumberish;
  transfer_fee : option BigNumberish;
  transfer_nonce : option Nonce
}.

(** [transfer.fee] after lines 147-154 (and 227-234, 314-321). *)
Definition fee_or_quote (txType : string) (address : Address) (token : TokenLike)
  (fee : option BigNumberish) : Method BigNumberish :=
  this <- this_ ;;
  match fee with
  | Some f => ret f
  | None =>
      fullFee <- request (Req_getTransactionFee txType address token)
                   (fun log => getTransactionFee (provider this) log txType address token) ;;
      ret (BN_big (totalFee fullFee))
  end.

(** Lines 124-201. *)
Definition syncTransfer (transfer : TransferArgs) : Method Tx.Transaction :=
  this <- this_ ;;
  match signer this with
  | None => throw (Thrown_Error "ZKSync signer is required for sending zksync transactions.")
  | Some s =>
      setRequiredAccountIdFromServer "Transfer funds" ;;
      tokenId <- sync (resolveTokenId (provider this) (transfer_token transfer)) ;;
      nonce <- getNonce (transfer_nonce transfer) ;;
      fee <- fee_or_quote "Transfer" (transfer_to transfer) (transfer_token transfer)
               (transfer_fee transfer) ;;
      this' <- this_ ;;
      from <- address ;;
      let transactionData :=
        mkTransferData (accountId this') from (transfer_to transfer) tokenId
                       (transfer_amount transfer) fee nonce in
      stringAmount <- sync (formatToken (provider this) (transfer_token transfer)
                              (transfer_amount transfer)) ;;
      stringFee <- sync (formatToken (provider this) (transfer_token transfer) fee) ;;
      stringToken <- sync (resolveTokenSymbol (provider this) (transfer_token transfer)) ;;
      let humanReadableTxInfo :=
        String.concat EmptyString
          ["Transfer "; stringAmount; " "; stringToken; LF;
           "To: "; toLowerCase (transfer_to transfer); LF;
           "Nonce: "; number_toString nonce; LF;
           "Fee: "; stringFee; " "; stringToken; LF;
           "Account Id: "; optional_number_toString (accountId this')] in
      txMessageEthSignature <- getEthMessageSignature humanReadableTxInfo ;;
      signedTransferTransaction <- sync (signSyncTransfer s transactionData) ;;
      transactionHash <- request (Req_submitTx (Tx_signed signedTransferTransaction)
                                    (Some txMessageEthSignature))
                           (fun log => submitTx (provider this) log
                                         (Tx_signed signedTransferTransaction)
                                         (Some txMessageEthSignature)) ;;
      ret (Tx.new (txData_of (Tx_signed signedTransferTransaction)) transactionHash
             (notifier (provider this)))
  end.

(** The argument of [syncTransferFromOtherAccount]. *)
Record TransferFromArgs : Type := mkTransferFromArgs {
  transferFrom_from : Address;
  transferFrom_token : TokenLike;
  transferFrom_amount : BigNumberish;
  transferFrom_fee : option BigNumberish;
  transferFrom_nonce : option Nonce;
  transferFrom_fromSignature : string
}.

(** Lines 203-290. *)
Definition syncTransferFromOtherAccount (transferFrom : TransferFromArgs)
  : Method Tx.Transaction :=
  this <- this_ ;;
  match signer this with
  | None => throw (Thrown_Error "ZKSync signer is required for sending zksync transactions.")
  | Some s =>
      setRequiredAccountIdFromServer "Transfer funds" ;;
      tokenId <- sync (resolveTokenId (provider this) (transferFrom_token transferFrom)) ;;
      nonce <- getNonce (transferFrom_nonce transferFrom) ;;
      fee <- fee_or_quote "TransferFrom" (transferFrom_from transferFrom)
               (transferFrom_token transferFrom) (transferFrom_fee transferFrom) ;;
      this' <- this_ ;;
      to <- address ;;
      let transactionData :=
        mkTransferData (accountId this') (transferFrom_from transferFrom) to tokenId
                       (transferFrom_amount transferFrom) fee nonce in
      toSignature <- sync (signSyncTransferFrom s transactionData) ;;
      stringAmount <- sync (formatToken (provider this) (transferFrom_token transferFrom)
                              (transferFrom_amount transferFrom)) ;;
      stringFee <- sync (formatToken (provider this) (transferFrom_token transferFrom) fee) ;;
      stringToken <- sync (resolveTokenSymbol (provider this)
                             (transferFrom_token transferFrom)) ;;
      let humanReadableTxInfo :=
        String.concat EmptyString
          ["TransferFrom "; stringAmount; " "; stringToken; LF;
           "From: "; toLowerCase (transferFrom_from transferFrom); LF;
           "To: "; toLowerCase to; LF;
           "Nonce: "; number_toString nonce; LF;
           "Fee: "; stringFee; " "; stringToken; LF;
           "Account Id: "; optional_number_toString (accountId this')] in
      txMessageEthSignature <- getEthMessageSignature humanReadableTxInfo ;;
      amount <- sync (bigNumberify (transferFrom_amount transferFrom)) ;;
      feeNumber <- sync (bigNumberify fee) ;;
      let transferFromTx :=
        Tx_TransferFrom
          (mkTransferFromTx (accountId this') (transferFrom_from transferFrom) to tokenId
             (number_toString amount) (number_toString feeNumber) nonce
             (transferFrom_fromSignature transferFrom) toSignature) in
      transactionHash <- request (Req_submitTx transferFromTx (Some txMessageEthSignature))
                           (fun log => submitTx (provider this) log transferFromTx
                                         (Some txMessageEthSignature)) ;;
      ret (Tx.new (txData_of transferFromTx) transactionHash (notifier (provider this)))
  end.

(** The argument of [withdrawFromSyncToEthereum]. *)
Record WithdrawArgs : Type := mkWithdrawArgs {
  withdraw_ethAddress : string;
  withdraw_token : TokenLike;
  withdraw_amount : BigNumberish;
  withdraw_fee : option BigNumberish;
  withdraw_nonce : option Nonce
}.

(** Lines 292-368. *)
Definition withdrawFromSyncToEthereum (withdraw : WithdrawArgs) : Method Tx.Transaction :=
  this <- this_ ;;
  match signer this with
  | None => throw (Thrown_Error "ZKSync signer is required for sending zksync transactions.")
  | Some s =>
      setRequiredAccountIdFromServer "Withdraw funds" ;;
      tokenId <- sync (resolveTokenId (provider this) (withdraw_token withdraw)) ;;
      nonce <- getNonce (withdraw_nonce withdraw) ;;
      fee <- fee_or_quote "Withdraw" (withdraw_ethAddress withdraw) (withdraw_token withdraw)
               (withdraw_fee withdraw) ;;
      this' <- this_ ;;
      from <- address ;;
      let transactionData :=
        mkWithdrawData (accountId this') from (withdraw_ethAddress withdraw) tokenId
                       (withdraw_amount withdraw) fee nonce in
      stringAmount <- sync (formatToken (provider this) (withdraw_token withdraw)
                              (withdraw_amount withdraw)) ;;
      stringFee <- sync (formatToken (provider this) (withdraw_token withdraw) fee) ;;
      stringToken <- sync (resolveTokenSymbol (provider this) (withdraw_token withdraw)) ;;
      let humanReadableTxInfo :=
        String.concat EmptyString
          ["Withdraw "; stringAmount; " "; stringToken; LF;
           "To: "; toLowerCase (withdraw_ethAddress withdraw); LF;
           "Nonce: "; number_toString nonce; LF;
           "Fee: "; stringFee; " "; stringToken; LF;
           "Account Id: "; optional_number_toString (accountId this')] in
      txMessageEthSignature <- getEthMessageSignature humanReadableTxInfo ;;
      signedWithdrawTransaction <- sync (signSyncWithdraw s transactionData) ;;
      submitResponse <- request (Req_submitTx (Tx_signed signedWithdrawTransaction)
                                   (Some txMessageEthSignature))
                          (fun log => submitTx (provider this) log
                                        (Tx_signed signedWithdrawTransaction)
                                        (Some txMessageEthSignature)) ;;
      ret (Tx.new (txData_of (Tx_signed signedWithdrawTransaction)) submitResponse
             (notifier (provider this)))
  end.

(** A method run on a wallet with the requests logged so far: what it
    completes with, the wallet and the log it leaves. *)
Definition run {A} (m : Method A) (this : Wallet) (log : RLog)
  : Completion A * (Wallet * RLog) :=
  (fst (m ((this, log), [])), fst (snd (m ((this, log), [])))).

Definition run_static {A} (m : Static A) (log : RLog) : Completion A * RLog :=
  (fst (m ((tt, log), [])), snd (fst (snd (m ((tt, log), []))))).

(** The requests a run added to the log it started from. *)
Definition new_requests {A} (log : RLog) (r : Completion A * (Wallet * RLog)) : RLog :=
  skipn (List.length log) (snd (snd r)).

(** Whether a request submits a transaction to the zkSync network. *)
Definition is_submitTx (q : Request) : bool :=
  match q with
  | Req_submitTx _ _ => true
  | _ => false
  end.

(** The requests [news] of a run submit at most once, last, with the
    signature over a message the Ethereum signer was asked to sign. *)
Definition submits_last_and_signed (news : RLog) : Prop :=
  forall tx ethSignature,
    In (Req_submitTx tx ethSignature) news ->
    news = (removelast news ++ [Req_submitTx tx ethSignature])%list /\
    filter is_submitTx (removelast news) = [] /\
    (exists s, ethSignature = Some s) /\
    (exists signedBytes, In (Req_signMessage signedBytes) (removelast news)).

(** A run that returns a tracker returns a new [Transaction] for the hash
    the provider answered the submission with, the last request of the
    run, and leaves an account id in the wallet. *)
Definition returns_tracker_of_submission (this : Wallet) (log : RLog)
  (r : Completion Tx.Transaction * (Wallet * RLog)) : Prop :=
  forall t,
    fst r = Returned t ->
    exists tx ethSignature,
      new_requests log r =
        (removelast (new_requests log r) ++ [Req_submitTx tx ethSignature])%list /\
      submitTx (provider this) (log ++ removelast (new_requests log r))%list tx ethSignature
        = Fulfilled (Tx.txHash t) /\
      t = Tx.new (txData_of tx) (Tx.txHash t) (notifier (provider this)) /\
      exists n, accountId (fst (snd r)) = Some n.

(** What no method but [connect] changes in a wallet: the Ethereum signer,
    the address, the zkSync signer and the signer type stay, and an account
    id, once there, stays the same. *)
Definition kept (this this' : Wallet) : Prop :=
  ethSigner this' = ethSigner this /\
  cachedAddress this' = cachedAddress this /\
  signer this' = signer this /\
  ethSignerType this' = ethSignerType this /\
  (forall n, accountId this = Some n -> accountId this' = Some n).

(** A method is tidy when, from every state, it keeps the wallet in the
    sense of [kept] and its provider, only adds to the log of requests, and
    makes no round trip of a tracker. *)
Definition tidy {A} (m : Method A) : Prop :=
  forall (this : Wallet) (log : RLog) (tr : Trace),
    kept this (fst (fst (snd (m ((this, log), tr))))) /\
    provider (fst (fst (snd (m ((this, log), tr))))) = provider this /\
    (exists news, snd (fst (snd (m ((this, log), tr)))) = (log ++ news)%list) /\
    snd (snd (m ((this, log), tr))) = tr.

(** A call of a public method of a wallet, the result dropped. *)
Inductive Call : Type :=
| Call_connect (p : SyncProvider)
| Call_getEthMessageSignature (message : string)
| Call_syncTransfer (transfer : TransferArgs)
| Call_syncTransferFromOtherAccount (transferFrom : TransferFromArgs)
| Call_withdrawFromSyncToEthereum (withdraw : WithdrawArgs)
| Call_isSigningKeySet
| Call_setSigningKey (nonce : option Nonce) (onchainAuth : bool)
| Call_isOnchainAuthSigningKeySet (nonce : option Nonce)
| Call_onchainAuthSigningKey (nonce : option Nonce) (ethTxOptions : option TransactionRequest)
| Call_getCurrentPubKeyHash
| Call_getNonce (nonce : option Nonce)
| Call_getAccountId
| Call_address
| Call_getAccountState
| Call_getBalance (token : TokenLike) (onVerified : bool)
| Call_getEthereumBalance (token : TokenLike)
| Call_isERC20DepositsApproved (token : TokenLike)
| Call_approveERC20TokenDeposits (token : TokenLike)
| Call_depositToSyncFromEthereum (deposit : DepositArgs)
| Call_emergencyWithdraw (withdraw : EmergencyArgs).

Definition invoke (c : Call) (st : Wallet * RLog) : Wallet * RLog :=
  match c with
  | Call_connect p => snd (run (connect p) (fst st) (snd st))
  | Call_getEthMessageSignature m => snd (run (getEthMessageSignature m) (fst st) (snd st))
  | Call_syncTransfer a => snd (run (syncTransfer a) (fst st) (snd st))
  | Call_syncTransferFromOtherAccount a =>
      snd (run (syncTransferFromOtherAccount a) (fst st) (snd st))
  | Call_withdrawFromSyncToEthereum a =>
      snd (run (withdrawFromSyncToEthereum a) (fst st) (snd st))
  | Call_isSigningKeySet => snd (run isSigningKeySet (fst st) (snd st))
  | Call_setSigningKey n b => snd (run (setSigningKey n b) (fst st) (snd st))
  | Call_isOnchainAuthSigningKeySet n =>
      snd (run (isOnchainAuthSigningKeySet n) (fst st) (snd st))
  | Call_onchainAuthSigningKey n o => snd (run (onchainAuthSigningKey n o) (fst st) (snd st))
  | Call_getCurrentPubKeyHash => snd (run getCurrentPubKeyHash (fst st) (snd st))
  | Call_getNonce n => snd (run (getNonce n) (fst st) (snd st))
  | Call_getAccountId => snd (run getAccountId (fst st) (snd st))
  | Call_address => snd (run address (fst st) (snd st))
  | Call_getAccountState => snd (run getAccountState (fst st) (snd st))
  | Call_getBalance t v => snd (run (getBalance t v) (fst st) (snd st))
  | Call_getEthereumBalance t => snd (run (getEthereumBalance t) (fst st) (snd st))
  | Call_isERC20DepositsApproved t => snd (run (isERC20DepositsApproved t) (fst st) (snd st))
  | Call_approveERC20TokenDeposits t =>
      snd (run (approveERC20TokenDeposits t) (fst st) (snd st))
  | Call_depositToSyncFromEthereum a =>
      snd (run (depositToSyncFromEthereum a) (fst st) (snd st))
  | Call_emergencyWithdraw a => snd (run (emergencyWithdraw a) (fst st) (snd st))
  end.

(** A sequence of such calls, one after the other. *)
Definition invoke_all (cs : list Call) (st : Wallet * RLog) : Wallet * RLog :=
  fold_left (fun st c => invoke c st) cs st.

End WithUtils.

Arguments handle {Log} _.
Arguments getAddress {Log} _ _.
Arguments fromETHSignature {Log} _ _.
Arguments signMessagePersonalAPI {Log} _ _ _.
Arguments provider_getGasPrice {Log} _ _.
Arguments provider_getBalance {Log} _ _ _.
Arguments authFacts {Log} _ _ _ _ _.
Arguments setAuthPubkeyHash {Log} _ _ _ _ _ _.
Arguments depositETH {Log} _ _ _ _ _.
Arguments estimate_depositERC20 {Log} _ _ _ _ _ _ _.
Arguments depositERC20 {Log} _ _ _ _ _ _ _.
Arguments fullExit {Log} _ _ _ _ _ _.
Arguments allowance {Log} _ _ _ _ _.
Arguments approve {Log} _ _ _ _ _.
Arguments balanceOf {Log} _ _ _ _.
Arguments sent_nonce {Log} _.
Arguments ethSigner {Log} _.
Arguments cachedAddress {Log} _.
Arguments signer {Log} _.
Arguments accountId {Log} _.
Arguments ethSignerType {Log} _.
Arguments provider {Log} _.
Arguments set_accountId {Log} _ _.
Arguments set_provider {Log} _ _.
Arguments run {Log A} _ _ _.
Arguments run_static {A} _ _.
Arguments new_requests {Log A} _ _.
Arguments kept {Log} _ _.
Arguments tidy {Log A} _.
Arguments returns_tracker_of_submission {Log} _ _ _ _.
Arguments connect {Log} _.
Arguments fromEthSigner {Log} _ _ _ _ _.
Arguments fromEthSignerNoKeys {Log} _ _ _ _.
Arguments address {Log}.
Arguments getAccountState {Log}.
Arguments getCurrentPubKeyHash {Log}.
Arguments getNonce {Log} _.
Arguments getAccountId {Log}.
Arguments setRequiredAccountIdFromServer {Log} _.
Arguments getEthMessageSignature {Log} _ _.
Arguments getBalance {Log} _ _ _.
Arguments getEthereumBalance {Log} _ _.
Arguments isERC20DepositsApproved {Log} _ _ _ _.
Arguments approveERC20TokenDeposits {Log} _ _ _.
Arguments isSigningKeySet {Log}.
Arguments setSigningKey {Log} _ _ _ _ _.
Arguments isOnchainAuthSigningKeySet {Log} _.
Arguments onchainAuthSigningKey {Log} _ _ _.
Arguments depositToSyncFromEthereum {Log} _ _ _ _.
Arguments emergencyWithdraw {Log} _ _.
Arguments fee_or_quote {Log} _ _ _ _.
Arguments syncTransfer {Log} _ _ _ _.
Arguments syncTransferFromOtherAccount {Log} _ _ _ _ _.
Arguments withdrawFromSyncToEthereum {Log} _ _ _ _.

End Wallet.

(** ** A concrete wallet

    Utilities, a signer, a provider and an Ethereum signer with fixed
    answers, used to run the wallet on explicit inputs. *)

Module WalletSample.

Import Wallet.
Local Open Scope string_scope.

Definition isTokenETH (token : TokenLike) : bool := String.eqb token "ETH".

Definition getSignedBytesFromMessage (message : string) (addPrefix : bool)
  : JsThrown + string :=
  inr (if addPrefix then String.append "prefixed:" message else message).

Definition getChangePubkeyMessage (pubKeyHash : PubKeyHash) (nonce : Z)
  (accountId : option Z) : JsThrown + string :=
  inr (String.concat " " ["Register"; pubKeyHash; number_toString nonce;
                          optional_number_toString accountId]).

Definition ERC20_APPROVE_TRESHOLD : Z := 2 ^ 255.
Definition ERC20_DEPOSIT_GAS_LIMIT : Z := 300000.
Definition MAX_ERC20_APPROVE_AMOUNT : BigNumberish := BN_big (2 ^ 256 - 1).

(** Decimal strings only. *)
Definition parseBigNumber (v : BigNumberish) : JsThrown + Z :=
  match v with
  | BN_string EmptyString => inl (Thrown_foreign "invalid BigNumber string")
  | BN_string s =>
      match DecimalString.NilZero.int_of_string s with
      | Some i => inr (Z.of_int i)
      | None => inl (Thrown_foreign "invalid BigNumber string")
      end
  | BN_number n => inr n
  | BN_big n => inr n
  end.

Definition toLowerCase (s : string) : string := s.

Definition txData_of (tx : TxObject) : string :=
  match tx with
  | Tx_signed signed => signed
  | Tx_TransferFrom _ => "TransferFrom"
  | Tx_ChangePubKey _ => "ChangePubKey"
  end.

Definition zkSigner : Signer :=
  mkSigner "sync:aa11"
    (fun d => inr (String.append "signed transfer to " (td_to d)))
    (fun d => inr (String.append "signature for " (td_from d)))
    (fun d => inr (String.append "signed withdraw to " (wd_ethAddress d))).

Definition ecdsa : EthSignerType := mkEthSignerType "ECDSA" false.

(** The account as the server reports it: id 7 (or none), nonce 3, a
    balance of 1000 DAI and no other. *)
Definition account (accountId : option Z) (keyHash : PubKeyHash) : AccountState :=
  mkAccountState accountId
    (mkAccountSide (fun t => if String.eqb t "DAI" then Some (BN_string "1000") else None)
                   3 keyHash)
    (mkAccountSide (fun t => if String.eqb t "DAI" then Some (BN_string "400") else None)
                   2 keyHash).

(** A provider that knows ETH and DAI and reports [account accountId
    keyHash]; COMMIT and VERIFY polls answer as [Sample.provider]. *)
Definition syncProvider (accountId : option Z) (keyHash : PubKeyHash) : SyncProvider :=
  mkSyncProvider
    (Sample.provider true true)
    (fun _ _ => Fulfilled (account accountId keyHash))
    (fun _ _ _ => Fulfilled "sync-tx:ab12")
    (fun _ _ _ _ => Fulfilled (mkFee 15))
    (fun t => if String.eqb t "ETH" then inr 0
              else if String.eqb t "DAI" then inr 1
              else inl (Thrown_Error "Token is not supported"))
    (fun t => if String.eqb t "ETH" then inr "ETH"
              else if String.eqb t "DAI" then inr "DAI"
              else inl (Thrown_Error "Token is not supported"))
    (fun t => if String.eqb t "ETH" then inr "0x00"
              else if String.eqb t "DAI" then inr "0xda1"
              else inl (Thrown_Error "Token is not supported"))
    (fun _ v => match parseBigNumber v with
                | inr n => inr (number_toString n)
                | inl e => inl e
                end)
    "0xma1n".

Definition sent (n : Z) : SentTransaction Sample.Log :=
  mkSentTransaction Sample.Log
    (Sample.included [Sample.foreign_log; Sample.deposit_log; Sample.commit_log]) n.

(** An Ethereum signer whose node estimates [estimate] gas for an ERC20
    deposit (or fails to, when there is none). *)
Definition ethWallet (estimate : option Z) : EthSigner Sample.Log :=
  mkEthSigner Sample.Log
    (fun _ => Fulfilled "0xabc")
    (fun _ => Fulfilled (zkSigner, ecdsa))
    (fun _ bytes => Fulfilled (String.append "sig:" bytes))
    (fun _ => Fulfilled 20)
    (fun _ _ => Fulfilled 5000)
    (fun _ _ _ _ => Fulfilled "0x01")
    (fun _ _ _ _ _ => Fulfilled (sent 10))
    (fun _ _ _ _ => Fulfilled (sent 11))
    (fun _ _ _ _ _ _ => match estimate with
                        | Some e => Fulfilled e
                        | None => Rejected "cannot estimate gas"
                        end)
    (fun _ _ _ _ _ _ => Fulfilled (sent 12))
    (fun _ _ _ _ _ => Fulfilled (sent 13))
    (fun _ _ _ _ => Fulfilled 77)
    (fun _ _ _ _ => Fulfilled (sent 40))
    (fun _ _ _ => Fulfilled 900).

(** A wallet with keys; the server knows the account as number 7 with the
    key hash [keyHash]. *)
Definition wallet (cached : option Z) (keyHash : PubKeyHash) : Wallet Sample.Log :=
  mkWallet Sample.Log (ethWallet (Some 250000)) "0xabc" (Some zkSigner) cached (Some ecdsa)
           (syncProvider (Some 7) keyHash).

(** A wallet without keys. *)
Definition keyless : Wallet Sample.Log :=
  mkWallet Sample.Log (ethWallet (Some 250000)) "0xabc" None None None
           (syncProvider (Some 7) "sync:0000").

(** A wallet whose account the server does not know, or knows as
    number 0. *)
Definition unregistered (serverId : option Z) : Wallet Sample.Log :=
  mkWallet Sample.Log (ethWallet None) "0xabc" (Some zkSigner) None (Some ecdsa)
           (syncProvider serverId "sync:0000").

(** The same wallet with a node that estimates [estimate] gas. *)
Definition wallet_estimating (estimate : option Z) : Wallet Sample.Log :=
  mkWallet Sample.Log (ethWallet estimate) "0xabc" (Some zkSigner) (Some 7) (Some ecdsa)
           (syncProvider (Some 7) "sync:0000").

(** Options that carry a gas limit and nothing else. *)
Definition with_gasLimit (v : BigNumberish) : TransactionRequest :=
  mkTransactionRequest Absent (Value v) Absent Absent [].

(** A deposit of 100 DAI, a deposit of 100 wei, a transfer of 100 DAI. *)
Definition erc20_deposit (approveFirst : bool) (options : option TransactionRequest)
  : DepositArgs :=
  mkDepositArgs "0xdef" "DAI" (BN_string "100") options approveFirst.

Definition eth_deposit : DepositArgs :=
  mkDepositArgs "0xdef" "ETH" (BN_string "100") None false.

Definition transfer (fee : option BigNumberish) : TransferArgs :=
  mkTransferArgs "0xdef" "DAI" (BN_string "100") fee None.

(** The methods at these utilities. *)
Definition syncTransfer :=
  Wallet.syncTransfer (Log := Sample.Log) getSignedBytesFromMessage toLowerCase txData_of.
Definition setSigningKey :=
  Wallet.setSigningKey (Log := Sample.Log) getSignedBytesFromMessage getChangePubkeyMessage
    txData_of.
Definition onchainAuthSigningKey :=
  Wallet.onchainAuthSigningKey (Log := Sample.Log) parseBigNumber.
Definition depositToSyncFromEthereum :=
  Wallet.depositToSyncFromEthereum (Log := Sample.Log) isTokenETH ERC20_DEPOSIT_GAS_LIMIT
    parseBigNumber.
Definition emergencyWithdraw := Wallet.emergencyWithdraw (Log := Sample.Log) parseBigNumber.
Definition isERC20DepositsApproved :=
  Wallet.isERC20DepositsApproved (Log := Sample.Log) isTokenETH ERC20_APPROVE_TRESHOLD
    parseBigNumber.
Definition getBalance := Wallet.getBalance (Log := Sample.Log) parseBigNumber.
Definition getEthMessageSignature :=
  Wallet.getEthMessageSignature (Log := Sample.Log) getSignedBytesFromMessage.
Definition invoke_all :=
  Wallet.invoke_all Sample.Log isTokenETH getSignedBytesFromMessage getChangePubkeyMessage
    ERC20_APPROVE_TRESHOLD ERC20_DEPOSIT_GAS_LIMIT MAX_ERC20_APPROVE_AMOUNT parseBigNumber
    toLowerCase txData_of.

End WalletSample.

(** ** Collaborators that fail *)

Module EdgeSample.

(** An outer-chain transaction whose inclusion is reported as failed. *)
Definition never_included : ETHOp.ContractTransaction Sample.Log :=
  ETHOp.mkContractTransaction Sample.Log (fun _ => Rejected "transaction failed").

(** A provider that cannot be reached. *)
Definition unreachable : Provider :=
  mkProvider (fun _ _ _ => Rejected "timeout") (fun _ _ _ => Rejected "timeout").

Definition stuck_deposit : ETHOp.ETHOperation Sample.Log :=
  ETHOp.new never_included unreachable.

Definition stuck_transfer : Tx.Transaction :=
  Tx.new "transfer" "sync-tx:ab12" unreachable.

End EdgeSample.

(** ** Proof support *)

(** Splits on what a method branches on, innermost scrutinee first. *)
Ltac split_match :=
  match goal with
  | |- context [match ?x with _ => _ end] =>
      lazymatch x with
      | context [match _ with _ => _ end] => fail
      | _ => destruct x eqn:?
      end
  end.

(** Rewrites with a known answer of a collaborator (or a known field). *)
Ltac use_answer :=
  match goal with
  | H : ?x = _ |- context [match ?x with _ => _ end] => rewrite H
  end.

Lemma toNumber_safe (n : Z) : Z.abs n < 2 ^ 53 -> toNumber n = inr n.
Proof.
  intros H. unfold toNumber.
  destruct (Z.ltb_spec (Z.abs n) (2 ^ 53)) as [_ | Hge]; [reflexivity | lia].
Qed.

Lemma last_cons_default {A} (a : A) (l : list A) (d d' : A) :
  last (a :: l) d = last (a :: l) d'.
Proof.
  revert a. induction l as [| b l IH]; intros a; [reflexivity |].
  change (last (b :: l) d = last (b :: l) d'). apply IH.
Qed.

Lemma last_map_Some_nonempty (ids : list Z) (d : option Z) (d0 : Z) :
  ids <> [] -> last (map Some ids) d = Some (last ids d0).
Proof.
  induction ids as [| a [| b rest] IH]; intros Hne; [congruence | reflexivity |].
  change (last (map Some (b :: rest)) d = Some (last (b :: rest) d0)).
  apply IH. discriminate.
Qed.

(** *** Facts on [Transaction] *)

Ltac tx_run :=
  unfold Tx.awaitVerifyReceipt, Tx.awaitReceipt, Tx.setErrorState,
    Tx.throwErrorIfFailedState, Tx.replay;
  repeat first
    [ progress (unfold bind, ret, throw, get_this, update, await, completion, object, history)
    | progress (cbn [fst snd negb Tx.State_eqb Tx.state Tx.error Tx.txData Tx.txHash
                     Tx.sidechainProvider Tx.set_state Tx.set_error throw_value] in * )
    | use_answer
    | split_match ].

Lemma tx_calls_cons (m : Tx.Method) (ms : list Tx.Method) (st : Tx.Transaction * Trace) :
  Tx.calls (m :: ms) st = Tx.calls ms (Tx.call m st).
Proof. reflexivity. Qed.

Lemma tx_consistent_call (m : Tx.Method) (t : Tx.Transaction) (tr : Trace) :
  Tx.consistent t = true -> Tx.consistent (fst (Tx.call m (t, tr))) = true.
Proof.
  intros H. destruct t as [s e d h pr]. unfold Tx.consistent in H.
  destruct m; cbn [Tx.call];
    destruct s, e; cbn in H; try discriminate H; clear H;
    tx_run; unfold Tx.consistent; tx_run; try reflexivity; congruence.
Qed.

Lemma tx_consistent_calls (ms : list Tx.Method) (st : Tx.Transaction * Trace) :
  Tx.consistent (fst st) = true -> Tx.consistent (fst (Tx.calls ms st)) = true.
Proof.
  revert st. induction ms as [| m ms IH]; intros [t tr] H; [exact H |].
  rewrite tx_calls_cons. apply IH. now apply tx_consistent_call.
Qed.

Lemma tx_permitted_call (m : Tx.Method) (t : Tx.Transaction) (tr : Trace) :
  Tx.permitted (Tx.state t) (Tx.state (fst (Tx.call m (t, tr)))) = true.
Proof.
  destruct t as [s e d h pr].
  destruct m; cbn [Tx.call]; destruct s; tx_run; reflexivity.
Qed.

Lemma tx_permitted_refl (s : Tx.State) : Tx.permitted s s = true.
Proof. destruct s; reflexivity. Qed.

Lemma tx_permitted_trans (a b c : Tx.State) :
  Tx.permitted a b = true -> Tx.permitted b c = true -> Tx.permitted a c = true.
Proof. destruct a, b, c; cbn; congruence. Qed.

Lemma tx_permitted_calls (ms : list Tx.Method) (st : Tx.Transaction * Trace) :
  Tx.permitted (Tx.state (fst st)) (Tx.state (fst (Tx.calls ms st))) = true.
Proof.
  revert st. induction ms as [| m ms IH]; intros [t tr].
  - apply tx_permitted_refl.
  - rewrite tx_calls_cons. cbn [fst].
    apply (tx_permitted_trans _ (Tx.state (fst (Tx.call m (t, tr))))).
    + apply tx_permitted_call.
    + apply IH.
Qed.

Lemma tx_awaitReceipt_reached (t : Tx.Transaction) (tr : Trace) :
  Tx.reached_commit (Tx.state t) = true ->
  Tx.awaitReceipt (t, tr) = (Tx.replay t, (t, tr)).
Proof.
  intros H. destruct t as [s e d h pr].
  destruct s; cbn in H; try discriminate H; tx_run; reflexivity.
Qed.

Lemma tx_awaitVerifyReceipt_failed (t : Tx.Transaction) (tr : Trace) :
  Tx.state t = Tx.Failed ->
  Tx.awaitVerifyReceipt (t, tr) = (Threw (throw_value (Tx.error t)), (t, tr)).
Proof.
  intros H. destruct t as [s e d h pr]. cbn in H. subst s. tx_run; reflexivity.
Qed.

Lemma tx_failed_call_fixed (m : Tx.Method) (t : Tx.Transaction) (tr : Trace) :
  Tx.state t = Tx.Failed -> Tx.call m (t, tr) = (t, tr).
Proof.
  intros H. destruct t as [s e d h pr]. cbn in H. subst s.
  destruct m; cbn [Tx.call]; tx_run; reflexivity.
Qed.

Lemma tx_failed_calls_fixed (ms : list Tx.Method) (t : Tx.Transaction) (tr : Trace) :
  Tx.state t = Tx.Failed -> Tx.calls ms (t, tr) = (t, tr).
Proof.
  intros H. induction ms as [| m ms IH]; [reflexivity |].
  rewrite tx_calls_cons, tx_failed_call_fixed by exact H. exact IH.
Qed.

(** *** Facts on [ETHOperation] *)

Section Trackers.

Variable Log : Type.
Variable parseLog : Log -> option ETHOp.LogDescription.

Local Abbreviation Op := (ETHOp.ETHOperation Log).
Local Abbreviation awaitEthereumTxCommit := (ETHOp.awaitEthereumTxCommit Log parseLog).
Local Abbreviation awaitReceipt := (ETHOp.awaitReceipt Log parseLog).
Local Abbreviation awaitVerifyReceipt := (ETHOp.awaitVerifyReceipt Log parseLog).
Local Abbreviation serialIds := (ETHOp.serialIds Log parseLog).
Local Abbreviation scanned := (ETHOp.scanned Log parseLog).

Lemma scanned_nil (o : Op) : scanned [] o = o.
Proof. destruct o; reflexivity. Qed.

Lemma scan_log_eq (log : Log) (o : Op) (tr : Trace) :
  ETHOp.scan_log Log parseLog log (o, tr) = (Returned tt, (scanned [log] o, tr)).
Proof.
  unfold ETHOp.scan_log, ETHOp.scanned. cbn [ETHOp.serialIds].
  destruct o as [s e p tx pr].
  destruct (parseLog log) as [[[id |]] |]; reflexivity.
Qed.

Lemma scanned_cons (log : Log) (rest : list Log) (o : Op) :
  scanned (log :: rest) o = scanned rest (scanned [log] o).
Proof.
  unfold ETHOp.scanned. cbn [ETHOp.serialIds].
  destruct o as [s e p tx pr]. cbn [ETHOp.state ETHOp.error ETHOp.priorityOpId
    ETHOp.ethTx ETHOp.zkSyncProvider].
  destruct (parseLog log) as [[[id |]] |]; try reflexivity.
  cbn [map last]. destruct (serialIds rest) as [| z l]; [reflexivity |].
  cbn [map]. f_equal. apply last_cons_default.
Qed.

Lemma scan_loop (ls : list Log) (o : Op) (tr : Trace) :
  for_of ls (ETHOp.scan_log Log parseLog) (o, tr) = (Returned tt, (scanned ls o, tr)).
Proof.
  revert o. induction ls as [| log rest IH]; intros o.
  - cbn [for_of]. unfold ret. now rewrite scanned_nil.
  - cbn [for_of]. unfold bind. rewrite scan_log_eq, IH, <- scanned_cons. reflexivity.
Qed.

(** [awaitEthereumTxCommit] with the loop summarised. *)
Lemma awaitEthereumTxCommit_eq (o : Op) (tr : Trace) :
  awaitEthereumTxCommit (o, tr) =
  if negb (ETHOp.State_eqb (ETHOp.state o) ETHOp.Sent) then (Returned None, (o, tr))
  else match ETHOp.wait (ETHOp.ethTx o) tr with
       | Fulfilled rc =>
           match ETHOp.priorityOpId (scanned (ETHOp.logs rc) o) with
           | None => (Threw (Thrown_Error "Failed to parse tx logs"),
                      (scanned (ETHOp.logs rc) o, (tr ++ [Ev_wait])%list))
           | Some _ => (Returned (Some rc),
                        (ETHOp.set_state ETHOp.Mined (scanned (ETHOp.logs rc) o),
                         (tr ++ [Ev_wait])%list))
           end
       | Rejected reason => (Threw (Thrown_foreign reason), (o, (tr ++ [Ev_wait])%list))
       | Forever => (Unsettled, (o, (tr ++ [Ev_wait])%list))
       end.
Proof.
  unfold ETHOp.awaitEthereumTxCommit.
  unfold bind at 1. unfold get_this at 1. cbn [fst snd].
  destruct (negb (ETHOp.State_eqb (ETHOp.state o) ETHOp.Sent)); [reflexivity |].
  unfold bind at 1. unfold await. cbn [fst snd].
  destruct (ETHOp.wait (ETHOp.ethTx o) tr) as [rc | reason |]; try reflexivity.
  unfold bind at 1. rewrite scan_loop.
  unfold bind, get_this, update, ret, throw. cbn [fst snd].
  destruct (ETHOp.priorityOpId (scanned (ETHOp.logs rc) o)); reflexivity.
Qed.

Ltac eth_run :=
  unfold ETHOp.awaitVerifyReceipt, ETHOp.awaitReceipt, ETHOp.priorityOpId_toNumber,
    ETHOp.setErrorState, ETHOp.throwErrorIfFailedState, ETHOp.replay;
  repeat first
    [ rewrite awaitEthereumTxCommit_eq
    | progress (unfold bind, ret, throw, get_this, update, await, completion, object, history)
    | progress (cbn [fst snd negb ETHOp.State_eqb ETHOp.state ETHOp.error
                     ETHOp.priorityOpId ETHOp.ethTx ETHOp.zkSyncProvider
                     ETHOp.set_state ETHOp.set_error ETHOp.scanned throw_value] in * )
    | use_answer
    | split_match ].

Local Abbreviation call := (ETHOp.call Log parseLog).
Local Abbreviation calls := (ETHOp.calls Log parseLog).

Lemma calls_cons (m : ETHOp.Method) (ms : list ETHOp.Method) (st : Op * Trace) :
  calls (m :: ms) st = calls ms (call m st).
Proof. reflexivity. Qed.

(** Every await keeps the fields consistent. *)
Lemma consistent_call (m : ETHOp.Method) (o : Op) (tr : Trace) :
  ETHOp.consistent o = true -> ETHOp.consistent (fst (call m (o, tr))) = true.
Proof.
  intros H. destruct o as [s e p tx pr]. unfold ETHOp.consistent in H.
  destruct m; cbn [ETHOp.call];
    destruct s, p, e; cbn in H; try discriminate H; clear H;
    eth_run; unfold ETHOp.consistent; eth_run; try reflexivity; congruence.
Qed.

Lemma consistent_calls (ms : list ETHOp.Method) (st : Op * Trace) :
  ETHOp.consistent (fst st) = true -> ETHOp.consistent (fst (calls ms st)) = true.
Proof.
  revert st. induction ms as [| m ms IH]; intros [o tr] H; [exact H |].
  rewrite calls_cons. apply IH. now apply consistent_call.
Qed.

(** Every await moves the state as permitted. *)
Lemma permitted_call (m : ETHOp.Method) (o : Op) (tr : Trace) :
  ETHOp.permitted (ETHOp.state o) (ETHOp.state (fst (call m (o, tr)))) = true.
Proof.
  destruct o as [s e p tx pr].
  destruct m; cbn [ETHOp.call]; destruct s; eth_run; reflexivity.
Qed.

Lemma permitted_refl (s : ETHOp.State) : ETHOp.permitted s s = true.
Proof. destruct s; reflexivity. Qed.

Lemma permitted_trans (a b c : ETHOp.State) :
  ETHOp.permitted a b = true -> ETHOp.permitted b c = true ->
  ETHOp.permitted a c = true.
Proof. destruct a, b, c; cbn; congruence. Qed.

Lemma permitted_calls (ms : list ETHOp.Method) (st : Op * Trace) :
  ETHOp.permitted (ETHOp.state (fst st)) (ETHOp.state (fst (calls ms st))) = true.
Proof.
  revert st. induction ms as [| m ms IH]; intros [o tr].
  - apply permitted_refl.
  - rewrite calls_cons. cbn [fst].
    apply (permitted_trans _ (ETHOp.state (fst (call m (o, tr))))).
    + apply permitted_call.
    + apply IH.
Qed.

(** Past [Sent] no await writes the identifier. *)
Lemma priorityOpId_kept_call (m : ETHOp.Method) (o : Op) (tr : Trace) :
  ETHOp.state o <> ETHOp.Sent ->
  ETHOp.priorityOpId (fst (call m (o, tr))) = ETHOp.priorityOpId o.
Proof.
  intros H. destruct o as [s e p tx pr].
  destruct m; cbn [ETHOp.call]; destruct s; try (now contradiction H);
    eth_run; reflexivity.
Qed.

Lemma past_Sent_call (m : ETHOp.Method) (o : Op) (tr : Trace) :
  ETHOp.state o <> ETHOp.Sent -> ETHOp.state (fst (call m (o, tr))) <> ETHOp.Sent.
Proof.
  intros H E. pose proof (permitted_call m o tr) as P. rewrite E in P.
  destruct (ETHOp.state o); try discriminate P. now apply H.
Qed.

Lemma priorityOpId_kept_calls (ms : list ETHOp.Method) (st : Op * Trace) :
  ETHOp.state (fst st) <> ETHOp.Sent ->
  ETHOp.priorityOpId (fst (calls ms st)) = ETHOp.priorityOpId (fst st).
Proof.
  revert st. induction ms as [| m ms IH]; intros [o tr] H; [reflexivity |].
  rewrite calls_cons. cbn [fst] in *.
  pose proof (priorityOpId_kept_call m o tr H) as K.
  pose proof (past_Sent_call m o tr H) as P.
  destruct (call m (o, tr)) as [o' tr'] eqn:E. cbn [fst] in *.
  rewrite (IH (o', tr') P). exact K.
Qed.

(** An await on a tracker that has reached the depth asked for leaves the
    tracker and the history alone. *)
Lemma awaitReceipt_reached (o : Op) (tr : Trace) :
  ETHOp.reached COMMIT (ETHOp.state o) = true ->
  awaitReceipt (o, tr) = (ETHOp.replay o, (o, tr)).
Proof.
  intros H. destruct o as [s e p tx pr].
  destruct s; cbn in H; try discriminate H; eth_run; reflexivity.
Qed.

Lemma awaitVerifyReceipt_reached (o : Op) (tr : Trace) :
  ETHOp.reached VERIFY (ETHOp.state o) = true ->
  awaitVerifyReceipt (o, tr) = (ETHOp.replay o, (o, tr)).
Proof.
  intros H. destruct o as [s e p tx pr].
  destruct s; cbn in H; try discriminate H; eth_run; reflexivity.
Qed.

(** Nothing moves a failed tracker. *)
Lemma failed_call_fixed (m : ETHOp.Method) (o : Op) (tr : Trace) :
  ETHOp.state o = ETHOp.Failed -> call m (o, tr) = (o, tr).
Proof.
  intros H. destruct o as [s e p tx pr]. cbn in H. subst s.
  destruct m; cbn [ETHOp.call]; eth_run; reflexivity.
Qed.

Lemma failed_calls_fixed (ms : list ETHOp.Method) (o : Op) (tr : Trace) :
  ETHOp.state o = ETHOp.Failed -> calls ms (o, tr) = (o, tr).
Proof.
  intros H. induction ms as [| m ms IH]; [reflexivity |].
  rewrite calls_cons, failed_call_fixed by exact H. exact IH.
Qed.

(** The Sent-to-Mined transition when the receipt carries a serial id. *)
Lemma mined_when_event_found (o : Op) (tr : Trace) (rc : ETHOp.ContractReceipt Log) :
  ETHOp.state o = ETHOp.Sent ->
  ETHOp.wait (ETHOp.ethTx o) tr = Fulfilled rc ->
  serialIds (ETHOp.logs rc) <> [] ->
  awaitEthereumTxCommit (o, tr) =
  (Returned (Some rc),
   (ETHOp.set_state ETHOp.Mined
      (ETHOp.set_priorityOpId (last (serialIds (ETHOp.logs rc)) 0) o),
    (tr ++ [Ev_wait])%list)).
Proof.
  intros Hs Hw Hne. rewrite awaitEthereumTxCommit_eq, Hs, Hw. cbn [negb ETHOp.State_eqb].
  unfold ETHOp.scanned. cbn [ETHOp.priorityOpId].
  rewrite (last_map_Some_nonempty _ _ 0 Hne).
  destruct o as [s e p tx pr]. cbn in Hs. subst s. reflexivity.
Qed.

(** The Sent-to-Mined transition does not happen when it carries none. *)
Lemma not_mined_without_event (o : Op) (tr : Trace) (rc : ETHOp.ContractReceipt Log) :
  ETHOp.state o = ETHOp.Sent ->
  ETHOp.priorityOpId o = None ->
  ETHOp.wait (ETHOp.ethTx o) tr = Fulfilled rc ->
  serialIds (ETHOp.logs rc) = [] ->
  awaitEthereumTxCommit (o, tr) =
  (Threw (Thrown_Error "Failed to parse tx logs"), (o, (tr ++ [Ev_wait])%list)).
Proof.
  intros Hs Hp Hw Hnil. rewrite awaitEthereumTxCommit_eq, Hs, Hw. cbn [negb ETHOp.State_eqb].
  unfold ETHOp.scanned. cbn [ETHOp.priorityOpId]. rewrite Hnil, Hp. cbn [map last].
  destruct o as [s e p tx pr]. cbn in Hs, Hp. subst s p. reflexivity.
Qed.

(** In [Sent] every await starts by awaiting the inclusion receipt. *)
Lemma sent_await_waits (m : ETHOp.Method) (o : Op) (tr : Trace) :
  ETHOp.state o = ETHOp.Sent ->
  exists more, snd (call m (o, tr)) = (tr ++ Ev_wait :: more)%list.
Proof.
  intros Hs. destruct o as [s e p tx pr]. cbn in Hs. subst s.
  destruct m; cbn [ETHOp.call]; eth_run; rewrite <- ?app_assoc; cbn [app];
    eexists; reflexivity.
Qed.

Lemma consistent_new (ethTx : ETHOp.ContractTransaction Log) (provider : Provider) :
  ETHOp.consistent (ETHOp.new ethTx provider) = true.
Proof. reflexivity. Qed.

Lemma consistent_Sent (o : Op) :
  ETHOp.consistent o = true -> ETHOp.state o = ETHOp.Sent ->
  ETHOp.priorityOpId o = None /\ ETHOp.error o = None.
Proof.
  unfold ETHOp.consistent. intros H Hs. rewrite Hs in H.
  destruct (ETHOp.priorityOpId o), (ETHOp.error o); try discriminate H. now split.
Qed.

(** ** The claims *)

(** C1 (amended): when the inclusion receipt of a tracker in [Sent] holds no
    log that parses to a serial id, each await ([awaitEthereumTxCommit],
    [awaitReceipt], [awaitVerifyReceipt]) throws the plain
    [Error("Failed to parse tx logs")] after the one round trip for the
    receipt, and leaves the tracker as it was: in [Sent], not [Mined], not
    [Failed], with no stored error.  A later await therefore asks for the
    inclusion receipt again. *)
Theorem C1_log_parse_failure_throws
  (ethTx : ETHOp.ContractTransaction Log) (provider : Provider)
  (ms : list ETHOp.Method) (tr0 : Trace)
  (o : Op) (tr : Trace) (rc : ETHOp.ContractReceipt Log) :
  calls ms (ETHOp.new ethTx provider, tr0) = (o, tr) ->
  ETHOp.state o = ETHOp.Sent ->
  ETHOp.wait (ETHOp.ethTx o) tr = Fulfilled rc ->
  serialIds (ETHOp.logs rc) = [] ->
  awaitEthereumTxCommit (o, tr) =
    (Threw (Thrown_Error "Failed to parse tx logs"), (o, (tr ++ [Ev_wait])%list)) /\
  awaitReceipt (o, tr) =
    (Threw (Thrown_Error "Failed to parse tx logs"), (o, (tr ++ [Ev_wait])%list)) /\
  awaitVerifyReceipt (o, tr) =
    (Threw (Thrown_Error "Failed to parse tx logs"), (o, (tr ++ [Ev_wait])%list)) /\
  ETHOp.error o = None /\
  forall m, exists more,
    snd (call m (o, (tr ++ [Ev_wait])%list)) = ((tr ++ [Ev_wait]) ++ Ev_wait :: more)%list.
Proof.
  intros Hrun Hs Hw Hnil.
  assert (Hc : ETHOp.consistent o = true).
  { change o with (fst (o, tr)). rewrite <- Hrun.
    apply consistent_calls, consistent_new. }
  destruct (consistent_Sent o Hc Hs) as [Hp He].
  pose proof (not_mined_without_event o tr rc Hs Hp Hw Hnil) as Hmined.
  split; [exact Hmined |].
  assert (Hreceipt : awaitReceipt (o, tr) =
    (Threw (Thrown_Error "Failed to parse tx logs"), (o, (tr ++ [Ev_wait])%list))).
  { unfold ETHOp.awaitReceipt, ETHOp.throwErrorIfFailedState.
    unfold bind at 1. unfold bind at 1. unfold get_this at 1. cbn [fst snd].
    rewrite Hs. cbn [ETHOp.State_eqb]. unfold ret at 1.
    unfold bind at 1. rewrite Hmined. reflexivity. }
  split; [exact Hreceipt |].
  split.
  { unfold ETHOp.awaitVerifyReceipt. unfold bind at 1. rewrite Hreceipt. reflexivity. }
  split; [exact He |].
  intros m. now apply sent_await_waits.
Qed.

(** C9: when more than one log of the inclusion receipt parses to a serial
    id, [awaitEthereumTxCommit] throws nothing: it returns the receipt, sets
    [priorityOpId] to the serial id of the last such log in receipt order
    and moves to [Mined]. *)
Theorem C9_last_matching_log_wins
  (o : Op) (tr : Trace) (rc : ETHOp.ContractReceipt Log) :
  ETHOp.state o = ETHOp.Sent ->
  ETHOp.wait (ETHOp.ethTx o) tr = Fulfilled rc ->
  (1 < List.length (serialIds (ETHOp.logs rc)))%nat ->
  awaitEthereumTxCommit (o, tr) =
    (Returned (Some rc),
     (ETHOp.set_state ETHOp.Mined
        (ETHOp.set_priorityOpId (last (serialIds (ETHOp.logs rc)) 0) o),
      (tr ++ [Ev_wait])%list)) /\
  ETHOp.priorityOpId (object (awaitEthereumTxCommit (o, tr))) =
    Some (last (serialIds (ETHOp.logs rc)) 0).
Proof.
  intros Hs Hw Hlen.
  assert (Hne : serialIds (ETHOp.logs rc) <> []).
  { intros E. rewrite E in Hlen. cbn in Hlen. lia. }
  rewrite (mined_when_event_found o tr rc Hs Hw Hne). split; reflexivity.
Qed.

(** C8: when the COMMIT-depth poll of a [Transaction] in [Sent] answers with
    a receipt whose [success] flag is false, [awaitReceipt] makes that one
    poll and no other, moves to [Failed] in the same call, and throws and
    stores a [ZKSyncTxError] whose message ends in the network's
    [failReason], unchanged, and whose [value] is the receipt itself. *)
Theorem C8_rejection_fails_at_once
  (t : Tx.Transaction) (tr : Trace) (receipt : TransactionReceipt) :
  Tx.state t = Tx.Sent ->
  notifyTransaction (Tx.sidechainProvider t) tr (Tx.txHash t) COMMIT = Fulfilled receipt ->
  success receipt = false ->
  Tx.awaitReceipt (t, tr) =
    (Threw (Thrown_ZKSyncTxError
              (mkZKSyncTxError
                 (String.append "zkSync transaction failed: " (failReason receipt))
                 (OfTransaction receipt))),
     (Tx.set_error
        (mkZKSyncTxError
           (String.append "zkSync transaction failed: " (failReason receipt))
           (OfTransaction receipt))
        (Tx.set_state Tx.Failed t),
      (tr ++ [Ev_notifyTransaction (Tx.txHash t) COMMIT])%list)) /\
  Tx.state (object (Tx.awaitReceipt (t, tr))) = Tx.Failed.
Proof.
  intros Hs Hn Hf. destruct t as [s e d h pr]. cbn in Hs, Hn. subst s.
  tx_run; [split; reflexivity | rewrite Hf in *; discriminate].
Qed.

(** C2 (amended): for both trackers, when the poll at VERIFY depth of a
    tracker in [Committed] answers with a receipt, whatever its flag says,
    [awaitVerifyReceipt] returns that receipt and moves to [Verified]; the
    flag is not read and no error is stored. *)
Theorem C2_verify_disposition_not_inspected
  (o : Op) (t : Tx.Transaction) (tr : Trace) (id : Z)
  (receipt : PriorityOperationReceipt) (receipt' : TransactionReceipt) :
  ETHOp.state o = ETHOp.Committed ->
  ETHOp.priorityOpId o = Some id ->
  Z.abs id < 2 ^ 53 ->
  notifyPriorityOp (ETHOp.zkSyncProvider o) tr id VERIFY = Fulfilled receipt ->
  Tx.state t = Tx.Committed ->
  notifyTransaction (Tx.sidechainProvider t) tr (Tx.txHash t) VERIFY = Fulfilled receipt' ->
  (awaitVerifyReceipt (o, tr) =
     (Returned (Some receipt),
      (ETHOp.set_state ETHOp.Verified o, (tr ++ [Ev_notifyPriorityOp id VERIFY])%list)) /\
   ETHOp.error (ETHOp.set_state ETHOp.Verified o) = ETHOp.error o) /\
  (Tx.awaitVerifyReceipt (t, tr) =
     (Returned receipt',
      (Tx.set_state Tx.Verified t,
       (tr ++ [Ev_notifyTransaction (Tx.txHash t) VERIFY])%list)) /\
   Tx.error (Tx.set_state Tx.Verified t) = Tx.error t).
Proof.
  intros Hs Hp Hid Hn Hs' Hn'. split.
  - destruct o as [s e p tx pr]. cbn in Hs, Hp, Hn. subst s p.
    pose proof (toNumber_safe id Hid) as Hnum.
    eth_run; try congruence. split; reflexivity.
  - destruct t as [s e d h pr]. cbn in Hs', Hn'. subst s.
    tx_run. split; reflexivity.
Qed.

(** C3 (amended): an await on an [ETHOperation] whose state has reached
    the depth asked for (or is [Failed]), and [awaitReceipt] on a
    [Transaction] in [Committed], [Verified] or [Failed], make no round
    trip and leave the tracker as it is.  They complete with [undefined]
    (not with the receipt obtained earlier), or throw the stored error in
    [Failed], so that a second call completes like the first. *)
Theorem C3_reawait_is_a_no_op
  (o : Op) (t : Tx.Transaction) (d : Depth) (tr : Trace) :
  ETHOp.reached d (ETHOp.state o) = true ->
  Tx.reached_commit (Tx.state t) = true ->
  (ETHOp.await_depth Log parseLog d (o, tr) = (ETHOp.replay o, (o, tr)) /\
   ETHOp.await_depth Log parseLog d (snd (ETHOp.await_depth Log parseLog d (o, tr))) =
     ETHOp.await_depth Log parseLog d (o, tr)) /\
  (Tx.awaitReceipt (t, tr) = (Tx.replay t, (t, tr)) /\
   Tx.awaitReceipt (snd (Tx.awaitReceipt (t, tr))) = Tx.awaitReceipt (t, tr)).
Proof.
  intros Ho Ht.
  assert (E : ETHOp.await_depth Log parseLog d (o, tr) = (ETHOp.replay o, (o, tr))).
  { destruct d; cbn [ETHOp.await_depth];
      [now apply awaitReceipt_reached | now apply awaitVerifyReceipt_reached]. }
  pose proof (tx_awaitReceipt_reached t tr Ht) as E'.
  split; split; try assumption.
  - rewrite E. cbn [snd]. exact E.
  - rewrite E'. cbn [snd]. exact E'.
Qed.

(** C5: once a tracker is in [Failed], its [error] field holds an error,
    [awaitReceipt] and [awaitVerifyReceipt] throw exactly that error, and
    they leave the tracker and the history of round trips untouched, at
    every later call. *)
Theorem C5_error_stickiness :
  (forall (ethTx : ETHOp.ContractTransaction Log) (provider : Provider)
          (ms : list ETHOp.Method) (tr0 : Trace) (o : Op) (tr : Trace),
      calls ms (ETHOp.new ethTx provider, tr0) = (o, tr) ->
      ETHOp.state o = ETHOp.Failed ->
      exists e,
        ETHOp.error o = Some e /\
        forall (later : list ETHOp.Method) (tr' : Trace),
          calls later (o, tr') = (o, tr') /\
          awaitReceipt (o, tr') = (Threw (Thrown_ZKSyncTxError e), (o, tr')) /\
          awaitVerifyReceipt (o, tr') = (Threw (Thrown_ZKSyncTxError e), (o, tr'))) /\
  (forall (txData txHash : string) (provider : Provider)
          (ms : list Tx.Method) (tr0 : Trace) (t : Tx.Transaction) (tr : Trace),
      Tx.calls ms (Tx.new txData txHash provider, tr0) = (t, tr) ->
      Tx.state t = Tx.Failed ->
      exists e,
        Tx.error t = Some e /\
        forall (later : list Tx.Method) (tr' : Trace),
          Tx.calls later (t, tr') = (t, tr') /\
          Tx.awaitReceipt (t, tr') = (Threw (Thrown_ZKSyncTxError e), (t, tr')) /\
          Tx.awaitVerifyReceipt (t, tr') = (Threw (Thrown_ZKSyncTxError e), (t, tr'))).
Proof.
  split.
  - intros ethTx provider ms tr0 o tr Hrun Hs.
    assert (Hc : ETHOp.consistent o = true).
    { change o with (fst (o, tr)). rewrite <- Hrun.
      apply consistent_calls, consistent_new. }
    unfold ETHOp.consistent in Hc. rewrite Hs in Hc.
    destruct (ETHOp.error o) as [e |] eqn:He;
      [| destruct (ETHOp.priorityOpId o); discriminate Hc].
    exists e. split; [reflexivity |]. intros later tr'.
    split; [now apply failed_calls_fixed |].
    rewrite awaitReceipt_reached, awaitVerifyReceipt_reached by (rewrite Hs; reflexivity).
    unfold ETHOp.replay. rewrite Hs, He. split; reflexivity.
  - intros txData txHash provider ms tr0 t tr Hrun Hs.
    assert (Hc : Tx.consistent t = true).
    { change t with (fst (t, tr)). rewrite <- Hrun.
      apply tx_consistent_calls. reflexivity. }
    unfold Tx.consistent in Hc. rewrite Hs in Hc.
    destruct (Tx.error t) as [e |] eqn:He; [| discriminate Hc].
    exists e. split; [reflexivity |]. intros later tr'.
    split; [now apply tx_failed_calls_fixed |].
    rewrite tx_awaitReceipt_reached, tx_awaitVerifyReceipt_failed
      by (try rewrite Hs; reflexivity || assumption).
    unfold Tx.replay. rewrite Hs, He. split; reflexivity.
Qed.

(** C6: over every sequence of awaits, from any state, the state of a
    tracker moves only as [permitted]: forward or not at all in
    Sent < Mined < Committed < Verified (Sent < Committed < Verified for a
    [Transaction]), or into [Failed]; and a tracker in [Failed] stays
    there. *)
Theorem C6_state_monotone :
  (forall (ms : list ETHOp.Method) (o : Op) (tr : Trace),
      ETHOp.permitted (ETHOp.state o) (ETHOp.state (fst (calls ms (o, tr)))) = true /\
      (ETHOp.state o = ETHOp.Failed ->
       ETHOp.state (fst (calls ms (o, tr))) = ETHOp.Failed) /\
      (ETHOp.state (fst (calls ms (o, tr))) <> ETHOp.Failed ->
       (ETHOp.rank (ETHOp.state o) <= ETHOp.rank (ETHOp.state (fst (calls ms (o, tr)))))%nat)) /\
  (forall (ms : list Tx.Method) (t : Tx.Transaction) (tr : Trace),
      Tx.permitted (Tx.state t) (Tx.state (fst (Tx.calls ms (t, tr)))) = true /\
      (Tx.state t = Tx.Failed ->
       Tx.state (fst (Tx.calls ms (t, tr))) = Tx.Failed) /\
      (Tx.state (fst (Tx.calls ms (t, tr))) <> Tx.Failed ->
       (Tx.rank (Tx.state t) <= Tx.rank (Tx.state (fst (Tx.calls ms (t, tr)))))%nat)).
Proof.
  split.
  - intros ms o tr. pose proof (permitted_calls ms (o, tr)) as P. cbn [fst] in P.
    split; [exact P |].
    destruct (ETHOp.state o), (ETHOp.state (fst (calls ms (o, tr))));
      cbn in P |- *; try discriminate P;
      (split; [intros; congruence | intros; try lia; congruence]).
  - intros ms t tr. pose proof (tx_permitted_calls ms (t, tr)) as P. cbn [fst] in P.
    split; [exact P |].
    destruct (Tx.state t), (Tx.state (fst (Tx.calls ms (t, tr))));
      cbn in P |- *; try discriminate P;
      (split; [intros; congruence | intros; try lia; congruence]).
Qed.

(** C7: after every sequence of awaits on a new tracker, the [error] field
    is set if and only if the state is [Failed]. *)
Theorem C7_error_iff_Failed :
  (forall (ethTx : ETHOp.ContractTransaction Log) (provider : Provider)
          (ms : list ETHOp.Method) (tr0 : Trace),
      ETHOp.error (fst (calls ms (ETHOp.new ethTx provider, tr0))) <> None <->
      ETHOp.state (fst (calls ms (ETHOp.new ethTx provider, tr0))) = ETHOp.Failed) /\
  (forall (txData txHash : string) (provider : Provider)
          (ms : list Tx.Method) (tr0 : Trace),
      Tx.error (fst (Tx.calls ms (Tx.new txData txHash provider, tr0))) <> None <->
      Tx.state (fst (Tx.calls ms (Tx.new txData txHash provider, tr0))) = Tx.Failed).
Proof.
  split.
  - intros ethTx provider ms tr0.
    pose proof (consistent_calls ms (ETHOp.new ethTx provider, tr0)
                  (consistent_new ethTx provider)) as Hc.
    unfold ETHOp.consistent in Hc.
    destruct (ETHOp.state _), (ETHOp.priorityOpId _), (ETHOp.error _);
      try discriminate Hc; split; congruence.
  - intros txData txHash provider ms tr0.
    pose proof (tx_consistent_calls ms (Tx.new txData txHash provider, tr0) eq_refl) as Hc.
    unfold Tx.consistent in Hc.
    destruct (Tx.state _), (Tx.error _); try discriminate Hc; split; congruence.
Qed.

(** C10: after every sequence of awaits on a new [ETHOperation],
    [priorityOpId] is unset in [Sent] and set in every other state
    ([Mined], [Committed], [Verified], [Failed]); and once the tracker has
    left [Sent], no later await changes the identifier. *)
Theorem C10_priorityOpId_defined_after_Sent
  (ethTx : ETHOp.ContractTransaction Log) (provider : Provider)
  (ms : list ETHOp.Method) (tr0 : Trace) (o : Op) (tr : Trace) :
  calls ms (ETHOp.new ethTx provider, tr0) = (o, tr) ->
  (ETHOp.state o = ETHOp.Sent -> ETHOp.priorityOpId o = None) /\
  (ETHOp.state o <> ETHOp.Sent ->
   exists id,
     ETHOp.priorityOpId o = Some id /\
     forall (later : list ETHOp.Method) (tr' : Trace),
       ETHOp.priorityOpId (fst (calls later (o, tr'))) = Some id).
Proof.
  intros Hrun.
  assert (Hc : ETHOp.consistent o = true).
  { change o with (fst (o, tr)). rewrite <- Hrun.
    apply consistent_calls, consistent_new. }
  split.
  - intros Hs. now apply consistent_Sent.
  - intros Hs. unfold ETHOp.consistent in Hc.
    destruct (ETHOp.priorityOpId o) as [id |] eqn:Hp.
    + exists id. split; [reflexivity |]. intros later tr'.
      rewrite <- Hp. now apply (priorityOpId_kept_calls later (o, tr')).
    + destruct (ETHOp.state o), (ETHOp.error o); try discriminate Hc.
      now contradiction Hs.
Qed.

Lemma snoc2 {A} (l : list A) (a b : A) : ((l ++ [a]) ++ [b] = l ++ [a; b])%list.
Proof. now rewrite <- app_assoc. Qed.

(** What [awaitVerifyReceipt] on a new tracker can end in, with the round
    trips it made. *)
Lemma awaitVerifyReceipt_new_ends
  (ethTx : ETHOp.ContractTransaction Log) (provider : Provider) (tr : Trace) :
  (ETHOp.state (object (awaitVerifyReceipt (ETHOp.new ethTx provider, tr))) = ETHOp.Verified ->
   exists id,
     history (awaitVerifyReceipt (ETHOp.new ethTx provider, tr)) =
       (tr ++ [Ev_wait; Ev_notifyPriorityOp id COMMIT; Ev_notifyPriorityOp id VERIFY])%list /\
     ETHOp.state (object (awaitEthereumTxCommit (ETHOp.new ethTx provider, tr))) = ETHOp.Mined /\
     ETHOp.state (object (awaitReceipt (ETHOp.new ethTx provider, tr))) = ETHOp.Committed) /\
  (ETHOp.state (object (awaitVerifyReceipt (ETHOp.new ethTx provider, tr))) = ETHOp.Failed ->
   exists id,
     history (awaitVerifyReceipt (ETHOp.new ethTx provider, tr)) =
       (tr ++ [Ev_wait; Ev_notifyPriorityOp id COMMIT])%list).
Proof.
  unfold ETHOp.new.
  split; intros H; revert H; eth_run; intros H; try discriminate H;
    eexists; rewrite <- ?app_assoc; cbn [app]; repeat split; reflexivity.
Qed.

(** C4: [awaitVerifyReceipt] on a new [ETHOperation] whose collaborators
    answer well awaits the inclusion receipt, then polls at COMMIT depth,
    then at VERIFY depth, in this order, and passes through [Mined] (where
    [awaitEthereumTxCommit] alone stops) and [Committed] (where
    [awaitReceipt] alone stops) on its way to [Verified]; it cannot end in
    [Verified] otherwise.  When the COMMIT-depth poll answers with
    [executed] false, the call ends in [Failed] throwing the stored error,
    having made the COMMIT-depth poll and no VERIFY-depth poll; whenever it
    ends in [Failed] it made no VERIFY-depth poll. *)
Theorem C4_verify_sequences_through_commit
  (ethTx : ETHOp.ContractTransaction Log) (provider : Provider) (tr : Trace) :
  (forall (rc : ETHOp.ContractReceipt Log) (id : Z)
          (committed verified : PriorityOperationReceipt),
      ETHOp.wait ethTx tr = Fulfilled rc ->
      serialIds (ETHOp.logs rc) <> [] ->
      id = last (serialIds (ETHOp.logs rc)) 0 ->
      Z.abs id < 2 ^ 53 ->
      notifyPriorityOp provider (tr ++ [Ev_wait]) id COMMIT = Fulfilled committed ->
      executed committed = true ->
      notifyPriorityOp provider (tr ++ [Ev_wait; Ev_notifyPriorityOp id COMMIT]) id VERIFY
        = Fulfilled verified ->
      awaitEthereumTxCommit (ETHOp.new ethTx provider, tr) =
        (Returned (Some rc),
         (ETHOp.set_state ETHOp.Mined (ETHOp.set_priorityOpId id (ETHOp.new ethTx provider)),
          (tr ++ [Ev_wait])%list)) /\
      awaitReceipt (ETHOp.new ethTx provider, tr) =
        (Returned (Some committed),
         (ETHOp.set_state ETHOp.Committed
            (ETHOp.set_priorityOpId id (ETHOp.new ethTx provider)),
          (tr ++ [Ev_wait; Ev_notifyPriorityOp id COMMIT])%list)) /\
      awaitVerifyReceipt (ETHOp.new ethTx provider, tr) =
        (Returned (Some verified),
         (ETHOp.set_state ETHOp.Verified
            (ETHOp.set_priorityOpId id (ETHOp.new ethTx provider)),
          (tr ++ [Ev_wait; Ev_notifyPriorityOp id COMMIT;
                  Ev_notifyPriorityOp id VERIFY])%list))) /\
  (ETHOp.state (object (awaitVerifyReceipt (ETHOp.new ethTx provider, tr))) = ETHOp.Verified ->
   exists id,
     history (awaitVerifyReceipt (ETHOp.new ethTx provider, tr)) =
       (tr ++ [Ev_wait; Ev_notifyPriorityOp id COMMIT; Ev_notifyPriorityOp id VERIFY])%list /\
     ETHOp.state (object (awaitEthereumTxCommit (ETHOp.new ethTx provider, tr))) = ETHOp.Mined /\
     ETHOp.state (object (awaitReceipt (ETHOp.new ethTx provider, tr))) = ETHOp.Committed) /\
  (forall (rc : ETHOp.ContractReceipt Log) (id : Z) (rejected : PriorityOperationReceipt),
      ETHOp.wait ethTx tr = Fulfilled rc ->
      serialIds (ETHOp.logs rc) <> [] ->
      id = last (serialIds (ETHOp.logs rc)) 0 ->
      Z.abs id < 2 ^ 53 ->
      notifyPriorityOp provider (tr ++ [Ev_wait]) id COMMIT = Fulfilled rejected ->
      executed rejected = false ->
      awaitVerifyReceipt (ETHOp.new ethTx provider, tr) =
        (Threw (Thrown_ZKSyncTxError
                  (mkZKSyncTxError "Priority operation failed"
                                   (OfPriorityOperation rejected))),
         (ETHOp.set_error
            (mkZKSyncTxError "Priority operation failed" (OfPriorityOperation rejected))
            (ETHOp.set_state ETHOp.Failed
               (ETHOp.set_priorityOpId id (ETHOp.new ethTx provider))),
          (tr ++ [Ev_wait; Ev_notifyPriorityOp id COMMIT])%list))) /\
  (ETHOp.state (object (awaitVerifyReceipt (ETHOp.new ethTx provider, tr))) = ETHOp.Failed ->
   exists id,
     history (awaitVerifyReceipt (ETHOp.new ethTx provider, tr)) =
       (tr ++ [Ev_wait; Ev_notifyPriorityOp id COMMIT])%list).
Proof.
  pose proof (awaitVerifyReceipt_new_ends ethTx provider tr) as [HV HF].
  split; [| split; [exact HV | split; [| exact HF]]].
  - intros rc id committed verified Hw Hne Hid Hsafe Hc Hex Hv.
    pose proof (last_map_Some_nonempty _ None 0 Hne) as Hlast. rewrite <- Hid in Hlast.
    pose proof (toNumber_safe id Hsafe) as Hnum.
    assert (Hneg : negb (executed committed) = false) by now rewrite Hex.
    rewrite <- snoc2 in Hv.
    unfold ETHOp.new in *.
    clear HV HF.
    repeat split; eth_run; rewrite <- ?app_assoc; cbn [app];
      unfold ETHOp.scanned, ETHOp.set_state, ETHOp.set_priorityOpId;
      cbn [ETHOp.state ETHOp.error ETHOp.priorityOpId ETHOp.ethTx ETHOp.zkSyncProvider];
      rewrite ?Hlast; reflexivity.
  - intros rc id rejected Hw Hne Hid Hsafe Hc Hex.
    pose proof (last_map_Some_nonempty _ None 0 Hne) as Hlast. rewrite <- Hid in Hlast.
    pose proof (toNumber_safe id Hsafe) as Hnum.
    assert (Hneg : negb (executed rejected) = true) by now rewrite Hex.
    unfold ETHOp.new in *.
    clear HV HF.
    eth_run; rewrite <- ?app_assoc; cbn [app];
      unfold ETHOp.scanned, ETHOp.set_state, ETHOp.set_error, ETHOp.set_priorityOpId;
      cbn [ETHOp.state ETHOp.error ETHOp.priorityOpId ETHOp.ethTx ETHOp.zkSyncProvider];
      rewrite ?Hlast; reflexivity.
Qed.

End Trackers.

(** ** The trackers on concrete inputs *)

(** C1, instance of the amended statement: a deposit whose receipt holds a
    [Transfer] and a [BlockCommit] log only. *)
Lemma C1_log_parse_failure_throws_witness :
  ETHOp.state Sample.deposit_without_event = ETHOp.Sent /\
  ETHOp.serialIds Sample.Log Sample.parseLog (ETHOp.logs Sample.receipt_without_event) = [] /\
  Sample.awaitReceipt (Sample.deposit_without_event, []) =
    (Threw (Thrown_Error "Failed to parse tx logs"),
     (Sample.deposit_without_event, [Ev_wait])).
Proof.
  split; [reflexivity | split; [reflexivity |]].
  exact (proj1 (proj2
    (C1_log_parse_failure_throws Sample.Log Sample.parseLog
       (Sample.included [Sample.foreign_log; Sample.commit_log]) (Sample.provider true true)
       [] [] Sample.deposit_without_event [] Sample.receipt_without_event
       eq_refl eq_refl eq_refl eq_refl))).
Defined.

(** C1, as stated, fails: with no priority-operation event in the receipt
    the await throws, but the tracker is still in [Sent], not in [Failed],
    no error is stored, and the next await makes a further round trip. *)
Lemma C1_log_parse_failure_is_not_Failed :
  ETHOp.serialIds Sample.Log Sample.parseLog (ETHOp.logs Sample.receipt_without_event) = [] /\
  completion (Sample.awaitReceipt (Sample.deposit_without_event, [])) =
    Threw (Thrown_Error "Failed to parse tx logs") /\
  ETHOp.state (object (Sample.awaitReceipt (Sample.deposit_without_event, []))) = ETHOp.Sent /\
  ETHOp.state (object (Sample.awaitReceipt (Sample.deposit_without_event, []))) <> ETHOp.Failed /\
  ETHOp.error (object (Sample.awaitReceipt (Sample.deposit_without_event, []))) = None /\
  history (Sample.awaitReceipt (snd (Sample.awaitReceipt (Sample.deposit_without_event, [])))) =
    [Ev_wait; Ev_wait].
Proof. repeat split; try reflexivity. discriminate. Qed.

(** C2, instance of the amended statement: VERIFY polls answered with a
    failure flag. *)
Lemma C2_verify_disposition_not_inspected_witness :
  executed (Sample.priority_receipt false) = false /\
  success (Sample.transaction_receipt false) = false /\
  Sample.awaitVerifyReceipt Sample.committed_deposit =
    (Returned (Some (Sample.priority_receipt false)),
     (ETHOp.set_state ETHOp.Verified (fst Sample.committed_deposit),
      [Ev_wait; Ev_notifyPriorityOp 42 COMMIT; Ev_notifyPriorityOp 42 VERIFY])) /\
  Tx.awaitVerifyReceipt Sample.committed_transfer =
    (Returned (Sample.transaction_receipt false),
     (Tx.set_state Tx.Verified (fst Sample.committed_transfer),
      [Ev_notifyTransaction "sync-tx:ab12" COMMIT;
       Ev_notifyTransaction "sync-tx:ab12" VERIFY])).
Proof.
  split; [reflexivity | split; [reflexivity |]].
  pose proof (C2_verify_disposition_not_inspected Sample.Log Sample.parseLog
    (fst Sample.committed_deposit) (fst Sample.committed_transfer)
    [Ev_wait; Ev_notifyPriorityOp 42 COMMIT] 42
    (Sample.priority_receipt false) (Sample.transaction_receipt false)
    eq_refl eq_refl eq_refl eq_refl eq_refl eq_refl) as [[H _] _].
  split; [exact H | reflexivity].
Defined.

(** C2, as stated, fails: after a VERIFY-depth disposition marked as a
    failure both trackers are in [Verified], not in [Failed]. *)
Lemma C2_failed_verify_disposition_ends_Verified :
  (completion (Sample.awaitVerifyReceipt Sample.committed_deposit) =
     Returned (Some (mkPriorityOperationReceipt false "block 7")) /\
   ETHOp.state (object (Sample.awaitVerifyReceipt Sample.committed_deposit)) = ETHOp.Verified /\
   ETHOp.state (object (Sample.awaitVerifyReceipt Sample.committed_deposit)) <> ETHOp.Failed) /\
  (completion (Tx.awaitVerifyReceipt Sample.committed_transfer) =
     Returned (mkTransactionReceipt false "insufficient balance" "block 7") /\
   Tx.state (object (Tx.awaitVerifyReceipt Sample.committed_transfer)) = Tx.Verified /\
   Tx.state (object (Tx.awaitVerifyReceipt Sample.committed_transfer)) <> Tx.Failed).
Proof. repeat split; try reflexivity; discriminate. Qed.

(** C3, instance of the amended statement: a committed deposit and a
    verified transfer asked again for COMMIT depth. *)
Lemma C3_reawait_is_a_no_op_witness :
  ETHOp.reached COMMIT (ETHOp.state (fst Sample.committed_deposit)) = true /\
  Tx.reached_commit (Tx.state (fst Sample.verified_transfer)) = true /\
  Sample.awaitReceipt (fst Sample.committed_deposit, snd Sample.committed_deposit) =
    (Returned None, (fst Sample.committed_deposit, snd Sample.committed_deposit)) /\
  Tx.awaitReceipt (fst Sample.verified_transfer, snd Sample.verified_transfer) =
    (Returned None, (fst Sample.verified_transfer, snd Sample.verified_transfer)).
Proof.
  split; [reflexivity | split; [reflexivity |]].
  pose proof (C3_reawait_is_a_no_op Sample.Log Sample.parseLog
    (fst Sample.committed_deposit) (fst Sample.verified_transfer) COMMIT
    (snd Sample.committed_deposit) eq_refl eq_refl) as [[H _] _].
  split; [exact H | reflexivity].
Defined.

(** C3, as stated, fails: the second [awaitReceipt] on a committed deposit
    returns [undefined], not the receipt the first one computed; and
    [awaitVerifyReceipt] on a verified transfer polls once more. *)
Lemma C3_reawait_differs :
  (completion (Sample.awaitReceipt (Sample.deposit true false, [])) =
     Returned (Some (mkPriorityOperationReceipt true "block 7")) /\
   ETHOp.state (fst Sample.committed_deposit) = ETHOp.Committed /\
   completion (Sample.awaitReceipt Sample.committed_deposit) = Returned None) /\
  (Tx.state (fst Sample.verified_transfer) = Tx.Verified /\
   snd Sample.verified_transfer =
     [Ev_notifyTransaction "sync-tx:ab12" COMMIT;
      Ev_notifyTransaction "sync-tx:ab12" VERIFY] /\
   history (Tx.awaitVerifyReceipt Sample.verified_transfer) =
     [Ev_notifyTransaction "sync-tx:ab12" COMMIT;
      Ev_notifyTransaction "sync-tx:ab12" VERIFY;
      Ev_notifyTransaction "sync-tx:ab12" VERIFY]).
Proof. repeat split; reflexivity. Qed.

(** C4 on a deposit with serial id 42: the three polls in order on the
    happy path, and no VERIFY poll after a rejected COMMIT. *)
Lemma C4_verify_sequences_through_commit_witness :
  Sample.awaitVerifyReceipt (Sample.deposit true true, []) =
    (Returned (Some (Sample.priority_receipt true)),
     (ETHOp.set_state ETHOp.Verified
        (ETHOp.set_priorityOpId 42 (Sample.deposit true true)),
      [Ev_wait; Ev_notifyPriorityOp 42 COMMIT; Ev_notifyPriorityOp 42 VERIFY])) /\
  Sample.awaitVerifyReceipt (Sample.deposit false true, []) =
    (Threw (Thrown_ZKSyncTxError
              (mkZKSyncTxError "Priority operation failed"
                 (OfPriorityOperation (Sample.priority_receipt false)))),
     (ETHOp.set_error
        (mkZKSyncTxError "Priority operation failed"
           (OfPriorityOperation (Sample.priority_receipt false)))
        (ETHOp.set_state ETHOp.Failed
           (ETHOp.set_priorityOpId 42 (Sample.deposit false true))),
      [Ev_wait; Ev_notifyPriorityOp 42 COMMIT])).
Proof.
  split.
  - exact (proj2 (proj2 (proj1
      (C4_verify_sequences_through_commit Sample.Log Sample.parseLog
         (Sample.included [Sample.foreign_log; Sample.deposit_log; Sample.commit_log])
         (Sample.provider true true) [])
      Sample.deposit_receipt 42 (Sample.priority_receipt true) (Sample.priority_receipt true)
      eq_refl ltac:(discriminate) eq_refl eq_refl eq_refl eq_refl eq_refl))).
  - exact (proj1 (proj2 (proj2
      (C4_verify_sequences_through_commit Sample.Log Sample.parseLog
         (Sample.included [Sample.foreign_log; Sample.deposit_log; Sample.commit_log])
         (Sample.provider false true) [])))
      Sample.deposit_receipt 42 (Sample.priority_receipt false)
      eq_refl ltac:(discriminate) eq_refl eq_refl eq_refl eq_refl).
Defined.

(** C5 on a deposit and a transfer that were rejected at COMMIT depth. *)
Lemma C5_error_stickiness_witness :
  (ETHOp.state (fst Sample.failed_deposit) = ETHOp.Failed /\
   exists e,
     ETHOp.error (fst Sample.failed_deposit) = Some e /\
     forall (later : list ETHOp.Method) (tr' : Trace),
       Sample.calls later (fst Sample.failed_deposit, tr') = (fst Sample.failed_deposit, tr') /\
       Sample.awaitReceipt (fst Sample.failed_deposit, tr') =
         (Threw (Thrown_ZKSyncTxError e), (fst Sample.failed_deposit, tr')) /\
       Sample.awaitVerifyReceipt (fst Sample.failed_deposit, tr') =
         (Threw (Thrown_ZKSyncTxError e), (fst Sample.failed_deposit, tr'))) /\
  (Tx.state (fst Sample.failed_transfer) = Tx.Failed /\
   exists e,
     Tx.error (fst Sample.failed_transfer) = Some e /\
     forall (later : list Tx.Method) (tr' : Trace),
       Tx.calls later (fst Sample.failed_transfer, tr') = (fst Sample.failed_transfer, tr') /\
       Tx.awaitReceipt (fst Sample.failed_transfer, tr') =
         (Threw (Thrown_ZKSyncTxError e), (fst Sample.failed_transfer, tr')) /\
       Tx.awaitVerifyReceipt (fst Sample.failed_transfer, tr') =
         (Threw (Thrown_ZKSyncTxError e), (fst Sample.failed_transfer, tr'))).
Proof.
  split; (split; [reflexivity |]).
  - exact (proj1 (C5_error_stickiness Sample.Log Sample.parseLog)
      (Sample.included [Sample.foreign_log; Sample.deposit_log; Sample.commit_log])
      (Sample.provider false true) [ETHOp.AwaitVerifyReceipt] []
      (fst Sample.failed_deposit) (snd Sample.failed_deposit) eq_refl eq_refl).
  - exact (proj2 (C5_error_stickiness Sample.Log Sample.parseLog)
      "transfer"%string "sync-tx:ab12"%string
      (Sample.provider false true) [Tx.AwaitReceipt] []
      (fst Sample.failed_transfer) (snd Sample.failed_transfer) eq_refl eq_refl).
Defined.

(** C6 on a deposit asked for VERIFY depth and then for COMMIT depth
    again, and on a failed transfer asked again. *)
Lemma C6_state_monotone_witness :
  ETHOp.permitted ETHOp.Sent
    (ETHOp.state (fst (Sample.calls [ETHOp.AwaitVerifyReceipt; ETHOp.AwaitReceipt]
                         (Sample.deposit true true, [])))) = true /\
  Tx.state (fst (Tx.calls [Tx.AwaitVerifyReceipt; Tx.AwaitReceipt] Sample.failed_transfer))
    = Tx.Failed.
Proof.
  split.
  - exact (proj1 (proj1 (C6_state_monotone Sample.Log Sample.parseLog)
      [ETHOp.AwaitVerifyReceipt; ETHOp.AwaitReceipt] (Sample.deposit true true) [])).
  - exact (proj1 (proj2 (proj2 (C6_state_monotone Sample.Log Sample.parseLog)
      [Tx.AwaitVerifyReceipt; Tx.AwaitReceipt]
      (fst Sample.failed_transfer) (snd Sample.failed_transfer))) eq_refl).
Defined.

(** C7 on a rejected deposit and on a verified transfer. *)
Lemma C7_error_iff_Failed_witness :
  ETHOp.error (fst Sample.failed_deposit) <> None /\
  Tx.error (fst Sample.verified_transfer) = None.
Proof.
  split.
  - exact (proj2 (proj1 (C7_error_iff_Failed Sample.Log Sample.parseLog)
      (Sample.included [Sample.foreign_log; Sample.deposit_log; Sample.commit_log])
      (Sample.provider false true) [ETHOp.AwaitVerifyReceipt] []) eq_refl).
  - destruct (Tx.error (fst Sample.verified_transfer)) as [e |] eqn:E; [| reflexivity].
    exfalso.
    assert (H : Tx.state (fst Sample.verified_transfer) = Tx.Failed).
    { apply (proj1 (proj2 (C7_error_iff_Failed Sample.Log Sample.parseLog)
        "transfer"%string "sync-tx:ab12"%string (Sample.provider true true)
        [Tx.AwaitVerifyReceipt] [])).
      change (Tx.error (fst Sample.verified_transfer) <> None). rewrite E. discriminate. }
    discriminate H.
Defined.

(** C8 on a transfer the network rejects for insufficient balance. *)
Lemma C8_rejection_fails_at_once_witness :
  success (Sample.transaction_receipt false) = false /\
  Tx.state (object (Tx.awaitReceipt (Sample.transfer false true, []))) = Tx.Failed /\
  Tx.error (object (Tx.awaitReceipt (Sample.transfer false true, []))) =
    Some (mkZKSyncTxError "zkSync transaction failed: insufficient balance"
            (OfTransaction (Sample.transaction_receipt false))) /\
  history (Tx.awaitReceipt (Sample.transfer false true, [])) =
    [Ev_notifyTransaction "sync-tx:ab12" COMMIT].
Proof.
  split; [reflexivity |].
  pose proof (C8_rejection_fails_at_once (Sample.transfer false true) []
    (Sample.transaction_receipt false) eq_refl eq_refl eq_refl) as [H H'].
  split; [exact H' | split; reflexivity].
Defined.

(** C9 on a deposit whose receipt carries the serial ids 42 and 43. *)
Lemma C9_last_matching_log_wins_witness :
  ETHOp.serialIds Sample.Log Sample.parseLog (ETHOp.logs Sample.receipt_with_two_events)
    = [42; 43] /\
  completion (Sample.awaitEthereumTxCommit (Sample.deposit_with_two_events, [])) =
    Returned (Some Sample.receipt_with_two_events) /\
  ETHOp.priorityOpId (object (Sample.awaitEthereumTxCommit (Sample.deposit_with_two_events, [])))
    = Some 43.
Proof.
  split; [reflexivity |].
  pose proof (C9_last_matching_log_wins Sample.Log Sample.parseLog
    Sample.deposit_with_two_events [] Sample.receipt_with_two_events
    eq_refl eq_refl (le_n 2)) as [H H'].
  split; [reflexivity | exact H'].
Defined.

(** C10 on a committed deposit: the identifier is 42 and stays 42. *)
Lemma C10_priorityOpId_defined_after_Sent_witness :
  ETHOp.state (fst Sample.committed_deposit) <> ETHOp.Sent /\
  exists id,
    ETHOp.priorityOpId (fst Sample.committed_deposit) = Some id /\
    forall (later : list ETHOp.Method) (tr' : Trace),
      ETHOp.priorityOpId (fst (Sample.calls later (fst Sample.committed_deposit, tr')))
        = Some id.
Proof.
  assert (H : ETHOp.state (fst Sample.committed_deposit) <> ETHOp.Sent) by discriminate.
  split; [exact H |].
  exact (proj2 (C10_priorityOpId_defined_after_Sent Sample.Log Sample.parseLog
    (Sample.included [Sample.foreign_log; Sample.deposit_log; Sample.commit_log])
    (Sample.provider true false) [ETHOp.AwaitReceipt] []
    (fst Sample.committed_deposit) (snd Sample.committed_deposit) eq_refl) H).
Defined.

(** ** The wallet *)

Section WalletFacts.

Variable Log : Type.
Variable isTokenETH : Wallet.TokenLike -> bool.
Variable getSignedBytesFromMessage : string -> bool -> JsThrown + string.
Variable getChangePubkeyMessage : Wallet.PubKeyHash -> Z -> option Z -> JsThrown + string.
Variable ERC20_APPROVE_TRESHOLD : Z.
Variable ERC20_DEPOSIT_GAS_LIMIT : Z.
Variable MAX_ERC20_APPROVE_AMOUNT : Wallet.BigNumberish.
Variable parseBigNumber : Wallet.BigNumberish -> JsThrown + Z.
Variable toLowerCase : string -> string.
Variable txData_of : Wallet.TxObject -> string.

Local Abbreviation W := (Wallet.Wallet Log).
Local Abbreviation invoke :=
  (Wallet.invoke Log isTokenETH getSignedBytesFromMessage getChangePubkeyMessage
     ERC20_APPROVE_TRESHOLD ERC20_DEPOSIT_GAS_LIMIT MAX_ERC20_APPROVE_AMOUNT parseBigNumber
     toLowerCase txData_of).
Local Abbreviation invoke_all :=
  (Wallet.invoke_all Log isTokenETH getSignedBytesFromMessage getChangePubkeyMessage
     ERC20_APPROVE_TRESHOLD ERC20_DEPOSIT_GAS_LIMIT MAX_ERC20_APPROVE_AMOUNT parseBigNumber
     toLowerCase txData_of).
Local Abbreviation bigNumberify := (Wallet.bigNumberify parseBigNumber).
Local Abbreviation getEthMessageSignature :=
  (Wallet.getEthMessageSignature (Log := Log) getSignedBytesFromMessage).
Local Abbreviation syncTransfer :=
  (Wallet.syncTransfer (Log := Log) getSignedBytesFromMessage toLowerCase txData_of).
Local Abbreviation syncTransferFromOtherAccount :=
  (Wallet.syncTransferFromOtherAccount (Log := Log) getSignedBytesFromMessage parseBigNumber
     toLowerCase txData_of).
Local Abbreviation withdrawFromSyncToEthereum :=
  (Wallet.withdrawFromSyncToEthereum (Log := Log) getSignedBytesFromMessage toLowerCase
     txData_of).
Local Abbreviation setSigningKey :=
  (Wallet.setSigningKey (Log := Log) getSignedBytesFromMessage getChangePubkeyMessage
     txData_of).
Local Abbreviation onchainAuthSigningKey :=
  (Wallet.onchainAuthSigningKey (Log := Log) parseBigNumber).
Local Abbreviation getBalance := (Wallet.getBalance (Log := Log) parseBigNumber).
Local Abbreviation getEthereumBalance := (Wallet.getEthereumBalance (Log := Log) isTokenETH).
Local Abbreviation isERC20DepositsApproved :=
  (Wallet.isERC20DepositsApproved (Log := Log) isTokenETH ERC20_APPROVE_TRESHOLD
     parseBigNumber).
Local Abbreviation approveERC20TokenDeposits :=
  (Wallet.approveERC20TokenDeposits (Log := Log) isTokenETH MAX_ERC20_APPROVE_AMOUNT).
Local Abbreviation depositToSyncFromEthereum :=
  (Wallet.depositToSyncFromEthereum (Log := Log) isTokenETH ERC20_DEPOSIT_GAS_LIMIT
     parseBigNumber).
Local Abbreviation emergencyWithdraw := (Wallet.emergencyWithdraw (Log := Log) parseBigNumber).
Local Abbreviation setRequiredAccountIdFromServer :=
  (Wallet.setRequiredAccountIdFromServer (Log := Log)).

Ltac wallet_run :=
  unfold Wallet.run, Wallet.new_requests,
    Wallet.syncTransfer, Wallet.syncTransferFromOtherAccount,
    Wallet.withdrawFromSyncToEthereum, Wallet.fee_or_quote,
    Wallet.setSigningKey, Wallet.onchainAuthSigningKey, Wallet.isOnchainAuthSigningKeySet,
    Wallet.isSigningKeySet, Wallet.getEthMessageSignature,
    Wallet.depositToSyncFromEthereum, Wallet.emergencyWithdraw,
    Wallet.isERC20DepositsApproved, Wallet.approveERC20TokenDeposits,
    Wallet.getEthereumBalance, Wallet.getBalance,
    Wallet.setRequiredAccountIdFromServer, Wallet.getAccountId, Wallet.getNonce,
    Wallet.getCurrentPubKeyHash, Wallet.getAccountState, Wallet.address, Wallet.connect;
  cbn [fst snd negb Wallet.ethSigner Wallet.cachedAddress Wallet.signer
                     Wallet.accountId Wallet.ethSignerType Wallet.provider
                     Wallet.set_accountId Wallet.set_provider
                     Wallet.spread Wallet.overridden Wallet.is_null Wallet.key_of
                     Wallet.of_optional Wallet.set_gasLimit Wallet.bigNumberify
                     Wallet.req_nonce Wallet.req_gasLimit Wallet.req_gasPrice
                     Wallet.req_value Wallet.req_rest
                     Wallet.emergency_token Wallet.emergency_accountId
                     Wallet.emergency_ethTxOptions
                     Wallet.depositTo Wallet.deposit_token Wallet.deposit_amount
                     Wallet.deposit_ethTxOptions Wallet.approveDepositAmountForERC20
                     Wallet.transfer_to Wallet.transfer_token Wallet.transfer_amount
                     Wallet.transfer_fee Wallet.transfer_nonce
                     Wallet.transferFrom_from Wallet.transferFrom_token
                     Wallet.transferFrom_amount Wallet.transferFrom_fee
                     Wallet.transferFrom_nonce Wallet.transferFrom_fromSignature
                     Wallet.withdraw_ethAddress Wallet.withdraw_token
                     Wallet.withdraw_amount Wallet.withdraw_fee Wallet.withdraw_nonce] in *;
  repeat first
    [ progress (unfold bind, ret, throw, update, Wallet.this_, Wallet.assign,
                Wallet.request, Wallet.sync, Wallet.recover)
    | progress (cbn [fst snd negb Wallet.ethSigner Wallet.cachedAddress Wallet.signer
                     Wallet.accountId Wallet.ethSignerType Wallet.provider
                     Wallet.set_accountId Wallet.set_provider
                     Wallet.spread Wallet.overridden Wallet.is_null Wallet.key_of
                     Wallet.of_optional Wallet.set_gasLimit Wallet.bigNumberify
                     Wallet.req_nonce Wallet.req_gasLimit Wallet.req_gasPrice
                     Wallet.req_value Wallet.req_rest
                     Wallet.emergency_token Wallet.emergency_accountId
                     Wallet.emergency_ethTxOptions
                     Wallet.depositTo Wallet.deposit_token Wallet.deposit_amount
                     Wallet.deposit_ethTxOptions Wallet.approveDepositAmountForERC20
                     Wallet.transfer_to Wallet.transfer_token Wallet.transfer_amount
                     Wallet.transfer_fee Wallet.transfer_nonce
                     Wallet.transferFrom_from Wallet.transferFrom_token
                     Wallet.transferFrom_amount Wallet.transferFrom_fee
                     Wallet.transferFrom_nonce Wallet.transferFrom_fromSignature
                     Wallet.withdraw_ethAddress Wallet.withdraw_token
                     Wallet.withdraw_amount Wallet.withdraw_fee Wallet.withdraw_nonce])
    | use_answer
    | split_match ].


Lemma skipn_length_app {A} (l l' : list A) : skipn (List.length l) (l ++ l') = l'.
Proof. induction l as [| a l IH]; [reflexivity | exact IH]. Qed.

(** Goes through the members of an explicit list of requests. *)
Ltac in_cases :=
  let H := fresh "H" in
  intros H; repeat (destruct H as [H | H]; try discriminate H); try contradiction;
  try (injection H; congruence).

(** Brings the requests a run added into the form of an explicit list. *)
Ltac new_requests_list :=
  rewrite <- ?app_assoc; cbn [app];
  rewrite ?skipn_length_app, ?skipn_all.

(** X1: Once [setRequiredAccountIdFromServer] has returned, the wallet holds an
    account id, and the method never asks the server again: with an id in
    the wallet it sends no request and changes nothing. *)
Theorem accountId_is_fetched_once (actionName : string) (w : W) (log : Wallet.RLog) :
  (forall n, Wallet.accountId w = Some n ->
     Wallet.run (setRequiredAccountIdFromServer actionName) w log = (Returned tt, (w, log))) /\
  (fst (Wallet.run (setRequiredAccountIdFromServer actionName) w log) = Returned tt ->
   exists n,
     Wallet.accountId (fst (snd (Wallet.run (setRequiredAccountIdFromServer actionName) w log)))
       = Some n /\
     forall (actionName' : string) (log' : Wallet.RLog),
       Wallet.run (setRequiredAccountIdFromServer actionName')
         (fst (snd (Wallet.run (setRequiredAccountIdFromServer actionName) w log))) log' =
       (Returned tt,
        (fst (snd (Wallet.run (setRequiredAccountIdFromServer actionName) w log)), log'))).
Proof.
  destruct w as [es ca sg aid est pr]. split.
  - intros n H. cbn in H. subst aid. wallet_run. reflexivity.
  - wallet_run; intros H; try discriminate H; eexists; split; try reflexivity;
      intros; wallet_run; reflexivity.
Qed.

(** X2: A wallet without an account id asks the server for the state of its
    address.  When the state has no id, the method throws an error naming
    the action and leaves the wallet without an id; any id the server gives,
    0 included, is stored in the wallet. *)
Theorem unknown_account_is_reported
  (actionName : string) (w : W) (log : Wallet.RLog) (state : Wallet.AccountState) :
  Wallet.accountId w = None ->
  Wallet.getState (Wallet.provider w) log (Wallet.cachedAddress w) = Fulfilled state ->
  (Wallet.id state = None ->
   Wallet.run (setRequiredAccountIdFromServer actionName) w log =
     (Threw (Thrown_Error
               (String.append "Failed to "
                  (String.append actionName
                     ": Account does not exist in the zkSync network"))),
      (w, (log ++ [Wallet.Req_getState (Wallet.cachedAddress w)])%list))) /\
  (forall n, Wallet.id state = Some n ->
   Wallet.run (setRequiredAccountIdFromServer actionName) w log =
     (Returned tt,
      (Wallet.set_accountId n w,
       (log ++ [Wallet.Req_getState (Wallet.cachedAddress w)])%list))).
Proof.
  intros Hid Hstate. destruct w as [es ca sg aid est pr]. cbn in Hid, Hstate. subst aid.
  split; [intros Hn | intros n Hn]; wallet_run; try congruence; reflexivity.
Qed.

(** X3: [emergencyWithdraw] takes the account id from its argument when it has
    one, else from the wallet when it holds one: in both cases it never
    asks the server for the account state, and a [fullExit] it sends
    carries that id. *)
Theorem emergencyWithdraw_uses_known_accountId
  (withdraw : Wallet.EmergencyArgs) (w : W) (log : Wallet.RLog) (n : Z) :
  Wallet.emergency_accountId withdraw = Some n \/
  (Wallet.emergency_accountId withdraw = None /\ Wallet.accountId w = Some n) ->
  (forall a,
      ~ In (Wallet.Req_getState a)
           (Wallet.new_requests log (Wallet.run (emergencyWithdraw withdraw) w log))) /\
  (forall contract accountId token options,
      In (Wallet.Req_fullExit contract accountId token options)
         (Wallet.new_requests log (Wallet.run (emergencyWithdraw withdraw) w log)) ->
      accountId = n).
Proof using Log parseBigNumber.
  intros H. destruct w as [es ca sg aid est pr], withdraw as [tk wid opts].
  cbn [Wallet.emergency_accountId Wallet.accountId] in H.
  split; [intros a | intros contract accountId token options];
    (destruct H as [H | [H H']]; [subst wid | subst wid aid]);
    wallet_run; new_requests_list; cbn [In]; in_cases.
Qed.

(** X4: With no account id in its argument nor in the wallet,
    [emergencyWithdraw] asks the server, and throws without sending
    [fullExit] when the state has no id or has the id 0. *)
Theorem emergencyWithdraw_refuses_unresolved_accountId
  (withdraw : Wallet.EmergencyArgs) (w : W) (log : Wallet.RLog)
  (gasPrice : Z) (state : Wallet.AccountState) :
  Wallet.emergency_accountId withdraw = None ->
  Wallet.accountId w = None ->
  Wallet.provider_getGasPrice (Wallet.ethSigner w) log = Fulfilled gasPrice ->
  Wallet.getState (Wallet.provider w) (log ++ [Wallet.Req_getGasPrice])%list
    (Wallet.cachedAddress w) = Fulfilled state ->
  Wallet.id state = None \/ Wallet.id state = Some 0 ->
  Wallet.run (emergencyWithdraw withdraw) w log =
    (Threw (Thrown_Error "Can't resolve account id from the zkSync node"),
     (w, (log ++ [Wallet.Req_getGasPrice;
                  Wallet.Req_getState (Wallet.cachedAddress w)])%list)).
Proof.
  intros Hwid Haid Hgas Hstate Hid.
  destruct w as [es ca sg aid est pr], withdraw as [tk wid opts].
  cbn in Hwid, Haid, Hgas, Hstate. subst wid aid.
  wallet_run; rewrite <- ?app_assoc; cbn [app];
    try reflexivity; destruct Hid; congruence.
Qed.

Lemma floor_le (limit estimate : Z) :
  limit <= (if limit <=? estimate then estimate else limit).
Proof. destruct (Z.leb_spec limit estimate); lia. Qed.

(** X5: Unless the caller's options set [gasLimit], every [depositERC20] the
    wallet sends carries a gas limit of at least [ERC20_DEPOSIT_GAS_LIMIT],
    whatever the gas estimate was and whether or not it could be made. *)
Theorem erc20_deposit_gas_limit_has_a_floor
  (deposit : Wallet.DepositArgs) (w : W) (log : Wallet.RLog) :
  Wallet.is_null (Wallet.key_of Wallet.req_gasLimit (Wallet.deposit_ethTxOptions deposit))
    = true ->
  forall contract token amount to options,
    In (Wallet.Req_depositERC20 contract token amount to options)
       (Wallet.new_requests log (Wallet.run (depositToSyncFromEthereum deposit) w log)) ->
    exists g,
      Wallet.req_gasLimit options = Wallet.Value (Wallet.BN_big g) /\
      ERC20_DEPOSIT_GAS_LIMIT <= g.
Proof.
  intros Hnull contract token amount to options.
  destruct w as [es ca sg aid est pr], deposit as [dto tk amt opts appr].
  cbn [Wallet.deposit_ethTxOptions] in Hnull.
  destruct opts as [[on ol op ov orest] |]; cbn in Hnull;
    [destruct ol; try discriminate Hnull |]; clear Hnull;
    wallet_run; new_requests_list; cbn [In]; intros H;
    repeat (destruct H as [H | H]; try discriminate H); try contradiction;
    injection H as <- <- <- <- <-; cbn [Wallet.req_gasLimit];
    eexists; (split; [reflexivity | first [apply floor_le | now apply Z.leb_le | lia]]).
Qed.

(** X6: When the caller's options set [gasLimit], the wallet asks for no gas
    estimate and every [depositERC20] it sends carries the caller's
    limit. *)
Theorem erc20_deposit_keeps_the_callers_gas_limit
  (deposit : Wallet.DepositArgs) (w : W) (log : Wallet.RLog) (limit : Wallet.BigNumberish) :
  Wallet.key_of Wallet.req_gasLimit (Wallet.deposit_ethTxOptions deposit)
    = Wallet.Value limit ->
  (forall contract token amount to options,
      ~ In (Wallet.Req_estimate_depositERC20 contract token amount to options)
           (Wallet.new_requests log (Wallet.run (depositToSyncFromEthereum deposit) w log))) /\
  (forall contract token amount to options,
      In (Wallet.Req_depositERC20 contract token amount to options)
         (Wallet.new_requests log (Wallet.run (depositToSyncFromEthereum deposit) w log)) ->
      Wallet.req_gasLimit options = Wallet.Value limit).
Proof.
  intros Hlimit.
  destruct w as [es ca sg aid est pr], deposit as [dto tk amt opts appr].
  cbn [Wallet.deposit_ethTxOptions] in Hlimit.
  destruct opts as [[on ol op ov orest] |]; cbn in Hlimit; [subst ol | discriminate Hlimit].
  split; intros contract token amount to options;
    wallet_run; new_requests_list; cbn [In]; intros H;
    repeat (destruct H as [H | H]; try discriminate H); try contradiction;
    injection H as <- <- <- <- <-; reflexivity.
Qed.

(** X7: A gas estimate that fails does not fail the deposit: with no gas limit
    from the caller and no approval asked for, the wallet sends
    [depositERC20] with [ERC20_DEPOSIT_GAS_LIMIT] after the failed estimate
    and returns the tracker of that transaction. *)
Theorem erc20_deposit_survives_a_failed_estimate
  (deposit : Wallet.DepositArgs) (w : W) (log : Wallet.RLog)
  (gasPrice : Z) (tokenAddress : Wallet.Address) (reason : string)
  (tx : Wallet.SentTransaction Log) :
  isTokenETH (Wallet.deposit_token deposit) = false ->
  Wallet.approveDepositAmountForERC20 deposit = false ->
  Wallet.is_null (Wallet.key_of Wallet.req_gasLimit (Wallet.deposit_ethTxOptions deposit))
    = true ->
  Wallet.provider_getGasPrice (Wallet.ethSigner w) log = Fulfilled gasPrice ->
  Wallet.resolveTokenAddress (Wallet.provider w) (Wallet.deposit_token deposit)
    = inr tokenAddress ->
  parseBigNumber (Wallet.BN_string "0") = inr 0 ->
  0 < ERC20_DEPOSIT_GAS_LIMIT ->
  forall txRequest,
    txRequest =
      Wallet.spread
        (Wallet.mkTransactionRequest Wallet.Undefined Wallet.Absent
           (Wallet.Value (Wallet.BN_big gasPrice)) Wallet.Absent [])
        (Wallet.deposit_ethTxOptions deposit) ->
    Wallet.estimate_depositERC20 (Wallet.ethSigner w) (log ++ [Wallet.Req_getGasPrice])%list
      (Wallet.mainContract (Wallet.provider w)) tokenAddress (Wallet.deposit_amount deposit)
      (Wallet.depositTo deposit) txRequest = Rejected reason ->
    Wallet.depositERC20 (Wallet.ethSigner w)
      (log ++ [Wallet.Req_getGasPrice;
               Wallet.Req_estimate_depositERC20 (Wallet.mainContract (Wallet.provider w))
                 tokenAddress (Wallet.deposit_amount deposit) (Wallet.depositTo deposit)
                 txRequest])%list
      (Wallet.mainContract (Wallet.provider w)) tokenAddress (Wallet.deposit_amount deposit)
      (Wallet.depositTo deposit)
      (Wallet.set_gasLimit (Wallet.BN_big ERC20_DEPOSIT_GAS_LIMIT) txRequest)
      = Fulfilled tx ->
    Wallet.run (depositToSyncFromEthereum deposit) w log =
      (Returned (ETHOp.new (Wallet.handle tx) (Wallet.notifier (Wallet.provider w))),
       (w, (log ++ [Wallet.Req_getGasPrice;
                    Wallet.Req_estimate_depositERC20 (Wallet.mainContract (Wallet.provider w))
                      tokenAddress (Wallet.deposit_amount deposit) (Wallet.depositTo deposit)
                      txRequest;
                    Wallet.Req_depositERC20 (Wallet.mainContract (Wallet.provider w))
                      tokenAddress (Wallet.deposit_amount deposit) (Wallet.depositTo deposit)
                      (Wallet.set_gasLimit (Wallet.BN_big ERC20_DEPOSIT_GAS_LIMIT)
                         txRequest)])%list)).
Proof.
  intros Heth Happr Hnull Hgas Htoken Hzero Hpos txRequest -> Hest Hdep.
  destruct w as [es ca sg aid est pr], deposit as [dto tk amt opts appr].
  cbn [Wallet.deposit_token Wallet.approveDepositAmountForERC20 Wallet.deposit_ethTxOptions
       Wallet.ethSigner Wallet.provider Wallet.deposit_amount Wallet.depositTo] in *.
  subst appr.
  assert (Hfloor : (ERC20_DEPOSIT_GAS_LIMIT <=? 0) = false) by (apply Z.leb_gt; lia).
  rewrite <- snoc2 in Hdep.
  destruct opts as [[on ol op ov orest] |]; cbn in Hnull;
    [destruct ol; try discriminate Hnull |]; clear Hnull;
    cbn [Wallet.spread Wallet.overridden Wallet.req_nonce Wallet.req_gasLimit
         Wallet.req_gasPrice Wallet.req_value Wallet.req_rest Wallet.set_gasLimit] in *;
    wallet_run; rewrite <- ?app_assoc in *; cbn [app] in *; try congruence; reflexivity.
Qed.


(** X9: A deposit of ETH never touches a token contract: besides asking the gas
    price, the only request it sends is [depositETH] to the main contract
    for the [depositTo] address, whose [value] is the deposit amount unless
    the caller's options carry a [value] of their own. *)
Theorem eth_deposit_sends_only_depositETH
  (deposit : Wallet.DepositArgs) (w : W) (log : Wallet.RLog) :
  isTokenETH (Wallet.deposit_token deposit) = true ->
  forall q,
    In q (Wallet.new_requests log (Wallet.run (depositToSyncFromEthereum deposit) w log)) ->
    q = Wallet.Req_getGasPrice \/
    exists options amount,
      q = Wallet.Req_depositETH (Wallet.mainContract (Wallet.provider w))
            (Wallet.depositTo deposit) options /\
      bigNumberify (Wallet.deposit_amount deposit) = inr amount /\
      Wallet.req_value options =
        Wallet.overridden (Wallet.Value (Wallet.BN_big amount))
          (Wallet.key_of Wallet.req_value (Wallet.deposit_ethTxOptions deposit)).
Proof.
  intros Heth q.
  destruct w as [es ca sg aid est pr], deposit as [dto tk amt opts appr].
  cbn [Wallet.deposit_token Wallet.deposit_ethTxOptions Wallet.provider
       Wallet.deposit_amount Wallet.depositTo] in *.
  destruct opts as [[on ol op ov orest] |];
    wallet_run; new_requests_list; cbn [In]; intros H;
    repeat (destruct H as [H | H]; try (now left)); try contradiction;
    right; subst q; do 2 eexists; (split; [reflexivity | split; reflexivity]).
Qed.

(** X10: ETH needs no ERC20 approval: asked about ETH, both
    [isERC20DepositsApproved] and [approveERC20TokenDeposits] throw at once,
    with no request sent and the wallet left as it is. *)
Theorem eth_needs_no_approval (token : Wallet.TokenLike) (w : W) (log : Wallet.RLog) :
  isTokenETH token = true ->
  Wallet.run (isERC20DepositsApproved token) w log =
    (Threw (Thrown_Error "ETH token does not need approval."), (w, log)) /\
  Wallet.run (approveERC20TokenDeposits token) w log =
    (Threw (Thrown_Error "ETH token does not need approval."), (w, log)).
Proof.
  intros Heth. destruct w as [es ca sg aid est pr].
  split; wallet_run; reflexivity.
Qed.

(** X11: For an ERC20 token, deposits count as approved exactly when the
    allowance the token contract reports for the wallet's address towards
    the main contract is at least [ERC20_APPROVE_TRESHOLD]. *)
Theorem erc20_approval_is_a_threshold
  (token : Wallet.TokenLike) (w : W) (log : Wallet.RLog)
  (tokenAddress : Wallet.Address) (currentAllowance : Z) :
  isTokenETH token = false ->
  Wallet.resolveTokenAddress (Wallet.provider w) token = inr tokenAddress ->
  Wallet.allowance (Wallet.ethSigner w) log tokenAddress (Wallet.cachedAddress w)
    (Wallet.mainContract (Wallet.provider w)) = Fulfilled currentAllowance ->
  exists approved,
    Wallet.run (isERC20DepositsApproved token) w log =
      (Returned approved,
       (w, (log ++ [Wallet.Req_allowance tokenAddress (Wallet.cachedAddress w)
                      (Wallet.mainContract (Wallet.provider w))])%list)) /\
    (approved = true <-> ERC20_APPROVE_TRESHOLD <= currentAllowance).
Proof.
  intros Heth Htoken Hallow. destruct w as [es ca sg aid est pr].
  cbn [Wallet.provider Wallet.ethSigner Wallet.cachedAddress] in *.
  exists (ERC20_APPROVE_TRESHOLD <=? currentAllowance). split.
  - wallet_run; reflexivity.
  - apply Z.leb_le.
Qed.

(** X12: Without a zkSync signer the wallet sends nothing: every method that
    needs the signer throws before its first request and leaves the wallet
    as it is. *)
Theorem no_signer_no_request (w : W) (log : Wallet.RLog) :
  Wallet.signer w = None ->
  (forall transfer,
      Wallet.run (syncTransfer transfer) w log =
        (Threw (Thrown_Error "ZKSync signer is required for sending zksync transactions."),
         (w, log))) /\
  (forall transferFrom,
      Wallet.run (syncTransferFromOtherAccount transferFrom) w log =
        (Threw (Thrown_Error "ZKSync signer is required for sending zksync transactions."),
         (w, log))) /\
  (forall withdraw,
      Wallet.run (withdrawFromSyncToEthereum withdraw) w log =
        (Threw (Thrown_Error "ZKSync signer is required for sending zksync transactions."),
         (w, log))) /\
  Wallet.run Wallet.isSigningKeySet w log =
    (Threw (Thrown_Error "ZKSync signer is required for current pubkey calculation."),
     (w, log)) /\
  (forall nonce onchainAuth,
      Wallet.run (setSigningKey nonce onchainAuth) w log =
        (Threw (Thrown_Error "ZKSync signer is required for current pubkey calculation."),
         (w, log))) /\
  (forall nonce ethTxOptions,
      Wallet.run (onchainAuthSigningKey nonce ethTxOptions) w log =
        (Threw (Thrown_Error "ZKSync signer is required for current pubkey calculation."),
         (w, log))).
Proof.
  intros Hs. destruct w as [es ca sg aid est pr]. cbn in Hs. subst sg.
  repeat split; intros; wallet_run; reflexivity.
Qed.

(** X13: When the key hash the server reports for the account is the signer's
    own, [isSigningKeySet] answers true, and [setSigningKey] and
    [onchainAuthSigningKey] throw after that one look at the account state:
    nothing is signed, submitted or sent to the contract. *)
Theorem signing_key_is_not_set_twice
  (w : W) (log : Wallet.RLog) (s : Wallet.Signer) (state : Wallet.AccountState) :
  Wallet.signer w = Some s ->
  Wallet.getState (Wallet.provider w) log (Wallet.cachedAddress w) = Fulfilled state ->
  Wallet.pubKeyHash (Wallet.committed state) = Wallet.signer_pubKeyHash s ->
  Wallet.run Wallet.isSigningKeySet w log =
    (Returned true, (w, (log ++ [Wallet.Req_getState (Wallet.cachedAddress w)])%list)) /\
  (forall nonce onchainAuth,
      Wallet.run (setSigningKey nonce onchainAuth) w log =
        (Threw (Thrown_Error "Current signing key is already set"),
         (w, (log ++ [Wallet.Req_getState (Wallet.cachedAddress w)])%list))) /\
  (forall nonce ethTxOptions,
      Wallet.run (onchainAuthSigningKey nonce ethTxOptions) w log =
        (Threw (Thrown_Error "Current PubKeyHash is the same as new"),
         (w, (log ++ [Wallet.Req_getState (Wallet.cachedAddress w)])%list))).
Proof.
  intros Hs Hstate Hsame. destruct w as [es ca sg aid est pr].
  cbn [Wallet.signer Wallet.provider Wallet.cachedAddress] in *. subst sg.
  assert (Heq : String.eqb (Wallet.pubKeyHash (Wallet.committed state))
                  (Wallet.signer_pubKeyHash s) = true)
    by (rewrite Hsame; apply String.eqb_refl).
  repeat split; intros; wallet_run; rewrite ?Heq; reflexivity.
Qed.

(** X14: With [onchainAuth], [setSigningKey] never asks the Ethereum signer for a
    signature, and the [ChangePubKey] it submits has no [ethSignature];
    without it, the submitted [ChangePubKey] carries one.  Either way the
    transaction is for the wallet's address and the signer's key hash, and
    goes out without a message signature beside it. *)
Theorem change_pub_key_signature_follows_onchainAuth
  (nonce : option Wallet.Nonce) (onchainAuth : bool) (w : W) (log : Wallet.RLog) :
  (onchainAuth = true ->
   forall bytes,
     ~ In (Wallet.Req_signMessage bytes)
          (Wallet.new_requests log (Wallet.run (setSigningKey nonce onchainAuth) w log))) /\
  (forall tx ethSignature,
      In (Wallet.Req_submitTx tx ethSignature)
         (Wallet.new_requests log (Wallet.run (setSigningKey nonce onchainAuth) w log)) ->
      ethSignature = None /\
      exists c s,
        tx = Wallet.Tx_ChangePubKey c /\
        Wallet.signer w = Some s /\
        Wallet.cpk_account c = Wallet.cachedAddress w /\
        Wallet.cpk_newPkHash c = Wallet.signer_pubKeyHash s /\
        (Wallet.cpk_ethSignature c = None <-> onchainAuth = true)).
Proof using Log getSignedBytesFromMessage getChangePubkeyMessage txData_of.
  destruct w as [es ca sg aid est pr]. split.
  - intros -> bytes.
    wallet_run; new_requests_list; cbn [In]; in_cases.
  - intros tx ethSignature.
    destruct onchainAuth;
      wallet_run; new_requests_list; cbn [In]; intros H;
      repeat (destruct H as [H | H]; try discriminate H); try contradiction;
      injection H as <- <-; (split; [reflexivity |]);
      do 2 eexists; repeat split; try reflexivity;
      cbn [Wallet.cpk_ethSignature]; congruence.
Qed.

(** X15: [getEthMessageSignature] throws without asking the Ethereum signer when
    the wallet does not know the type of that signer.  Otherwise it signs
    the message, prefixed exactly when the signer does not prefix what it
    signs, and labels the signature [EthereumSignature] for an ECDSA signer
    and [EIP1271Signature] for any other. *)
Theorem message_signature_follows_the_signer_type
  (message : string) (w : W) (log : Wallet.RLog) :
  (Wallet.ethSignerType w = None ->
   Wallet.run (getEthMessageSignature message) w log =
     (Threw (Thrown_Error "ethSignerType is unknown"), (w, log))) /\
  (forall t signedBytes sig,
      Wallet.ethSignerType w = Some t ->
      getSignedBytesFromMessage message (negb (Wallet.isSignedMsgPrefixed t))
        = inr signedBytes ->
      Wallet.signMessagePersonalAPI (Wallet.ethSigner w) log signedBytes = Fulfilled sig ->
      exists label,
        Wallet.run (getEthMessageSignature message) w log =
          (Returned (Wallet.mkTxEthSignature label sig),
           (w, (log ++ [Wallet.Req_signMessage signedBytes])%list)) /\
        (Wallet.verificationMethod t = "ECDSA"%string -> label = "EthereumSignature"%string) /\
        (Wallet.verificationMethod t <> "ECDSA"%string ->
         label = "EIP1271Signature"%string)).
Proof.
  destruct w as [es ca sg aid est pr]. split.
  - intros H. cbn in H. subst est. wallet_run. reflexivity.
  - intros t signedBytes sig H Hbytes Hsig.
    cbn [Wallet.ethSignerType Wallet.ethSigner] in *. subst est.
    exists (if String.eqb (Wallet.verificationMethod t) "ECDSA"
            then "EthereumSignature"%string else "EIP1271Signature"%string).
    split; [wallet_run; reflexivity |].
    destruct (String.eqb_spec (Wallet.verificationMethod t) "ECDSA"); split; congruence.
Qed.

(** X16: [fromEthSigner] given a signer but not the type of the Ethereum signer
    throws before any request.  Given both, it only asks for the address.
    Given no signer, it derives one from a signature of the Ethereum
    signer, and the type that comes with it is used only when the caller
    gave none. *)
Theorem fromEthSigner_needs_the_signer_type
  (ethWallet : Wallet.EthSigner Log) (p : Wallet.SyncProvider)
  (accountId : option Z) (log : Wallet.RLog) :
  (forall s,
      Wallet.run_static (Wallet.fromEthSigner ethWallet p (Some s) accountId None) log =
        (Threw (Thrown_Error "If you passed signer, you must also pass ethSignerType."),
         log)) /\
  (forall s t address,
      Wallet.getAddress ethWallet log = Fulfilled address ->
      Wallet.run_static (Wallet.fromEthSigner ethWallet p (Some s) accountId (Some t)) log =
        (Returned (Wallet.mkWallet Log ethWallet address (Some s) accountId (Some t) p),
         (log ++ [Wallet.Req_getAddress])%list)) /\
  (forall given derived derivedType address,
      Wallet.fromETHSignature ethWallet log = Fulfilled (derived, derivedType) ->
      Wallet.getAddress ethWallet (log ++ [Wallet.Req_fromETHSignature])%list
        = Fulfilled address ->
      Wallet.run_static (Wallet.fromEthSigner ethWallet p None accountId given) log =
        (Returned (Wallet.mkWallet Log ethWallet address (Some derived) accountId
                     (Some (match given with Some t => t | None => derivedType end)) p),
         (log ++ [Wallet.Req_fromETHSignature; Wallet.Req_getAddress])%list)).
Proof.
  repeat split; intros; unfold Wallet.run_static, Wallet.fromEthSigner;
    wallet_run; rewrite <- ?app_assoc; cbn [app]; try reflexivity.
  all: destruct given; reflexivity.
Qed.

(** X17: [getBalance] reads the committed or the verified balances as asked.  A
    token the account holds nothing of (no entry, or an empty or zero one)
    gives the balance zero, not an error; an entry gives its value. *)
Theorem missing_balance_is_zero
  (token : Wallet.TokenLike) (onVerified : bool) (w : W) (log : Wallet.RLog)
  (state : Wallet.AccountState) (symbol : string) :
  Wallet.getState (Wallet.provider w) log (Wallet.cachedAddress w) = Fulfilled state ->
  Wallet.resolveTokenSymbol (Wallet.provider w) token = inr symbol ->
  parseBigNumber (Wallet.BN_string "0") = inr 0 ->
  (Wallet.balances (if onVerified then Wallet.verified state else Wallet.committed state)
     symbol = None \/
   (exists v,
       Wallet.balances (if onVerified then Wallet.verified state else Wallet.committed state)
         symbol = Some v /\ Wallet.falsy v = true) ->
   Wallet.run (getBalance token onVerified) w log =
     (Returned 0, (w, (log ++ [Wallet.Req_getState (Wallet.cachedAddress w)])%list))) /\
  (forall v n,
      Wallet.balances (if onVerified then Wallet.verified state else Wallet.committed state)
        symbol = Some v ->
      Wallet.falsy v = false ->
      bigNumberify v = inr n ->
      Wallet.run (getBalance token onVerified) w log =
        (Returned n, (w, (log ++ [Wallet.Req_getState (Wallet.cachedAddress w)])%list))).
Proof.
  intros Hstate Hsymbol Hzero. destruct w as [es ca sg aid est pr].
  cbn [Wallet.provider Wallet.cachedAddress] in *.
  split.
  - intros [Hnone | [v [Hv Hfalsy]]]; wallet_run; try congruence; reflexivity.
  - intros v n Hv Hfalsy Hn. wallet_run; try congruence; reflexivity.
Qed.

(** X18: A fee the caller gives is used as it is: the wallet does not ask the
    provider for one, in none of the three L2 operations. *)
Theorem a_given_fee_is_not_quoted (w : W) (log : Wallet.RLog) (fee : Wallet.BigNumberish) :
  (forall transfer txType address token,
      Wallet.transfer_fee transfer = Some fee ->
      ~ In (Wallet.Req_getTransactionFee txType address token)
           (Wallet.new_requests log (Wallet.run (syncTransfer transfer) w log))) /\
  (forall transferFrom txType address token,
      Wallet.transferFrom_fee transferFrom = Some fee ->
      ~ In (Wallet.Req_getTransactionFee txType address token)
           (Wallet.new_requests log
              (Wallet.run (syncTransferFromOtherAccount transferFrom) w log))) /\
  (forall withdraw txType address token,
      Wallet.withdraw_fee withdraw = Some fee ->
      ~ In (Wallet.Req_getTransactionFee txType address token)
           (Wallet.new_requests log (Wallet.run (withdrawFromSyncToEthereum withdraw) w log))).
Proof using Log getSignedBytesFromMessage parseBigNumber toLowerCase txData_of.
  destruct w as [es ca sg aid est pr].
  split; [| split].
  - intros [to tk amt f nn] txType address token Hfee. cbn in Hfee. subst f.
    wallet_run; new_requests_list; cbn [In]; in_cases.
  - intros [from tk amt f nn fs] txType address token Hfee. cbn in Hfee. subst f.
    wallet_run; new_requests_list; cbn [In]; in_cases.
  - intros [ea tk amt f nn] txType address token Hfee. cbn in Hfee. subst f.
    wallet_run; new_requests_list; cbn [In]; in_cases.
Qed.

(** Finishes a goal on the requests of a run that submitted [tx]. *)
Ltac submitted_last :=
  new_requests_list; cbn [In]; intros H;
  repeat (destruct H as [H | H]; try discriminate H); try contradiction;
  injection H as <- <-; cbn [removelast app filter Wallet.is_submitTx In];
  repeat split; try reflexivity; eauto 8.

Ltac returned_tracker :=
  intros H; try discriminate H; injection H as <-;
  new_requests_list; cbn [removelast app];
  rewrite <- ?app_assoc in *; cbn [app] in *;
  do 2 eexists; (split; [reflexivity |]); (split; [eassumption |]);
  (split; [reflexivity |]); eexists; reflexivity.

(** X19: The three L2 operations submit at most once, as the last thing they
    do, and never without a signature of the Ethereum signer over the
    message describing the operation. *)
Theorem operations_are_submitted_last_and_signed (w : W) (log : Wallet.RLog) :
  (forall transfer,
      Wallet.submits_last_and_signed
        (Wallet.new_requests log (Wallet.run (syncTransfer transfer) w log))) /\
  (forall transferFrom,
      Wallet.submits_last_and_signed
        (Wallet.new_requests log
           (Wallet.run (syncTransferFromOtherAccount transferFrom) w log))) /\
  (forall withdraw,
      Wallet.submits_last_and_signed
        (Wallet.new_requests log (Wallet.run (withdrawFromSyncToEthereum withdraw) w log))).
Proof.
  destruct w as [es ca sg aid est pr]. unfold Wallet.submits_last_and_signed.
  split; [| split].
  - intros [to tk amt f nn] tx ethSignature. wallet_run; submitted_last.
  - intros [from tk amt f nn fs] tx ethSignature. wallet_run; submitted_last.
  - intros [ea tk amt f nn] tx ethSignature. wallet_run; submitted_last.
Qed.

Lemma new_transaction_polls_its_hash
  (txData txHash : string) (p : Provider) (tr : Trace) :
  history (Tx.awaitReceipt (Tx.new txData txHash p, tr)) =
    (tr ++ [Ev_notifyTransaction txHash COMMIT])%list.
Proof. unfold Tx.new. tx_run; reflexivity. Qed.

(** X20: The tracker an L2 operation or [setSigningKey] returns is a new
    [Transaction] on the wallet's provider for the hash the provider
    answered the submission with; a wallet that returned one holds its
    account id; and the first thing an await on the tracker does is to poll
    that hash at COMMIT depth. *)
Theorem returned_tracker_follows_the_submission (w : W) (log : Wallet.RLog) :
  (forall transfer,
      Wallet.returns_tracker_of_submission txData_of w log
        (Wallet.run (syncTransfer transfer) w log)) /\
  (forall transferFrom,
      Wallet.returns_tracker_of_submission txData_of w log
        (Wallet.run (syncTransferFromOtherAccount transferFrom) w log)) /\
  (forall withdraw,
      Wallet.returns_tracker_of_submission txData_of w log
        (Wallet.run (withdrawFromSyncToEthereum withdraw) w log)) /\
  (forall nonce onchainAuth,
      Wallet.returns_tracker_of_submission txData_of w log
        (Wallet.run (setSigningKey nonce onchainAuth) w log)) /\
  (forall r t,
      Wallet.returns_tracker_of_submission txData_of w log r ->
      fst r = Returned t ->
      Tx.state t = Tx.Sent /\
      forall tr,
        history (Tx.awaitReceipt (t, tr)) =
          (tr ++ [Ev_notifyTransaction (Tx.txHash t) COMMIT])%list).
Proof.
  destruct w as [es ca sg aid est pr]. unfold Wallet.returns_tracker_of_submission.
  split; [| split; [| split; [| split]]].
  - intros [to tk amt f nn] t. wallet_run; returned_tracker.
  - intros [from tk amt f nn fs] t. wallet_run; returned_tracker.
  - intros [ea tk amt f nn] t. wallet_run; returned_tracker.
  - intros nonce onchainAuth t. wallet_run; returned_tracker.
  - intros r t Hr Ht. destruct (Hr t Ht) as [tx [sig [_ [_ [-> _]]]]].
    split; [reflexivity |]. intros tr. apply new_transaction_polls_its_hash.
Qed.

Lemma kept_refl (w : W) : Wallet.kept w w.
Proof. repeat split; auto. Qed.

Lemma kept_trans (a b c : W) : Wallet.kept a b -> Wallet.kept b c -> Wallet.kept a c.
Proof.
  intros (E1 & E2 & E3 & E4 & E5) (F1 & F2 & F3 & F4 & F5).
  repeat split; try congruence. intros n H. apply F5, E5, H.
Qed.

Lemma tidy_ret {A} (a : A) : Wallet.tidy (Log := Log) (ret a).
Proof.
  intros w log tr. cbn. repeat split; auto. exists []. now rewrite app_nil_r.
Qed.

Lemma tidy_throw {A} (e : JsThrown) : Wallet.tidy (Log := Log) (A := A) (throw e).
Proof.
  intros w log tr. cbn. repeat split; auto. exists []. now rewrite app_nil_r.
Qed.

Lemma tidy_this : Wallet.tidy (Log := Log) (Wallet.this_ Log).
Proof.
  intros w log tr. cbn. repeat split; auto. exists []. now rewrite app_nil_r.
Qed.

Lemma tidy_sync {A} (r : JsThrown + A) : Wallet.tidy (Log := Log) (Wallet.sync r).
Proof. destruct r; [apply tidy_throw | apply tidy_ret]. Qed.

Lemma tidy_request {A} (ev : Wallet.Request) (p : Wallet.RLog -> Settled A) :
  Wallet.tidy (Log := Log) (Wallet.request ev p).
Proof.
  intros w log tr. unfold Wallet.request. cbn [fst snd].
  destruct (p log); cbn [fst snd]; repeat split; auto; now exists [ev].
Qed.

Lemma tidy_bind {A B} (m : Wallet.Method Log A) (k : A -> Wallet.Method Log B) :
  Wallet.tidy m -> (forall a, Wallet.tidy (k a)) -> Wallet.tidy (bind m k).
Proof.
  intros Hm Hk w log tr. unfold bind.
  specialize (Hm w log tr).
  destruct (m ((w, log), tr)) as [c [[w1 log1] tr1]]. cbn [fst snd] in Hm.
  destruct Hm as (K1 & P1 & [n1 L1] & T1). subst log1 tr1.
  destruct c as [a | e |]; cbn [fst snd];
    try (repeat split; auto; try apply K1; now exists n1).
  specialize (Hk a w1 (log ++ n1)%list tr).
  destruct Hk as (K2 & P2 & [n2 L2] & T2).
  split; [eapply kept_trans; eassumption |].
  split; [congruence |].
  split; [| exact T2].
  exists (n1 ++ n2)%list. rewrite L2. now rewrite app_assoc.
Qed.


Lemma tidy_recover {A} (m : Wallet.Method Log A) (h : JsThrown -> Wallet.Method Log A) :
  Wallet.tidy m -> (forall e, Wallet.tidy (h e)) -> Wallet.tidy (Wallet.recover m h).
Proof.
  intros Hm Hh w log tr. unfold Wallet.recover.
  specialize (Hm w log tr).
  destruct (m ((w, log), tr)) as [c [[w1 log1] tr1]]. cbn [fst snd] in Hm.
  destruct Hm as (K1 & P1 & [n1 L1] & T1). subst log1 tr1.
  destruct c as [a | e |]; cbn [fst snd];
    try (repeat split; auto; try apply K1; now exists n1).
  specialize (Hh e w1 (log ++ n1)%list tr).
  destruct Hh as (K2 & P2 & [n2 L2] & T2).
  split; [eapply kept_trans; eassumption |].
  split; [congruence |].
  split; [| exact T2].
  exists (n1 ++ n2)%list. rewrite L2. now rewrite app_assoc.
Qed.

Lemma tidy_setRequiredAccountIdFromServer (actionName : string) :
  Wallet.tidy (setRequiredAccountIdFromServer actionName).
Proof.
  intros [es ca sg aid est pr] log tr. unfold Wallet.kept.
  wallet_run; repeat split; try reflexivity; try congruence;
    try (eexists; rewrite <- ?app_assoc; first [reflexivity | symmetry; apply app_nil_r]).
Qed.

(** Splits a method into its steps and closes each with the lemmas above. *)
Ltac tidy_steps :=
  repeat first
    [ apply tidy_ret | apply tidy_throw | apply tidy_this | apply tidy_request
    | apply tidy_sync | apply tidy_setRequiredAccountIdFromServer
    | apply tidy_bind; [| intros ?]
    | apply tidy_recover; [| intros ?]
    | split_match ].

Ltac tidy_unfold :=
  unfold Wallet.syncTransfer, Wallet.syncTransferFromOtherAccount,
    Wallet.withdrawFromSyncToEthereum, Wallet.fee_or_quote,
    Wallet.setSigningKey, Wallet.onchainAuthSigningKey, Wallet.isOnchainAuthSigningKeySet,
    Wallet.isSigningKeySet, Wallet.getEthMessageSignature,
    Wallet.depositToSyncFromEthereum, Wallet.emergencyWithdraw,
    Wallet.isERC20DepositsApproved, Wallet.approveERC20TokenDeposits,
    Wallet.getEthereumBalance, Wallet.getBalance,
    Wallet.getAccountId, Wallet.getNonce,
    Wallet.getCurrentPubKeyHash, Wallet.getAccountState, Wallet.address.

(** Every public method but [connect] is tidy. *)
Lemma tidy_invoke (c : Wallet.Call) :
  (forall p, c <> Wallet.Call_connect p) ->
  forall (w : W) (log : Wallet.RLog),
    Wallet.kept w (fst (invoke c (w, log))) /\
    Wallet.provider (fst (invoke c (w, log))) = Wallet.provider w /\
    exists news, snd (invoke c (w, log)) = (log ++ news)%list.
Proof.
  intros Hc w log.
  assert (T : forall A (m : Wallet.Method Log A),
             Wallet.tidy m ->
             Wallet.kept w (fst (snd (Wallet.run m w log))) /\
             Wallet.provider (fst (snd (Wallet.run m w log))) = Wallet.provider w /\
             exists news, snd (snd (Wallet.run m w log)) = (log ++ news)%list).
  { intros A m Hm. destruct (Hm w log []) as (K & P & L & _).
    unfold Wallet.run. cbn [fst snd]. auto. }
  destruct c; cbn [Wallet.invoke fst snd];
    try (now contradiction (Hc p));
    apply T; tidy_unfold; tidy_steps.
Qed.

Lemma kept_connect (p : Wallet.SyncProvider) (w : W) (log : Wallet.RLog) :
  invoke (Wallet.Call_connect p) (w, log) = (Wallet.set_provider p w, log).
Proof. reflexivity. Qed.

(** X21: Over every sequence of calls of public methods, the wallet keeps its
    Ethereum signer, its address, its zkSync signer and the signer type; an
    account id it holds is never replaced; the log of requests only grows;
    and the provider changes only through [connect]. *)
Theorem wallet_is_kept_by_its_methods
  (cs : list Wallet.Call) (w : W) (log : Wallet.RLog) :
  Wallet.kept w (fst (invoke_all cs (w, log))) /\
  (exists news, snd (invoke_all cs (w, log)) = (log ++ news)%list) /\
  ((forall p, ~ In (Wallet.Call_connect p) cs) ->
   Wallet.provider (fst (invoke_all cs (w, log))) = Wallet.provider w).
Proof.
  revert w log. induction cs as [| c cs IH]; intros w log.
  - cbn. split; [apply kept_refl |]. split; [| reflexivity].
    exists []. now rewrite app_nil_r.
  - change (invoke_all (c :: cs) (w, log)) with (invoke_all cs (invoke c (w, log))).
    assert (Hstep : Wallet.kept w (fst (invoke c (w, log))) /\
                    (exists news, snd (invoke c (w, log)) = (log ++ news)%list) /\
                    ((forall p, c <> Wallet.Call_connect p) ->
                     Wallet.provider (fst (invoke c (w, log))) = Wallet.provider w)).
    { destruct c;
        try (match goal with
             | |- context [Wallet.invoke _ _ _ _ _ _ _ _ _ _ ?c _] =>
                 destruct (tidy_invoke c ltac:(intros; discriminate) w log) as (K & P & L)
             end;
             split; [exact K | split; [exact L | intros _; exact P]]).
      rewrite kept_connect. cbn [fst snd].
      split; [repeat split; auto |]. split; [exists []; now rewrite app_nil_r |].
      intros H. now contradiction (H p). }
    destruct (invoke c (w, log)) as [w1 log1]. cbn [fst snd] in Hstep.
    destruct Hstep as (K1 & [n1 L1] & P1). subst log1.
    destruct (IH w1 (log ++ n1)%list) as (K2 & [n2 L2] & P2).
    split; [eapply kept_trans; eassumption |].
    split; [exists (n1 ++ n2)%list; rewrite L2; now rewrite app_assoc |].
    intros Hno. rewrite P2, P1; auto.
    + intros p E. apply (Hno p). left. exact E.
    + intros p E. apply (Hno p). now right.
Qed.


Lemma substring_whole (s : string) : substring 0 (String.length s) s = s.
Proof. induction s as [| c s IH]; [reflexivity | cbn; now rewrite IH]. Qed.

Lemma replace_sync_prefix (h : string) :
  Wallet.replace "sync:" "0x" (String.append "sync:" h) = String.append "0x" h.
Proof.
  assert (P : prefix "" h = true) by (destruct h; reflexivity).
  unfold Wallet.replace. cbn. rewrite P. cbn. rewrite Nat.sub_0_r, substring_whole. reflexivity.
Qed.

(** X22: The main contract is given the signer's key hash with its [sync:]
    prefix replaced by [0x], and a gas limit of 200000 unless the caller's
    options carry one. *)
Theorem onchain_auth_sends_the_key_hash_in_hex
  (nonce : option Wallet.Nonce) (ethTxOptions : option Wallet.TransactionRequest)
  (w : W) (log : Wallet.RLog) (s : Wallet.Signer) (h : string) :
  Wallet.signer w = Some s ->
  Wallet.signer_pubKeyHash s = String.append "sync:" h ->
  forall contract pubKeyHash n options,
    In (Wallet.Req_setAuthPubkeyHash contract pubKeyHash n options)
       (Wallet.new_requests log
          (Wallet.run (onchainAuthSigningKey nonce ethTxOptions) w log)) ->
    contract = Wallet.mainContract (Wallet.provider w) /\
    pubKeyHash = String.append "0x" h /\
    exists gasLimit,
      bigNumberify (Wallet.BN_string "200000") = inr gasLimit /\
      Wallet.req_gasLimit options =
        Wallet.overridden (Wallet.Value (Wallet.BN_big gasLimit))
          (Wallet.key_of Wallet.req_gasLimit ethTxOptions).
Proof.
  intros Hs Hh contract pubKeyHash n options.
  destruct w as [es ca sg aid est pr]. cbn [Wallet.signer Wallet.provider] in *. subst sg.
  destruct ethTxOptions as [[on ol op ov orest] |];
    wallet_run; new_requests_list; cbn [In]; intros H;
    repeat (destruct H as [H | H]; try discriminate H); try contradiction;
    injection H as <- <- <- <-;
    (split; [reflexivity |]);
    (split; [rewrite Hh; apply replace_sync_prefix |]);
    eexists; (split; [first [eassumption | reflexivity] | reflexivity]).
Qed.

End WalletFacts.

(** ** More on the trackers *)

Section TrackerEdges.

Variable Log : Type.
Variable parseLog : Log -> option ETHOp.LogDescription.

Local Abbreviation Op := (ETHOp.ETHOperation Log).
Local Abbreviation awaitEthereumTxCommit := (ETHOp.awaitEthereumTxCommit Log parseLog).
Local Abbreviation awaitReceipt := (ETHOp.awaitReceipt Log parseLog).
Local Abbreviation awaitVerifyReceipt := (ETHOp.awaitVerifyReceipt Log parseLog).

Ltac eth_edges :=
  unfold ETHOp.awaitVerifyReceipt, ETHOp.awaitReceipt, ETHOp.priorityOpId_toNumber,
    ETHOp.setErrorState, ETHOp.throwErrorIfFailedState;
  repeat first
    [ rewrite (awaitEthereumTxCommit_eq Log parseLog)
    | progress (unfold bind, ret, throw, get_this, update, await, completion, object, history)
    | progress (cbn [fst snd negb ETHOp.State_eqb ETHOp.state ETHOp.error
                     ETHOp.priorityOpId ETHOp.ethTx ETHOp.zkSyncProvider
                     ETHOp.set_state ETHOp.set_error ETHOp.scanned throw_value] in * )
    | use_answer
    | split_match ].

(** X23: A round trip that fails does not fail an [ETHOperation]: when the
    inclusion receipt or a poll is rejected, the await throws the reason of
    the rejection and leaves the tracker in the state it was in, with no
    error stored, so that a later await makes the round trip again. *)
Theorem failed_round_trip_leaves_ETHOperation (o : Op) (tr : Trace) (reason : string) :
  (ETHOp.state o = ETHOp.Sent ->
   ETHOp.wait (ETHOp.ethTx o) tr = Rejected reason ->
   awaitEthereumTxCommit (o, tr) =
     (Threw (Thrown_foreign reason), (o, (tr ++ [Ev_wait])%list)) /\
   awaitReceipt (o, tr) = (Threw (Thrown_foreign reason), (o, (tr ++ [Ev_wait])%list)) /\
   awaitVerifyReceipt (o, tr) =
     (Threw (Thrown_foreign reason), (o, (tr ++ [Ev_wait])%list))) /\
  (forall id,
      ETHOp.state o = ETHOp.Mined ->
      ETHOp.priorityOpId o = Some id ->
      Z.abs id < 2 ^ 53 ->
      notifyPriorityOp (ETHOp.zkSyncProvider o) tr id COMMIT = Rejected reason ->
      awaitReceipt (o, tr) =
        (Threw (Thrown_foreign reason), (o, (tr ++ [Ev_notifyPriorityOp id COMMIT])%list)) /\
      awaitVerifyReceipt (o, tr) =
        (Threw (Thrown_foreign reason), (o, (tr ++ [Ev_notifyPriorityOp id COMMIT])%list))) /\
  (forall id,
      ETHOp.state o = ETHOp.Committed ->
      ETHOp.priorityOpId o = Some id ->
      Z.abs id < 2 ^ 53 ->
      notifyPriorityOp (ETHOp.zkSyncProvider o) tr id VERIFY = Rejected reason ->
      awaitVerifyReceipt (o, tr) =
        (Threw (Thrown_foreign reason), (o, (tr ++ [Ev_notifyPriorityOp id VERIFY])%list))).
Proof.
  destruct o as [s e p tx pr].
  cbn [ETHOp.state ETHOp.priorityOpId ETHOp.ethTx ETHOp.zkSyncProvider].
  split; [| split].
  - intros -> Hw. repeat split; eth_edges; reflexivity.
  - intros id -> -> Hid Hn. pose proof (toNumber_safe id Hid) as Hnum.
    split; eth_edges; reflexivity.
  - intros id -> -> Hid Hn. pose proof (toNumber_safe id Hid) as Hnum.
    eth_edges; reflexivity.
Qed.

(** X24: A round trip that fails does not fail a [Transaction]: a rejected
    poll throws the reason of the rejection and leaves the tracker in
    [Sent] or in [Committed], with no error stored. *)
Theorem failed_round_trip_leaves_Transaction
  (t : Tx.Transaction) (tr : Trace) (reason : string) :
  (Tx.state t = Tx.Sent ->
   notifyTransaction (Tx.sidechainProvider t) tr (Tx.txHash t) COMMIT = Rejected reason ->
   Tx.awaitReceipt (t, tr) =
     (Threw (Thrown_foreign reason),
      (t, (tr ++ [Ev_notifyTransaction (Tx.txHash t) COMMIT])%list)) /\
   Tx.awaitVerifyReceipt (t, tr) =
     (Threw (Thrown_foreign reason),
      (t, (tr ++ [Ev_notifyTransaction (Tx.txHash t) COMMIT])%list))) /\
  (Tx.state t = Tx.Committed ->
   notifyTransaction (Tx.sidechainProvider t) tr (Tx.txHash t) VERIFY = Rejected reason ->
   Tx.awaitVerifyReceipt (t, tr) =
     (Threw (Thrown_foreign reason),
      (t, (tr ++ [Ev_notifyTransaction (Tx.txHash t) VERIFY])%list))).
Proof.
  destruct t as [s e d h pr]. cbn [Tx.state Tx.sidechainProvider Tx.txHash].
  split.
  - intros -> Hn. split; tx_run; reflexivity.
  - intros -> Hn. tx_run; reflexivity.
Qed.


(** X26: [Transaction.awaitVerifyReceipt] has no guard on the state: on a
    tracker already in [Verified] (as on one in [Committed]) it polls at
    VERIFY depth once more, returns what the poll answers and leaves the
    tracker in [Verified]. *)
Theorem transaction_verify_polls_again (t : Tx.Transaction) (tr : Trace)
  (receipt : TransactionReceipt) :
  Tx.state t = Tx.Committed \/ Tx.state t = Tx.Verified ->
  notifyTransaction (Tx.sidechainProvider t) tr (Tx.txHash t) VERIFY = Fulfilled receipt ->
  Tx.awaitVerifyReceipt (t, tr) =
    (Returned receipt,
     (Tx.set_state Tx.Verified t,
      (tr ++ [Ev_notifyTransaction (Tx.txHash t) VERIFY])%list)).
Proof.
  destruct t as [s e d h pr]. cbn [Tx.state Tx.sidechainProvider Tx.txHash].
  intros [-> | ->] Hn; tx_run; reflexivity.
Qed.

End TrackerEdges.

(** ** The wallet on concrete inputs *)

Local Open Scope string_scope.

(** X1 on a concrete wallet or tracker. *)
Lemma accountId_is_fetched_once_witness :
  Wallet.accountId (WalletSample.wallet (Some 7) "sync:0000") = Some 7 /\
  Wallet.run (Wallet.setRequiredAccountIdFromServer "Transfer funds")
    (WalletSample.wallet (Some 7) "sync:0000") [] =
    (Returned tt, (WalletSample.wallet (Some 7) "sync:0000", [])).
Proof.
  split; [reflexivity |].
  exact (proj1 (accountId_is_fetched_once Sample.Log "Transfer funds"
                  (WalletSample.wallet (Some 7) "sync:0000") []) 7 eq_refl).
Defined.

(** X2 on a concrete wallet or tracker. *)
Lemma unknown_account_is_reported_witness :
  Wallet.accountId (WalletSample.unregistered None) = None /\
  Wallet.run (Wallet.setRequiredAccountIdFromServer "Transfer funds")
    (WalletSample.unregistered None) [] =
    (Threw (Thrown_Error
              "Failed to Transfer funds: Account does not exist in the zkSync network"),
     (WalletSample.unregistered None, [Wallet.Req_getState "0xabc"])).
Proof.
  split; [reflexivity |].
  exact (proj1 (unknown_account_is_reported Sample.Log "Transfer funds"
                  (WalletSample.unregistered None) []
                  (WalletSample.account None "sync:0000") eq_refl eq_refl) eq_refl).
Defined.

(** X3 on a concrete wallet or tracker. *)
Lemma emergencyWithdraw_uses_known_accountId_witness :
  In (Wallet.Req_fullExit "0xma1n" 9 "0xda1"
        (Wallet.mkTransactionRequest Wallet.Absent (Wallet.Value (Wallet.BN_big 500000))
           (Wallet.Value (Wallet.BN_big 20)) Wallet.Absent []))
     (Wallet.new_requests []
        (Wallet.run (WalletSample.emergencyWithdraw (Wallet.mkEmergencyArgs "DAI" (Some 9) None))
           (WalletSample.wallet (Some 7) "sync:0000") [])) /\
  9 = 9.
Proof.
  assert (H : In (Wallet.Req_fullExit "0xma1n" 9 "0xda1"
                    (Wallet.mkTransactionRequest Wallet.Absent
                       (Wallet.Value (Wallet.BN_big 500000))
                       (Wallet.Value (Wallet.BN_big 20)) Wallet.Absent []))
                 (Wallet.new_requests []
                    (Wallet.run
                       (WalletSample.emergencyWithdraw
                          (Wallet.mkEmergencyArgs "DAI" (Some 9) None))
                       (WalletSample.wallet (Some 7) "sync:0000") [])))
    by (right; left; reflexivity).
  split; [exact H |].
  exact (proj2 (emergencyWithdraw_uses_known_accountId Sample.Log WalletSample.parseBigNumber
                  (Wallet.mkEmergencyArgs "DAI" (Some 9) None)
                  (WalletSample.wallet (Some 7) "sync:0000") [] 9 (or_introl eq_refl))
               _ _ _ _ H).
Defined.

(** X4 on a concrete wallet or tracker. *)
Lemma emergencyWithdraw_refuses_unresolved_accountId_witness :
  Wallet.id (WalletSample.account (Some 0) "sync:0000") = Some 0 /\
  Wallet.run (WalletSample.emergencyWithdraw (Wallet.mkEmergencyArgs "DAI" None None))
    (WalletSample.unregistered (Some 0)) [] =
    (Threw (Thrown_Error "Can't resolve account id from the zkSync node"),
     (WalletSample.unregistered (Some 0),
      [Wallet.Req_getGasPrice; Wallet.Req_getState "0xabc"])).
Proof.
  split; [reflexivity |].
  exact (emergencyWithdraw_refuses_unresolved_accountId Sample.Log WalletSample.parseBigNumber
           (Wallet.mkEmergencyArgs "DAI" None None) (WalletSample.unregistered (Some 0)) []
           20 (WalletSample.account (Some 0) "sync:0000")
           eq_refl eq_refl eq_refl eq_refl (or_intror eq_refl)).
Defined.

(** X5 on a concrete wallet or tracker. *)
Lemma erc20_deposit_gas_limit_has_a_floor_witness :
  exists g,
    Wallet.req_gasLimit
      (Wallet.mkTransactionRequest Wallet.Undefined (Wallet.Value (Wallet.BN_big 300000))
         (Wallet.Value (Wallet.BN_big 20)) Wallet.Absent [])
      = Wallet.Value (Wallet.BN_big g) /\
    WalletSample.ERC20_DEPOSIT_GAS_LIMIT <= g.
Proof.
  refine (erc20_deposit_gas_limit_has_a_floor Sample.Log WalletSample.isTokenETH
            WalletSample.ERC20_DEPOSIT_GAS_LIMIT WalletSample.parseBigNumber
            (WalletSample.erc20_deposit false None)
            (WalletSample.wallet_estimating (Some 250000)) [] eq_refl
            "0xma1n"%string "0xda1"%string (Wallet.BN_string "100") "0xdef"%string _ _).
  right; right; left; reflexivity.
Defined.

(** X6 on a concrete wallet or tracker. *)
Lemma erc20_deposit_keeps_the_callers_gas_limit_witness :
  Wallet.key_of Wallet.req_gasLimit
    (Some (WalletSample.with_gasLimit (Wallet.BN_number 90000)))
    = Wallet.Value (Wallet.BN_number 90000) /\
  forall contract token amount to options,
    ~ In (Wallet.Req_estimate_depositERC20 contract token amount to options)
         (Wallet.new_requests []
            (Wallet.run
               (WalletSample.depositToSyncFromEthereum
                  (WalletSample.erc20_deposit false
                     (Some (WalletSample.with_gasLimit (Wallet.BN_number 90000)))))
               (WalletSample.wallet_estimating (Some 250000)) [])).
Proof.
  split; [reflexivity |].
  exact (proj1 (erc20_deposit_keeps_the_callers_gas_limit Sample.Log WalletSample.isTokenETH
                  WalletSample.ERC20_DEPOSIT_GAS_LIMIT WalletSample.parseBigNumber
                  (WalletSample.erc20_deposit false
                     (Some (WalletSample.with_gasLimit (Wallet.BN_number 90000))))
                  (WalletSample.wallet_estimating (Some 250000)) []
                  (Wallet.BN_number 90000) eq_refl)).
Defined.

(** X7 on a concrete wallet or tracker. *)
Lemma erc20_deposit_survives_a_failed_estimate_witness :
  fst (Wallet.run
         (WalletSample.depositToSyncFromEthereum (WalletSample.erc20_deposit false None))
         (WalletSample.wallet_estimating None) []) =
    Returned (ETHOp.new (Wallet.handle (WalletSample.sent 12))
                (Wallet.notifier (Wallet.provider (WalletSample.wallet_estimating None)))).
Proof.
  exact (f_equal fst
    (erc20_deposit_survives_a_failed_estimate Sample.Log WalletSample.isTokenETH
       WalletSample.ERC20_DEPOSIT_GAS_LIMIT WalletSample.parseBigNumber
       (WalletSample.erc20_deposit false None) (WalletSample.wallet_estimating None) []
       20 "0xda1"%string "cannot estimate gas"%string (WalletSample.sent 12)
       eq_refl eq_refl eq_refl eq_refl eq_refl eq_refl eq_refl
       _ eq_refl eq_refl eq_refl)).
Defined.


(** X9 on a concrete wallet or tracker. *)
Lemma eth_deposit_sends_only_depositETH_witness :
  WalletSample.isTokenETH (Wallet.deposit_token WalletSample.eth_deposit) = true /\
  (Wallet.Req_depositETH "0xma1n" "0xdef"
     (Wallet.mkTransactionRequest Wallet.Absent (Wallet.Value (Wallet.BN_big 200000))
        (Wallet.Value (Wallet.BN_big 20)) (Wallet.Value (Wallet.BN_big 100)) [])
   = Wallet.Req_getGasPrice \/
   exists options amount,
     Wallet.Req_depositETH "0xma1n" "0xdef"
       (Wallet.mkTransactionRequest Wallet.Absent (Wallet.Value (Wallet.BN_big 200000))
          (Wallet.Value (Wallet.BN_big 20)) (Wallet.Value (Wallet.BN_big 100)) [])
     = Wallet.Req_depositETH "0xma1n" "0xdef" options /\
     Wallet.bigNumberify WalletSample.parseBigNumber (Wallet.BN_string "100") = inr amount /\
     Wallet.req_value options = Wallet.Value (Wallet.BN_big amount)).
Proof.
  split; [reflexivity |].
  refine (eth_deposit_sends_only_depositETH Sample.Log WalletSample.isTokenETH
            WalletSample.ERC20_DEPOSIT_GAS_LIMIT WalletSample.parseBigNumber
            WalletSample.eth_deposit (WalletSample.wallet_estimating None) [] eq_refl _ _).
  right; left; reflexivity.
Defined.

(** X10 on a concrete wallet or tracker. *)
Lemma eth_needs_no_approval_witness :
  WalletSample.isTokenETH "ETH" = true /\
  Wallet.run (WalletSample.isERC20DepositsApproved "ETH")
    (WalletSample.wallet None "sync:0000") [] =
    (Threw (Thrown_Error "ETH token does not need approval."),
     (WalletSample.wallet None "sync:0000", [])).
Proof.
  split; [reflexivity |].
  exact (proj1 (eth_needs_no_approval Sample.Log WalletSample.isTokenETH
                  WalletSample.ERC20_APPROVE_TRESHOLD WalletSample.MAX_ERC20_APPROVE_AMOUNT
                  WalletSample.parseBigNumber "ETH"%string
                  (WalletSample.wallet None "sync:0000") [] eq_refl)).
Defined.

(** X11 on a concrete wallet or tracker. *)
Lemma erc20_approval_is_a_threshold_witness :
  exists approved,
    Wallet.run (WalletSample.isERC20DepositsApproved "DAI")
      (WalletSample.wallet None "sync:0000") [] =
      (Returned approved,
       (WalletSample.wallet None "sync:0000", [Wallet.Req_allowance "0xda1" "0xabc" "0xma1n"])) /\
    (approved = true <-> WalletSample.ERC20_APPROVE_TRESHOLD <= 77).
Proof.
  exact (erc20_approval_is_a_threshold Sample.Log WalletSample.isTokenETH
           WalletSample.ERC20_APPROVE_TRESHOLD WalletSample.parseBigNumber "DAI"%string
           (WalletSample.wallet None "sync:0000") [] "0xda1"%string 77
           eq_refl eq_refl eq_refl).
Defined.

(** X12 on a concrete wallet or tracker. *)
Lemma no_signer_no_request_witness :
  Wallet.signer WalletSample.keyless = None /\
  Wallet.run (WalletSample.syncTransfer (WalletSample.transfer None)) WalletSample.keyless [] =
    (Threw (Thrown_Error "ZKSync signer is required for sending zksync transactions."),
     (WalletSample.keyless, [])).
Proof.
  split; [reflexivity |].
  exact (proj1 (no_signer_no_request Sample.Log WalletSample.getSignedBytesFromMessage
                  WalletSample.getChangePubkeyMessage WalletSample.parseBigNumber
                  WalletSample.toLowerCase WalletSample.txData_of
                  WalletSample.keyless [] eq_refl) (WalletSample.transfer None)).
Defined.

(** X13 on a concrete wallet or tracker. *)
Lemma signing_key_is_not_set_twice_witness :
  Wallet.run (WalletSample.setSigningKey None false)
    (WalletSample.wallet None "sync:aa11") [] =
    (Threw (Thrown_Error "Current signing key is already set"),
     (WalletSample.wallet None "sync:aa11", [Wallet.Req_getState "0xabc"])).
Proof.
  exact (proj1 (proj2
    (signing_key_is_not_set_twice Sample.Log WalletSample.getSignedBytesFromMessage
       WalletSample.getChangePubkeyMessage WalletSample.parseBigNumber WalletSample.txData_of
       (WalletSample.wallet None "sync:aa11") [] WalletSample.zkSigner
       (WalletSample.account (Some 7) "sync:aa11") eq_refl eq_refl eq_refl)) None false).
Defined.

(** X14 on a concrete wallet or tracker. *)
Lemma change_pub_key_signature_follows_onchainAuth_witness :
  true = true /\
  forall bytes,
    ~ In (Wallet.Req_signMessage bytes)
         (Wallet.new_requests []
            (Wallet.run (WalletSample.setSigningKey None true)
               (WalletSample.wallet None "sync:0000") [])).
Proof.
  split; [reflexivity |].
  exact (proj1 (change_pub_key_signature_follows_onchainAuth Sample.Log
                  WalletSample.getSignedBytesFromMessage WalletSample.getChangePubkeyMessage
                  WalletSample.txData_of None true
                  (WalletSample.wallet None "sync:0000") []) eq_refl).
Defined.

(** X15 on a concrete wallet or tracker. *)
Lemma message_signature_follows_the_signer_type_witness :
  Wallet.ethSignerType WalletSample.keyless = None /\
  Wallet.run (WalletSample.getEthMessageSignature "hello") WalletSample.keyless [] =
    (Threw (Thrown_Error "ethSignerType is unknown"), (WalletSample.keyless, [])).
Proof.
  split; [reflexivity |].
  exact (proj1 (message_signature_follows_the_signer_type Sample.Log
                  WalletSample.getSignedBytesFromMessage "hello"
                  WalletSample.keyless []) eq_refl).
Defined.

(** X16 on a concrete wallet or tracker. *)
Lemma fromEthSigner_needs_the_signer_type_witness :
  Wallet.run_static
    (Wallet.fromEthSigner (WalletSample.ethWallet None)
       (WalletSample.syncProvider (Some 7) "sync:0000") (Some WalletSample.zkSigner) None None)
    [] =
    (Threw (Thrown_Error "If you passed signer, you must also pass ethSignerType."), []) /\
  Wallet.run_static
    (Wallet.fromEthSigner (WalletSample.ethWallet None)
       (WalletSample.syncProvider (Some 7) "sync:0000") None None None)
    [] =
    (Returned (Wallet.mkWallet Sample.Log (WalletSample.ethWallet None) "0xabc"
                 (Some WalletSample.zkSigner) None (Some WalletSample.ecdsa)
                 (WalletSample.syncProvider (Some 7) "sync:0000")),
     [Wallet.Req_fromETHSignature; Wallet.Req_getAddress]).
Proof.
  split.
  - exact (proj1 (fromEthSigner_needs_the_signer_type Sample.Log (WalletSample.ethWallet None)
                    (WalletSample.syncProvider (Some 7) "sync:0000") None [])
                 WalletSample.zkSigner).
  - exact (proj2 (proj2 (fromEthSigner_needs_the_signer_type Sample.Log
                           (WalletSample.ethWallet None)
                           (WalletSample.syncProvider (Some 7) "sync:0000") None []))
                 None WalletSample.zkSigner WalletSample.ecdsa "0xabc" eq_refl eq_refl).
Defined.

(** X17 on a concrete wallet or tracker. *)
Lemma missing_balance_is_zero_witness :
  Wallet.balances (Wallet.committed (WalletSample.account (Some 7) "sync:0000")) "ETH" = None /\
  Wallet.run (WalletSample.getBalance "ETH" false) (WalletSample.wallet None "sync:0000") [] =
    (Returned 0, (WalletSample.wallet None "sync:0000", [Wallet.Req_getState "0xabc"])) /\
  Wallet.run (WalletSample.getBalance "DAI" true) (WalletSample.wallet None "sync:0000") [] =
    (Returned 400, (WalletSample.wallet None "sync:0000", [Wallet.Req_getState "0xabc"])).
Proof.
  split; [reflexivity |]. split.
  - exact (proj1 (missing_balance_is_zero Sample.Log WalletSample.parseBigNumber "ETH" false
                    (WalletSample.wallet None "sync:0000") []
                    (WalletSample.account (Some 7) "sync:0000") "ETH"
                    eq_refl eq_refl eq_refl) (or_introl eq_refl)).
  - exact (proj2 (missing_balance_is_zero Sample.Log WalletSample.parseBigNumber "DAI" true
                    (WalletSample.wallet None "sync:0000") []
                    (WalletSample.account (Some 7) "sync:0000") "DAI"
                    eq_refl eq_refl eq_refl) (Wallet.BN_string "400") 400
                 eq_refl eq_refl eq_refl).
Defined.

(** X18 on a concrete wallet or tracker. *)
Lemma a_given_fee_is_not_quoted_witness :
  Wallet.transfer_fee (WalletSample.transfer (Some (Wallet.BN_number 5)))
    = Some (Wallet.BN_number 5) /\
  forall txType address token,
    ~ In (Wallet.Req_getTransactionFee txType address token)
         (Wallet.new_requests []
            (Wallet.run
               (WalletSample.syncTransfer (WalletSample.transfer (Some (Wallet.BN_number 5))))
               (WalletSample.wallet None "sync:0000") [])).
Proof.
  split; [reflexivity |]. intros txType address token.
  exact (proj1 (a_given_fee_is_not_quoted Sample.Log WalletSample.getSignedBytesFromMessage
                  WalletSample.parseBigNumber WalletSample.toLowerCase WalletSample.txData_of
                  (WalletSample.wallet None "sync:0000") [] (Wallet.BN_number 5))
               (WalletSample.transfer (Some (Wallet.BN_number 5))) txType address token
               eq_refl).
Defined.

(** X19 on a concrete wallet or tracker. *)
Lemma operations_are_submitted_last_and_signed_witness :
  Wallet.submits_last_and_signed
    (Wallet.new_requests []
       (Wallet.run (WalletSample.syncTransfer (WalletSample.transfer None))
          (WalletSample.wallet None "sync:0000") [])) /\
  List.length
    (filter Wallet.is_submitTx
       (Wallet.new_requests []
          (Wallet.run (WalletSample.syncTransfer (WalletSample.transfer None))
             (WalletSample.wallet None "sync:0000") []))) = 1%nat.
Proof.
  split; [| reflexivity].
  exact (proj1 (operations_are_submitted_last_and_signed Sample.Log
                  WalletSample.getSignedBytesFromMessage WalletSample.parseBigNumber
                  WalletSample.toLowerCase WalletSample.txData_of
                  (WalletSample.wallet None "sync:0000") [])
               (WalletSample.transfer None)).
Defined.

(** X20 on a concrete wallet or tracker. *)
Lemma returned_tracker_follows_the_submission_witness :
  exists t,
    fst (Wallet.run (WalletSample.syncTransfer (WalletSample.transfer None))
           (WalletSample.wallet None "sync:0000") []) = Returned t /\
    Tx.state t = Tx.Sent /\
    forall tr,
      history (Tx.awaitReceipt (t, tr)) =
        (tr ++ [Ev_notifyTransaction (Tx.txHash t) COMMIT])%list.
Proof.
  eexists. split; [reflexivity |].
  refine (proj2 (proj2 (proj2 (proj2
            (returned_tracker_follows_the_submission Sample.Log
               WalletSample.getSignedBytesFromMessage WalletSample.getChangePubkeyMessage
               WalletSample.parseBigNumber WalletSample.toLowerCase WalletSample.txData_of
               (WalletSample.wallet None "sync:0000") []))))
            (Wallet.run (WalletSample.syncTransfer (WalletSample.transfer None))
               (WalletSample.wallet None "sync:0000") []) _ _ eq_refl).
  exact (proj1 (returned_tracker_follows_the_submission Sample.Log
                  WalletSample.getSignedBytesFromMessage WalletSample.getChangePubkeyMessage
                  WalletSample.parseBigNumber WalletSample.toLowerCase WalletSample.txData_of
                  (WalletSample.wallet None "sync:0000") []) (WalletSample.transfer None)).
Defined.

(** X21 on a concrete wallet or tracker. *)
Lemma wallet_is_kept_by_its_methods_witness :
  Wallet.kept (WalletSample.wallet None "sync:0000")
    (fst (WalletSample.invoke_all
            [Wallet.Call_syncTransfer (WalletSample.transfer None); Wallet.Call_isSigningKeySet]
            (WalletSample.wallet None "sync:0000", []))) /\
  Wallet.accountId
    (fst (WalletSample.invoke_all
            [Wallet.Call_syncTransfer (WalletSample.transfer None); Wallet.Call_isSigningKeySet]
            (WalletSample.wallet None "sync:0000", []))) = Some 7.
Proof.
  split; [| reflexivity].
  exact (proj1 (wallet_is_kept_by_its_methods Sample.Log WalletSample.isTokenETH
                  WalletSample.getSignedBytesFromMessage WalletSample.getChangePubkeyMessage
                  WalletSample.ERC20_APPROVE_TRESHOLD WalletSample.ERC20_DEPOSIT_GAS_LIMIT
                  WalletSample.MAX_ERC20_APPROVE_AMOUNT WalletSample.parseBigNumber
                  WalletSample.toLowerCase WalletSample.txData_of
                  [Wallet.Call_syncTransfer (WalletSample.transfer None);
                   Wallet.Call_isSigningKeySet]
                  (WalletSample.wallet None "sync:0000") [])).
Defined.

(** X22 on a concrete wallet or tracker. *)
Lemma onchain_auth_sends_the_key_hash_in_hex_witness :
  Wallet.signer_pubKeyHash WalletSample.zkSigner = String.append "sync:" "aa11" /\
  "0xma1n" = Wallet.mainContract (Wallet.provider (WalletSample.wallet None "sync:0000")) /\
  "0xaa11" = String.append "0x" "aa11".
Proof.
  split; [reflexivity |].
  refine ((fun H => conj (proj1 H) (proj1 (proj2 H)))
            (onchain_auth_sends_the_key_hash_in_hex Sample.Log WalletSample.parseBigNumber
               None None (WalletSample.wallet None "sync:0000") [] WalletSample.zkSigner "aa11"
               eq_refl eq_refl "0xma1n" "0xaa11" 3
               (Wallet.mkTransactionRequest Wallet.Absent (Wallet.Value (Wallet.BN_big 200000))
                  Wallet.Absent Wallet.Absent []) _)).
  right; right; left; reflexivity.
Defined.

(** X23 on a concrete wallet or tracker. *)
Lemma failed_round_trip_leaves_ETHOperation_witness :
  ETHOp.state EdgeSample.stuck_deposit = ETHOp.Sent /\
  Sample.awaitReceipt (EdgeSample.stuck_deposit, []) =
    (Threw (Thrown_foreign "transaction failed"), (EdgeSample.stuck_deposit, [Ev_wait])).
Proof.
  split; [reflexivity |].
  exact (proj1 (proj2 (proj1
    (failed_round_trip_leaves_ETHOperation Sample.Log Sample.parseLog
       EdgeSample.stuck_deposit [] "transaction failed") eq_refl eq_refl))).
Defined.

(** X24 on a concrete wallet or tracker. *)
Lemma failed_round_trip_leaves_Transaction_witness :
  Tx.state EdgeSample.stuck_transfer = Tx.Sent /\
  Tx.awaitVerifyReceipt (EdgeSample.stuck_transfer, []) =
    (Threw (Thrown_foreign "timeout"),
     (EdgeSample.stuck_transfer, [Ev_notifyTransaction "sync-tx:ab12" COMMIT])).
Proof.
  split; [reflexivity |].
  exact (proj2 (proj1
    (failed_round_trip_leaves_Transaction EdgeSample.stuck_transfer [] "timeout")
    eq_refl eq_refl)).
Defined.


(** X26 on a concrete wallet or tracker. *)
Lemma transaction_verify_polls_again_witness :
  Tx.state (fst Sample.verified_transfer) = Tx.Verified /\
  Tx.awaitVerifyReceipt (fst Sample.verified_transfer, snd Sample.verified_transfer) =
    (Returned (Sample.transaction_receipt true),
     (Tx.set_state Tx.Verified (fst Sample.verified_transfer),
      [Ev_notifyTransaction "sync-tx:ab12" COMMIT;
       Ev_notifyTransaction "sync-tx:ab12" VERIFY;
       Ev_notifyTransaction "sync-tx:ab12" VERIFY])).
Proof.
  split; [reflexivity |].
  exact (transaction_verify_polls_again (fst Sample.verified_transfer)
           (snd Sample.verified_transfer) (Sample.transaction_receipt true)
           (or_intror eq_refl) eq_refl).
Defined.
